(** * WeepHub: routine scheduling and multi-source dispatch

    A shallow embedding of the scheduling core of the hub's server
    (the latest revision of [server.js]): payload validation
    ([normalizeDays], [normalizeActions], [buildRoutineFromPayload]), the
    secret vault ([encryptSecret], [decryptSecret]), credential resolution
    ([getStoredSmartThingsTokens], [resolveSmartThingsToken]), dispatch
    ([toggleSmartThingsDevice], [sendSmartThingsCommand]), action execution
    ([runRoutineActions]) and the periodic evaluation ([evaluateRoutines]).

    JavaScript values are embedded as an inductive type with the language's
    coercions written out; objects are finite maps from property names to
    values.  Everything the server obtains from its runtime (number
    parsing and printing, the random source, the cipher, the clock, the
    file system and the network) is a field of a class or of the world
    record threaded through the effectful functions. *)

From Stdlib Require Import ZArith QArith Qminmax Lqa String Ascii List Lia Bool.
From Stdlib Require Import DecimalString.
From Stdlib.Strings Require Import Byte.
From stdpp Require Import base gmap strings list option.

Set Warnings "-register-all".
#[local] Open Scope string_scope.
#[local] Open Scope Z_scope.

(** ** JavaScript numbers

    Finite numbers are embedded as rationals.  Comparison, [Math.min] and
    [Math.max] are exact on doubles; a difference or a product is the
    exact one rounded to the nearest double, ties to even, as IEEE 754
    prescribes ([round_double]).  The sign of zero is not kept: nothing
    the server does tells [-0] from [0]. *)

Inductive number :=
| NaN
| PInf
| NInf
| Fin (q : Q).

Definition num_of_Z (z : Z) : number := Fin (inject_Z z).

Definition num_truthy (n : number) : bool :=
  match n with
  | NaN => false
  | PInf | NInf => true
  | Fin q => negb (Qeq_bool q 0)
  end.

(** [a <= b] of the language: false as soon as one side is [NaN]. *)
Definition num_le (a b : number) : bool :=
  match a, b with
  | NaN, _ | _, NaN => false
  | NInf, _ => true
  | _, PInf => true
  | Fin x, Fin y => Qle_bool x y
  | _, _ => false
  end.

Definition num_ge (a b : number) : bool := num_le b a.

(** [===] on numbers: [NaN] differs from itself. *)
Definition num_eq (a b : number) : bool :=
  match a, b with
  | PInf, PInf | NInf, NInf => true
  | Fin x, Fin y => Qeq_bool x y
  | _, _ => false
  end.

Definition Math_min (a b : number) : number :=
  match a, b with
  | NaN, _ | _, NaN => NaN
  | _, _ => if num_le a b then a else b
  end.

Definition Math_max (a b : number) : number :=
  match a, b with
  | NaN, _ | _, NaN => NaN
  | _, _ => if num_le a b then b else a
  end.

(** [2^e] *)
Definition pow2 (e : Z) : Q :=
  match e with
  | Zneg p => 1 # (2 ^ p)%positive
  | _ => inject_Z (2 ^ e)
  end.

(** The integer nearest to [n / d], the even one of two that are equally
    near. *)
Definition round_half_even (n : Z) (d : positive) : Z :=
  let k := n / Zpos d in
  match 2 * (n mod Zpos d) ?= Zpos d with
  | Lt => k
  | Gt => k + 1
  | Eq => if Z.even k then k else k + 1
  end.

(** [floor (log2 (n / d))] *)
Definition floor_log2 (n d : positive) : Z :=
  let e := Z.log2 (Zpos n) - Z.log2 (Zpos d) in
  if Qle_bool (pow2 e) (Zpos n # d) then e else e - 1.

(** The double nearest to [n / d]: 53 significant bits, the exponent of
    the leading bit at least -1022 (below it the numbers are subnormal),
    and infinity from [2^1024] on. *)
Definition round_positive (n d : positive) : number :=
  let e := Z.max (floor_log2 n d) (-1022) in
  let ulp := pow2 (e - 52) in
  let m := ((Zpos n # d) / ulp)%Q in
  let r := Qred (inject_Z (round_half_even (Qnum m) (Qden m)) * ulp) in
  if Qle_bool (pow2 1024) r then PInf else Fin r.

Definition num_neg (a : number) : number :=
  match a with
  | NaN => NaN
  | PInf => NInf
  | NInf => PInf
  | Fin q => Fin (- q)
  end.

Definition round_double (q : Q) : number :=
  match Qnum (Qred q) with
  | Z0 => Fin 0
  | Zpos n => round_positive n (Qden (Qred q))
  | Zneg n => num_neg (round_positive n (Qden (Qred q)))
  end.

(** [a - b] *)
Definition num_sub (a b : number) : number :=
  match a, b with
  | NaN, _ | _, NaN => NaN
  | PInf, PInf | NInf, NInf => NaN
  | PInf, _ | _, NInf => PInf
  | NInf, _ | _, PInf => NInf
  | Fin x, Fin y => round_double (x - y)
  end.

Definition num_sgn (a : number) : Z :=
  match a with
  | NaN => 0
  | PInf => 1
  | NInf => -1
  | Fin x => Z.sgn (Qnum x)
  end.

(** [a * b] *)
Definition num_mul (a b : number) : number :=
  match a, b with
  | NaN, _ | _, NaN => NaN
  | Fin x, Fin y => round_double (x * y)
  | _, _ =>
      match num_sgn a * num_sgn b with
      | Z0 => NaN
      | Zpos _ => PInf
      | Zneg _ => NInf
      end
  end.

(** [Number.isInteger] *)
Definition Number_isInteger (n : number) : bool :=
  match n with
  | Fin q => Z.eqb (Z.modulo (Qnum q) (Zpos (Qden q))) 0
  | _ => false
  end.

(** ** JavaScript values *)

Inductive value :=
| VUndef
| VNull
| VBool (b : bool)
| VNum (n : number)
| VStr (s : string)
| VArr (l : list value)
| VObj (o : gmap string value).

Abbreviation obj := (gmap string value).

Definition truthy (v : value) : bool :=
  match v with
  | VUndef | VNull => false
  | VBool b => b
  | VNum n => num_truthy n
  | VStr s => negb (String.eqb s "")
  | VArr _ | VObj _ => true
  end.

(** [Boolean(v)] *)
Definition Boolean (v : value) : value := VBool (truthy v).

(** [a || b] *)
Definition js_or (a b : value) : value := if truthy a then a else b.

(** [v !== undefined] *)
Definition defined (v : value) : bool :=
  match v with VUndef => false | _ => true end.

(** [v === "s"] for a string literal on the right. *)
Definition is_str (v : value) (s : string) : bool :=
  match v with VStr t => String.eqb t s | _ => false end.

(** [v.k] where [v] is known not to be [null] or [undefined]; none of the
    property names the server reads is defined on a prototype, so reading
    one from a primitive or an array yields [undefined]. *)
Definition get (v : value) (k : string) : value :=
  match v with
  | VObj o => default VUndef (o !! k)
  | _ => VUndef
  end.

Definition oget (o : obj) (k : string) : value := default VUndef (o !! k).

(** [SameValueZero], the key comparison of [Map] and of
    [Array.prototype.includes].  Arrays and objects compare by reference;
    every one the server compares comes from a fresh [JSON.parse], so two
    of them are never the same. *)
Definition same_value_zero (a b : value) : bool :=
  match a, b with
  | VUndef, VUndef | VNull, VNull => true
  | VBool x, VBool y => Bool.eqb x y
  | VNum NaN, VNum NaN => true
  | VNum x, VNum y => num_eq x y
  | VStr x, VStr y => String.eqb x y
  | _, _ => false
  end.

Definition primitive (v : value) : bool :=
  match v with VArr _ | VObj _ => false | _ => true end.

(** Exceptions carry the [message] of the thrown [Error]. *)
Record exn := Throw { message : string }.

Inductive exc (A : Type) :=
| Raise (e : exn)
| Ok (a : A).
Arguments Raise {A} e.
Arguments Ok {A} a.

Definition exc_bind {A B} (m : exc A) (k : A -> exc B) : exc B :=
  match m with
  | Raise e => Raise e
  | Ok a => k a
  end.

Notation "'let?' x ':=' m 'in' k" := (exc_bind m (fun x => k))
  (at level 10, x name, m at level 100, k at level 200).

(** [l.map(f)] for a callback that may throw. *)
Fixpoint mapE {A B} (f : A -> exc B) (l : list A) : exc (list B) :=
  match l with
  | [] => Ok []
  | a :: rest =>
      let? b := f a in
      let? bs := mapE f rest in
      Ok (b :: bs)
  end.

(** ** Strings: sequences of code units below 256 *)

(** White space and line terminators stripped by [trim]. *)
Definition is_space (c : ascii) : bool :=
  let n := nat_of_ascii c in
  ((9 <=? n)%nat && (n <=? 13)%nat) || (n =? 32)%nat || (n =? 160)%nat.

Fixpoint trim_start (s : string) : string :=
  match s with
  | String c rest => if is_space c then trim_start rest else s
  | EmptyString => EmptyString
  end.

Fixpoint str_rev_onto (s acc : string) : string :=
  match s with
  | String c rest => str_rev_onto rest (String c acc)
  | EmptyString => acc
  end.

Definition str_rev (s : string) : string := str_rev_onto s "".

Definition trim (s : string) : string :=
  str_rev (trim_start (str_rev (trim_start s))).

(** [s.slice(0, n)] *)
Fixpoint str_take (n : nat) (s : string) : string :=
  match n, s with
  | S m, String c rest => String c (str_take m rest)
  | _, _ => EmptyString
  end.

Fixpoint join_comma (l : list string) : string :=
  match l with
  | [] => ""
  | [s] => s
  | s :: rest => s ++ "," ++ join_comma rest
  end.

(** What the server takes from its runtime without any logic of its own:
    the numeric reading of a string ([Number("...")]), the printing of a
    number ([String(n)]) and the hex-encoded draws of
    [crypto.randomBytes(n)], indexed by the order in which they are made. *)
Class Runtime := {
  StringToNumber : string -> number;
  NumberToString : number -> string;
  randomHex : nat -> nat -> string
}.

(** The conversion of an object to a primitive calls its [toString] (and
    its [valueOf]).  The values at hand are parsed JSON, which holds no
    function: an object with an own property [toString] has nothing to
    call, and the conversion throws a [TypeError]; any other object
    inherits the methods of [Object.prototype]. *)
Definition own_toString (o : obj) : bool :=
  match o !! "toString" with
  | Some _ => true
  | None => false
  end.

Definition not_primitive : exn := Throw "Cannot convert object to primitive value".

Section Coercions.
Context {rt : Runtime}.

(** [String(v)], also the conversion of [v] in a template literal. *)
Fixpoint ToString (v : value) : exc string :=
  match v with
  | VUndef => Ok "undefined"
  | VNull => Ok "null"
  | VBool true => Ok "true"
  | VBool false => Ok "false"
  | VNum n => Ok (NumberToString n)
  | VStr s => Ok s
  | VArr l =>
      let? parts := mapE (fun x => match x with
                                   | VUndef | VNull => Ok ""
                                   | _ => ToString x
                                   end) l in
      Ok (join_comma parts)
  | VObj o => if own_toString o then Raise not_primitive else Ok "[object Object]"
  end.

(** [Number(v)], also the conversion of an operand of [-]. *)
Definition ToNumber (v : value) : exc number :=
  match v with
  | VUndef => Ok NaN
  | VNull => Ok (num_of_Z 0)
  | VBool true => Ok (num_of_Z 1)
  | VBool false => Ok (num_of_Z 0)
  | VNum n => Ok n
  | VStr s => Ok (StringToNumber s)
  | VArr _ => let? s := ToString v in Ok (StringToNumber s)
  | VObj o => if own_toString o then Raise not_primitive else Ok NaN
  end.

(** [(v).trim()]: a [TypeError] unless [v] is a string. *)
Definition call_trim (v : value) : exc string :=
  match v with
  | VStr s => Ok (trim s)
  | _ => Raise (Throw "trim is not a function")
  end.
End Coercions.

(** ** Routine store: validation and normalisation *)

Definition is_digit (c : ascii) : bool :=
  let n := nat_of_ascii c in (48 <=? n)%nat && (n <=? 57)%nat.

Definition digit_upto (hi : nat) (c : ascii) : bool :=
  let n := nat_of_ascii c in (48 <=? n)%nat && (n <=? 48 + hi)%nat.

(** The pattern [/^([01]\d|2[0-3]):[0-5]\d$/]. *)
Definition time_pattern (s : string) : bool :=
  match s with
  | String h1 (String h2 (String c (String m1 (String m2 EmptyString)))) =>
      ((digit_upto 1 h1 && is_digit h2) || (Ascii.eqb h1 "2" && digit_upto 3 h2))
      && Ascii.eqb c ":" && digit_upto 5 m1 && is_digit m2
  | _ => false
  end.

(** [Array.from(new Set(l))]: first occurrences, in order. *)
Fixpoint Set_from (seen l : list number) : list number :=
  match l with
  | [] => []
  | x :: rest =>
      if existsb (fun y => same_value_zero (VNum y) (VNum x)) seen
      then Set_from seen rest
      else x :: Set_from (seen ++ [x]) rest
  end.

Definition is_weekday (d : number) : bool :=
  Number_isInteger d && num_ge d (num_of_Z 0) && num_le d (num_of_Z 6).

Definition MAX_ACTIONS_PER_ROUTINE : nat := 20.

Inductive build_result :=
| BuildError (error : string)
| BuildRoutine (routine : obj).

Section RoutineStore.
Context {rt : Runtime}.

Definition isValidTimeString (v : value) : exc bool :=
  let? s := ToString (js_or v (VStr "")) in
  Ok (time_pattern (trim s)).

Definition normalizeDays (days : value) : exc (list number) :=
  match days with
  | VArr l =>
      let? numbers := mapE ToNumber l in
      Ok (Set_from [] (List.filter is_weekday numbers))
  | _ => Ok []
  end.

(** The [base] object of one action; [draw] counts the random draws
    made so far. *)
Definition action_base (action : value) (draw : nat) : exc (obj * nat) :=
  let '(id, draw') :=
    if truthy (get action "id") then (get action "id", draw)
    else (VStr (randomHex 6 draw), S draw) in
  let? deviceId := ToString (get action "deviceId") in
  let? sourceId :=
    if truthy (get action "sourceId")
    then let? s := ToString (get action "sourceId") in Ok (VStr s)
    else Ok VUndef in
  let? deviceName :=
    if truthy (get action "deviceName")
    then let? s := ToString (get action "deviceName") in Ok (VStr (str_take 120 s))
    else Ok VUndef in
  Ok (<["deviceName" := deviceName]>
        (<["sourceId" := sourceId]>
           (<["deviceId" := VStr deviceId]>
              (<["id" := id]> ∅))),
      draw').

(** [typeof a.desiredState === "boolean" ? a.desiredState
     : typeof a.on === "boolean" ? a.on : null] *)
Definition desired_state (action : value) : option bool :=
  match get action "desiredState" with
  | VBool b => Some b
  | _ => match get action "on" with
         | VBool b => Some b
         | _ => None
         end
  end.

(** The body of the [for ... of] loop of [normalizeActions]; the result
    lists the pushed actions in push order. *)
Fixpoint normalize_loop (items : list value) (draw : nat) : exc (list obj) :=
  match items with
  | [] => Ok []
  | action :: rest =>
      if negb (truthy action) || negb (truthy (get action "deviceId"))
      then normalize_loop rest draw
      else
        let? based := action_base action draw in
        let '(base, draw') := based in
        if is_str (get action "type") "device_toggle" then
          match desired_state action with
          | None => normalize_loop rest draw'
          | Some desired =>
              let? tl := normalize_loop rest draw' in
              Ok (<["desiredState" := VBool desired]>
                    (<["type" := VStr "device_toggle"]> base) :: tl)
          end
        else if is_str (get action "type") "device_command" then
          let? capability := call_trim (js_or (get action "capability") (VStr "")) in
          let? command := call_trim (js_or (get action "command") (VStr "")) in
          if String.eqb capability "" || String.eqb command ""
          then normalize_loop rest draw'
          else
            let? tl := normalize_loop rest draw' in
            Ok (<["arguments" := match get action "arguments" with
                                 | VArr l => VArr l
                                 | _ => VArr []
                                 end]>
                  (<["command" := VStr command]>
                     (<["capability" := VStr capability]>
                        (<["type" := VStr "device_command"]> base))) :: tl)
        else normalize_loop rest draw'
  end.

(** [Array.isArray(actions) ? actions : actions ? [actions] : []] *)
Definition action_list (actions : value) : list value :=
  match actions with
  | VArr l => l
  | _ => if truthy actions then [actions] else []
  end.

Definition normalizeActions (actions : value) (draw : nat) : exc (list obj) :=
  let? normalized := normalize_loop (action_list actions) draw in
  Ok (take MAX_ACTIONS_PER_ROUTINE normalized).

(** [Math.max(1, Math.min(1440, Number(v) || 0))] *)
Definition clampEveryMinutes (v : value) : exc number :=
  let? n := ToNumber v in
  Ok (Math_max (num_of_Z 1)
        (Math_min (num_of_Z 1440) (if num_truthy n then n else num_of_Z 0))).

(** The [name] block: [inl] is the early [return { error }]. *)
Definition build_name (payload : value) (base : obj) : exc (string + obj) :=
  if defined (get payload "name") then
    let? text := ToString (js_or (get payload "name") (VStr "")) in
    let name := trim text in
    if String.eqb name "" then Ok (inl "Name fehlt")
    else Ok (inr (<["name" := VStr (str_take 120 name)]> base))
  else Ok (inr base).

Definition build_enabled (payload : value) (existing : option obj) (base : obj) : obj :=
  if defined (get payload "enabled")
  then <["enabled" := Boolean (get payload "enabled")]> base
  else match existing with
       | None => <["enabled" := VBool true]> base
       | Some _ => base
       end.

Definition build_trigger (payload : value) (existing : option obj) (base : obj)
  : exc (string + obj) :=
  if defined (get payload "trigger") then
    let trigger := js_or (get payload "trigger") (VObj ∅) in
    if is_str (get trigger "type") "time" then
      let? valid := isValidTimeString (get trigger "time") in
      if negb valid then Ok (inl "Ungültiger Trigger")
      else
        let? days := normalizeDays (get trigger "days") in
        let? time := ToString (get trigger "time") in
        Ok (inr (<["trigger" :=
                     VObj (<["days" := VArr (VNum <$> days)]>
                             (<["time" := VStr (trim time)]>
                                (<["type" := VStr "time"]> ∅)))]> base))
    else if is_str (get trigger "type") "interval" then
      let? everyMinutes := clampEveryMinutes (get trigger "everyMinutes") in
      if negb (num_truthy everyMinutes) then Ok (inl "Ungültiger Trigger")
      else
        Ok (inr (<["trigger" :=
                     VObj (<["everyMinutes" := VNum everyMinutes]>
                             (<["type" := VStr "interval"]> ∅))]> base))
    else Ok (inl "Ungültiger Trigger")
  else match existing with
       | None => Ok (inl "Trigger fehlt")
       | Some _ => Ok (inr base)
       end.

Definition build_actions (payload : value) (existing : option obj) (base : obj)
    (draw : nat) : exc (string + obj) :=
  if defined (get payload "actions") || defined (get payload "action") then
    let? actions :=
      normalizeActions (js_or (get payload "actions") (get payload "action")) draw in
    match actions with
    | [] => Ok (inl "Ungültige Aktionen")
    | _ => Ok (inr (<["actions" := VArr (VObj <$> actions)]> base))
    end
  else match existing with
       | None => Ok (inl "Aktionen fehlen")
       | Some _ => Ok (inr base)
       end.

(** [buildRoutineFromPayload(payload, existing)], with the reading [now]
    of [Date.now()] and the number [draw] of random draws made before
    the call. *)
Definition buildRoutineFromPayload (payload : value) (existing : option obj)
    (now : number) (draw : nat) : exc build_result :=
  let '(base, draw) :=
    match existing with
    | Some e => (e, draw)
    | None =>
        (<["lastRunAt" := VNull]>
           (<["createdAt" := VNum now]>
              (<["id" := VStr (randomHex 8 draw)]> ∅)), S draw)
    end in
  let? named := build_name payload base in
  match named with
  | inl error => Ok (BuildError error)
  | inr base =>
      let base := build_enabled payload existing base in
      let? triggered := build_trigger payload existing base in
      match triggered with
      | inl error => Ok (BuildError error)
      | inr base =>
          let? r := build_actions payload existing base draw in
          match r with
          | inl error => Ok (BuildError error)
          | inr base => Ok (BuildRoutine (<["updatedAt" := VNum now]> base))
          end
      end
  end.
End RoutineStore.

(** ** The world of the server process *)

(** What [new Date()] exposes to the scheduler. *)
Record instant := {
  i_now : number;          (* getTime(), also the reading of Date.now() *)
  i_timeString : string;   (* toTimeString() *)
  i_day : number;          (* getDay(), 0 = Sunday *)
  i_dateString : string    (* toDateString() *)
}.

Record request := {
  rq_method : string;
  rq_url : string;
  rq_authorization : string;
  rq_body : value
}.

Record response := {
  r_ok : bool;
  r_status : number;
  r_text : exc string;     (* await r.text() *)
  r_json : exc value       (* await r.json() *)
}.

Record world := {
  w_env_token : value;               (* process.env.SMARTTHINGS_TOKEN *)
  w_key : exc (list Byte.byte);      (* getKey(): the key file, hex-decoded *)
  w_entries : list value;            (* readIntegrations().smartthings.entries *)
  w_routines : list obj;             (* readRoutines().routines *)
  w_log : list obj;                  (* lines of the activity log, oldest first *)
  w_tracker : list (value * string); (* routineRunTracker, newest binding first *)
  w_launched : list obj;             (* runs started and not awaited *)
  w_clock : nat -> instant;          (* successive readings of the clock *)
  w_ticks : nat;
  w_requests : list request          (* requests sent so far, oldest first *)
}.

Definition set_routines (rs : list obj) (w : world) : world :=
  {| w_env_token := w_env_token w; w_key := w_key w; w_entries := w_entries w;
     w_routines := rs; w_log := w_log w; w_tracker := w_tracker w;
     w_launched := w_launched w; w_clock := w_clock w; w_ticks := w_ticks w;
     w_requests := w_requests w |}.

Definition set_log (l : list obj) (w : world) : world :=
  {| w_env_token := w_env_token w; w_key := w_key w; w_entries := w_entries w;
     w_routines := w_routines w; w_log := l; w_tracker := w_tracker w;
     w_launched := w_launched w; w_clock := w_clock w; w_ticks := w_ticks w;
     w_requests := w_requests w |}.

Definition set_tracker (t : list (value * string)) (w : world) : world :=
  {| w_env_token := w_env_token w; w_key := w_key w; w_entries := w_entries w;
     w_routines := w_routines w; w_log := w_log w; w_tracker := t;
     w_launched := w_launched w; w_clock := w_clock w; w_ticks := w_ticks w;
     w_requests := w_requests w |}.

Definition set_launched (l : list obj) (w : world) : world :=
  {| w_env_token := w_env_token w; w_key := w_key w; w_entries := w_entries w;
     w_routines := w_routines w; w_log := w_log w; w_tracker := w_tracker w;
     w_launched := l; w_clock := w_clock w; w_ticks := w_ticks w;
     w_requests := w_requests w |}.

Definition set_ticks (n : nat) (w : world) : world :=
  {| w_env_token := w_env_token w; w_key := w_key w; w_entries := w_entries w;
     w_routines := w_routines w; w_log := w_log w; w_tracker := w_tracker w;
     w_launched := w_launched w; w_clock := w_clock w; w_ticks := n;
     w_requests := w_requests w |}.

Definition set_requests (l : list request) (w : world) : world :=
  {| w_env_token := w_env_token w; w_key := w_key w; w_entries := w_entries w;
     w_routines := w_routines w; w_log := w_log w; w_tracker := w_tracker w;
     w_launched := w_launched w; w_clock := w_clock w; w_ticks := w_ticks w;
     w_requests := l |}.

(** Computations of the server: they read and change the world and either
    return or throw. *)
Definition M (A : Type) : Type := world -> exc A * world.

Definition ret {A} (a : A) : M A := fun w => (Ok a, w).

Definition throw {A} (msg : string) : M A := fun w => (Raise (Throw msg), w).

Definition bind {A B} (m : M A) (k : A -> M B) : M B :=
  fun w => match m w with
           | (Ok a, w') => k a w'
           | (Raise e, w') => (Raise e, w')
           end.

(** [try { m } catch (err) { h err }] *)
Definition try_catch {A} (m : M A) (h : exn -> M A) : M A :=
  fun w => match m w with
           | (Ok a, w') => (Ok a, w')
           | (Raise e, w') => h e w'
           end.

Definition lift {A} (x : exc A) : M A := fun w => (x, w).

Notation "'let*' x ':=' m 'in' k" := (bind m (fun x => k))
  (at level 10, x name, m at level 100, k at level 200).

Notation "m ';;' k" := (bind m (fun _ => k))
  (at level 100, k at level 200, right associativity).

(** [new Date()] *)
Definition new_Date : M instant :=
  fun w => (Ok (w_clock w (w_ticks w)), set_ticks (S (w_ticks w)) w).

(** [Date.now()] *)
Definition Date_now : M number :=
  let* d := new_Date in ret (i_now d).

(** [v.k], a [TypeError] when [v] is [null] or [undefined]. *)
Definition get_strict (v : value) (k : string) : exc value :=
  match v with
  | VUndef | VNull => Raise (Throw "Cannot read properties of null or undefined")
  | _ => Ok (get v k)
  end.

(** [v?.k] *)
Definition get_opt (v : value) (k : string) : value :=
  match v with
  | VUndef | VNull => VUndef
  | _ => get v k
  end.

(** [a === b]; arrays and objects are compared by reference and the ones
    compared here are parsed separately. *)
Definition strict_eq (a b : value) : bool :=
  match a, b with
  | VUndef, VUndef | VNull, VNull => true
  | VBool x, VBool y => Bool.eqb x y
  | VNum x, VNum y => num_eq x y
  | VStr x, VStr y => String.eqb x y
  | _, _ => false
  end.

(** ** Secret vault *)

(** Node's [crypto] and [Buffer], as far as the vault uses them.
    [gcm_encrypt key iv plain] is [createCipheriv("aes-256-gcm", key, iv)]
    followed by [update], [final] and [getAuthTag];
    [gcm_decrypt key iv tag data] is [createDecipheriv], [setAuthTag],
    [update] and [final], which throws when the tag does not verify. *)
Class Crypto := {
  randomBytes : nat -> nat -> list Byte.byte;
  utf8_encode : string -> list Byte.byte;
  utf8_decode : list Byte.byte -> string;
  base64_encode : list Byte.byte -> string;
  Buffer_from_base64 : value -> exc (list Byte.byte);
  gcm_encrypt : list Byte.byte -> list Byte.byte -> list Byte.byte
                -> exc (list Byte.byte * list Byte.byte);
  gcm_decrypt : list Byte.byte -> list Byte.byte -> list Byte.byte -> list Byte.byte
                -> exc (list Byte.byte)
}.

Section Vault.
Context {cr : Crypto}.

(** The blob before its base64 encoding: [Buffer.concat([iv, tag, enc])]. *)
Definition encryptBlob (plain : string) (key : list Byte.byte) (draw : nat)
  : exc (list Byte.byte) :=
  let iv := randomBytes 12 draw in
  let? sealed := gcm_encrypt key iv (utf8_encode plain) in
  let '(enc, tag) := sealed in
  Ok (iv ++ tag ++ enc)%list.

Definition encryptSecret (plain : string) (key : list Byte.byte) (draw : nat)
  : exc string :=
  let? blob := encryptBlob plain key draw in
  Ok (base64_encode blob).

Definition decryptSecret (payload : value) (key : list Byte.byte) : exc string :=
  if negb (truthy payload) then Ok ""
  else
    let? buf := Buffer_from_base64 payload in
    let iv := take 12 buf in
    let tag := take 16 (drop 12 buf) in
    let data := drop 28 buf in
    let? dec := gcm_decrypt key iv tag data in
    Ok (utf8_decode dec).
End Vault.

Definition gets {A} (f : world -> A) : M A := fun w => (Ok (f w), w).

Definition modify (f : world -> world) : M unit := fun w => (Ok tt, f w).

Fixpoint mapM {A B} (f : A -> M B) (l : list A) : M (list B) :=
  match l with
  | [] => ret []
  | a :: rest =>
      let* b := f a in
      let* bs := mapM f rest in
      ret (b :: bs)
  end.

(** The remote device-control service: what [fetch] resolves to (or
    rejects with) for a request, given the requests sent before it. *)
Class Remote := {
  respond : list request -> request -> exc response
}.

(** What [sendSmartThingsCommand] returns. *)
Record command_outcome := {
  co_result : value;
  co_state : obj;
  co_source : value
}.

(** One entry of the result list of a routine run. *)
Record result := {
  ok : bool;
  actionId : value;
  state : option obj;
  error : option string
}.

Section Dispatch.
Context {rt : Runtime} {cr : Crypto} {net : Remote}.

(** *** Credential store *)

(** The callback of [entries.map] in [getStoredSmartThingsTokens], followed
    by [filter(Boolean)]: [None] is the [null] of the [catch] branch. *)
Definition stored_entry (key : list Byte.byte) (entry : value) : option obj :=
  match
    (let? id := get_strict entry "id" in
     let? token := decryptSecret (get entry "token") key in
     Ok (<["updatedAt" := get entry "updatedAt"]>
           (<["token" := VStr token]>
              (<["enabled" := Boolean (get entry "enabled")]>
                 (<["label" := get entry "label"]>
                    (<["id" := id]> (∅ : obj)))))))
  with
  | Ok o => Some o
  | Raise _ => None
  end.

Definition getStoredSmartThingsTokens : M (list obj) :=
  let* k := gets w_key in
  let* key := lift k in
  let* entries := gets w_entries in
  ret (omap (stored_entry key) entries).

Definition env_entry (token : value) : obj :=
  <["label" := VStr "Env Token"]> (<["id" := VStr "env"]> (<["token" := token]> ∅)).

(** The predicate [(e) => e.enabled] *)
Definition enabled_entry (e : obj) : bool := truthy (oget e "enabled").

Definition resolveSmartThingsToken : M (list obj) :=
  let* env := gets w_env_token in
  if truthy env then ret [env_entry env]
  else
    let* stored := getStoredSmartThingsTokens in
    let enabled := List.filter enabled_entry stored in
    if (0 <? length enabled)%nat then ret enabled
    else throw "SMARTTHINGS_TOKEN fehlt".

(** [sourceId ? tokens.find((t) => t.id === sourceId) : tokens[0]] *)
Definition pick_source (tokens : list obj) (sourceId : value) : option obj :=
  if truthy sourceId
  then List.find (fun t => strict_eq (oget t "id") sourceId) tokens
  else head tokens.

(** *** Remote command dispatcher *)

Definition fetch (rq : request) : M response :=
  fun w => (respond (w_requests w) rq, set_requests (w_requests w ++ [rq]) w).

Definition endpoint (id leaf : string) : string :=
  "https://api.smartthings.com/v1/devices/" ++ id ++ "/" ++ leaf.

(** [`https://api.smartthings.com/v1/devices/${deviceId}/leaf`] *)
Definition device_url (deviceId : value) (leaf : string) : exc string :=
  let? id := ToString deviceId in
  Ok (endpoint id leaf).

(** [`Bearer ${token}`] *)
Definition bearer (token : value) : exc string :=
  let? t := ToString token in
  Ok ("Bearer " ++ t).

Definition getDeviceStatus (deviceId token : value) : M obj :=
  let* url := lift (device_url deviceId "status") in
  let* authorization := lift (bearer token) in
  let* statusRes :=
    fetch {| rq_method := "GET"; rq_url := url;
             rq_authorization := authorization; rq_body := VUndef |} in
  let* statusData := lift (r_json statusRes) in
  let* components := lift (get_strict statusData "components") in
  let main := js_or (get_opt components "main") (VObj ∅) in
  let on :=
    is_str (get_opt (get_opt (get_opt main "switch") "switch") "value") "on" in
  let* url := lift (device_url deviceId "health") in
  let* authorization := lift (bearer token) in
  let* healthRes :=
    fetch {| rq_method := "GET"; rq_url := url;
             rq_authorization := authorization; rq_body := VUndef |} in
  let* healthData := lift (r_json healthRes) in
  let* st := lift (get_strict healthData "state") in
  let online := is_str st "ONLINE" in
  ret (<["online" := VBool online]> (<["on" := VBool on]> (∅ : obj))).

Definition command_body (capability command args : value) : value :=
  VObj (<["commands" :=
            VArr [VObj (<["arguments" := match args with
                                         | VArr l => VArr l
                                         | _ => VArr []
                                         end]>
                          (<["command" := command]>
                             (<["capability" := capability]>
                                (<["component" := VStr "main"]> ∅))))]]> ∅).

Definition sendSmartThingsCommand (deviceId source capability command args : value)
  : M command_outcome :=
  let* url := lift (device_url deviceId "commands") in
  let* authorization := lift (bearer (get source "token")) in
  let* r :=
    fetch {| rq_method := "POST"; rq_url := url;
             rq_authorization := authorization;
             rq_body := command_body capability command args |} in
  if negb (r_ok r) then
    let text := match r_text r with Ok t => t | Raise _ => "" end in
    throw ("SmartThings Command fehlgeschlagen ("
             ++ NumberToString (r_status r) ++ ") " ++ text)
  else
    let* res := lift (r_json r) in
    let* liveStatus := getDeviceStatus deviceId (get source "token") in
    ret {| co_result := res; co_state := liveStatus; co_source := source |}.

Definition toggleSmartThingsDevice (deviceId on sourceId : value) : M command_outcome :=
  let* tokens := resolveSmartThingsToken in
  match pick_source tokens sourceId with
  | None => throw "Token für Quelle nicht gefunden"
  | Some tokenEntry =>
      sendSmartThingsCommand deviceId (VObj tokenEntry) (VStr "switch")
        (VStr (if truthy on then "on" else "off")) (VArr [])
  end.

(** *** Scheduler *)

Definition appendLog (entry : obj) : M unit :=
  let* timestamp :=
    if truthy (oget entry "timestamp") then ret (oget entry "timestamp")
    else let* n := Date_now in ret (VNum n) in
  let logEntry : obj :=
    <["timestamp" := timestamp]>
      (<["action" := js_or (oget entry "action") (VStr "unknown")]>
         (<["device" := js_or (oget entry "device") (VStr "Unbekannt")]> ∅)) in
  let* log := gets w_log in
  modify (set_log (log ++ [logEntry])).

Definition log_device (routine : obj) (action : value) : value :=
  js_or (js_or (get action "deviceName") (oget routine "name")) (get action "deviceId").

(** The toggle branch of the [try] block, from the call of
    [toggleSmartThingsDevice] on. *)
Definition attempt_toggle (routine : obj) (action : value) : M result :=
  let* out := toggleSmartThingsDevice (get action "deviceId")
                (get action "desiredState") (get action "sourceId") in
  let* now := Date_now in
  appendLog (<["timestamp" := VNum now]>
               (<["action" := VStr (if truthy (get action "desiredState")
                                    then "on" else "off")]>
                  (<["device" := log_device routine action]> ∅))) ;;
  ret {| ok := true; actionId := get action "id";
         state := Some (co_state out); error := None |}.

(** The command branch of the [try] block once [tokenEntry] is found. *)
Definition dispatch_command (routine : obj) (action : value) (tokenEntry : obj)
  : M result :=
  let* out := sendSmartThingsCommand (get action "deviceId") (VObj tokenEntry)
                (get action "capability") (get action "command")
                (js_or (get action "arguments") (VArr [])) in
  let* capability := lift (ToString (get action "capability")) in
  let* command := lift (ToString (get action "command")) in
  let* now := Date_now in
  appendLog (<["timestamp" := VNum now]>
               (<["action" := VStr (capability ++ ":" ++ command)]>
                  (<["device" := log_device routine action]> ∅))) ;;
  ret {| ok := true; actionId := get action "id";
         state := Some (co_state out); error := None |}.

(** The [try] block of the loop of [runRoutineActions]. *)
Definition attempt_action (routine : obj) (action : value) : M result :=
  let* type := lift (get_strict action "type") in
  if is_str type "device_toggle" then attempt_toggle routine action
  else if is_str type "device_command" then
    let* tokens := resolveSmartThingsToken in
    match pick_source tokens (get action "sourceId") with
    | None => throw "Token für Quelle nicht gefunden"
    | Some tokenEntry => dispatch_command routine action tokenEntry
    end
  else
    ret {| ok := false; actionId := get action "id"; state := None;
           error := Some "Unsupported action type" |}.

(** One iteration of the loop: the [try] block and its [catch]. *)
Definition run_action (routine : obj) (action : value) : M result :=
  try_catch (attempt_action routine action)
    (fun err =>
       let* id := lift (get_strict action "id") in
       ret {| ok := false; actionId := id; state := None;
              error := Some (message err) |}).

(** What [for (const action of v)] iterates over. *)
Definition iterate (v : value) : exc (list value) :=
  match v with
  | VArr l => Ok l
  | VStr s => Ok ((fun c => VStr (String c "")) <$> list_ascii_of_string s)
  | _ => Raise (Throw "is not iterable")
  end.

Definition runRoutineActions (routine : obj) : M (list result) :=
  let* actions := lift (iterate (js_or (oget routine "actions") (VArr []))) in
  mapM (run_action routine) actions.

(** [routineRunTracker.get(k)] *)
Definition tracker_get (t : list (value * string)) (k : value) : option string :=
  snd <$> List.find (fun p => same_value_zero (fst p) k) t.

(** [routineRunTracker.set(k, v)] *)
Definition tracker_set (k : value) (v : string) : M unit :=
  let* t := gets w_tracker in
  modify (set_tracker ((k, v) :: t)).

(** [runRoutineActions(r).catch(...)] without [await]: the run is started
    and left to proceed on its own. *)
Definition launch (r : obj) : M unit :=
  let* l := gets w_launched in
  modify (set_launched (l ++ [r])).

Definition slot_key (now : instant) : string :=
  i_dateString now ++ "-" ++ str_take 5 (i_timeString now).

(** The callback of [routines.map] in [evaluateRoutines]: the updated
    routine and whether it set [changed]. *)
Definition evaluate_routine (now : instant) (routine : obj) : M (obj * bool) :=
  let hhmm := str_take 5 (i_timeString now) in
  let currentDay := i_day now in
  let updated := routine in
  if negb (truthy (oget updated "enabled")) || negb (truthy (oget updated "trigger"))
  then ret (updated, false)
  else
    let trigger := oget updated "trigger" in
    if is_str (get trigger "type") "time" then
      if is_str (get trigger "time") hhmm then
        let* days := lift (normalizeDays (get trigger "days")) in
        if (0 <? length days)%nat
           && negb (existsb (fun d => same_value_zero (VNum d) (VNum currentDay)) days)
        then ret (updated, false)
        else
          let key := slot_key now in
          let* t := gets w_tracker in
          if match tracker_get t (oget updated "id") with
             | Some k => String.eqb k key
             | None => false
             end
          then ret (updated, false)
          else
            tracker_set (oget updated "id") key ;;
            launch updated ;;
            let* stamp := Date_now in
            ret (<["lastRunAt" := VNum stamp]> updated, true)
      else ret (updated, false)
    else if is_str (get trigger "type") "interval" then
      let* everyMinutes := lift (clampEveryMinutes (get trigger "everyMinutes")) in
      let last := js_or (oget updated "lastRunAt") (VNum (num_of_Z 0)) in
      let* n := Date_now in
      let* last := lift (ToNumber last) in
      if num_ge (num_sub n last)
           (num_mul (num_mul everyMinutes (num_of_Z 60)) (num_of_Z 1000))
      then
        launch updated ;;
        let* stamp := Date_now in
        ret (<["lastRunAt" := VNum stamp]> updated, true)
      else ret (updated, false)
    else ret (updated, false).

(** The evaluation of [routine] fires it: the run is started and the
    routine is marked as changed. *)
Definition fires (now : instant) (routine : obj) (w : world) : Prop :=
  exists updated w',
    evaluate_routine now routine w = (Ok (updated, true), w')
    /\ w_launched w' = (w_launched w ++ [routine])%list.

(** Whether an evaluation of a routine started it; one that throws has
    not. *)
Definition started (out : exc (obj * bool)) : bool :=
  match out with
  | Ok (_, c) => c
  | Raise _ => false
  end.

Definition evaluateRoutines : M unit :=
  try_catch
    (let* routines := gets w_routines in
     let* now := new_Date in
     let* results := mapM (evaluate_routine now) routines in
     if existsb snd results
     then modify (set_routines (fst <$> results))
     else ret tt)
    (fun _ => ret tt).
End Dispatch.


(** ** The validation rules, as the specification words them *)

Section ValidationRules.
Context {rt : Runtime}.

(** A text field that is a string or is absent (or otherwise falsy). *)
Definition textual (v : value) : bool :=
  match v with
  | VStr _ => true
  | _ => negb (truthy v)
  end.

(** A non-empty text, white space aside. *)
Definition nonempty_text (v : value) : bool :=
  match v with
  | VStr s => negb (String.eqb (trim s) "")
  | _ => false
  end.

(** [String(v)] and [Number(v)] return: [v] is no object with an own
    [toString] and no array that holds one (an array is joined element by
    element). *)
Fixpoint convertible (v : value) : bool :=
  match v with
  | VArr l => forallb convertible l
  | VObj o => negb (own_toString o)
  | _ => true
  end.

(** The fields of an action that are read as texts are texts: what is
    converted with [String] converts, and the [capability] and [command]
    of a command action, on which [trim] is called, are strings or
    absent. *)
Definition well_typed_action (a : value) : bool :=
  if truthy a && truthy (get a "deviceId")
  then convertible (get a "deviceId")
       && convertible (get a "sourceId")
       && convertible (get a "deviceName")
       && (if is_str (get a "type") "device_command"
           then textual (get a "capability") && textual (get a "command")
           else true)
  else true.

Definition is_boolean (v : value) : bool :=
  match v with
  | VBool _ => true
  | _ => false
  end.

(** An action survives validation when it has a non-empty [deviceId] and
    is a toggle with a boolean desired state ([desiredState], or [on] in
    its place) or a command with a non-empty capability and command. *)
Definition survives (a : value) : bool :=
  truthy a && truthy (get a "deviceId")
  && ((is_str (get a "type") "device_toggle"
       && (is_boolean (get a "desiredState") || is_boolean (get a "on")))
      || (is_str (get a "type") "device_command"
          && nonempty_text (get a "capability")
          && nonempty_text (get a "command"))).

(** The stored action [o] is the normal form of the submitted action [a]. *)
Definition normalized_from (a : value) (o : obj) : Prop :=
  (exists d, ToString (get a "deviceId") = Ok d /\ oget o "deviceId" = VStr d)
  /\ oget o "type" = get a "type"
  /\ (truthy (get a "id") = true -> oget o "id" = get a "id")
  /\ (is_str (get a "type") "device_toggle" = true ->
      exists b,
        (get a "desiredState" = VBool b
         \/ (is_boolean (get a "desiredState") = false /\ get a "on" = VBool b))
        /\ oget o "desiredState" = VBool b)
  /\ (is_str (get a "type") "device_command" = true ->
      exists c d, get a "capability" = VStr c /\ get a "command" = VStr d
                  /\ oget o "capability" = VStr (trim c)
                  /\ oget o "command" = VStr (trim d)).
End ValidationRules.

(** ** The result list, as the specification words it *)

Definition nullish (v : value) : bool :=
  match v with
  | VUndef | VNull => true
  | _ => false
  end.

(** The shape [{ok, actionId, state?, error?}]: a state with [ok: true], an
    error message with [ok: false]. *)
Definition result_shape (r : result) : Prop :=
  (ok r = true /\ (exists s, state r = Some s) /\ error r = None)
  \/ (ok r = false /\ state r = None /\ exists msg, error r = Some msg).

(** The entry that stands for an attempt: its result, or the [ok: false]
    entry a failure is folded into. *)
Definition entry_of (action : value) (attempt : exc result * world) : result :=
  match attempt with
  | (Ok r, _) => r
  | (Raise e, _) =>
      {| ok := false; actionId := get action "id"; state := None;
         error := Some (message e) |}
  end.

(** ** Further rules and operations, as the code has them *)

Definition digit (n : nat) : ascii := ascii_of_nat (48 + n).

Definition two_digits (n : nat) : string :=
  String (digit (n / 10)) (String (digit (n mod 10)) "").

(** The text [HH:MM] of hour [h] and minute [m]. *)
Definition clock_text (h m : nat) : string :=
  two_digits h ++ ":" ++ two_digits m.

(** [SameValueZero] on numbers, the equality of [Set] and [includes]. *)
Definition same_number (x y : number) : bool :=
  same_value_zero (VNum x) (VNum y).

(** The day of the week a number stands for. *)
Definition weekday_index (d : number) : Z :=
  match d with
  | Fin q => Qnum q / Zpos (Qden q)
  | _ => 0
  end.

(** A stored action, as [normalizeActions] leaves it. *)
Definition stored_action (o : obj) : Prop :=
  (exists s, oget o "deviceId" = VStr s)
  /\ ((oget o "type" = VStr "device_toggle"
       /\ exists b, oget o "desiredState" = VBool b)
      \/ (oget o "type" = VStr "device_command"
          /\ exists c m l,
               oget o "capability" = VStr c /\ c <> ""
               /\ oget o "command" = VStr m /\ m <> ""
               /\ oget o "arguments" = VArr l)).

(** A stored trigger: a time of day with its weekdays, or a number of
    minutes between 1 and 1440. *)
Definition stored_trigger (v : value) : Prop :=
  (exists h m days,
      (h < 24)%nat /\ (m < 60)%nat
      /\ Forall (fun d => is_weekday d = true) days
      /\ v = VObj (<["days" := VArr (VNum <$> days)]>
                     (<["time" := VStr (clock_text h m)]>
                        (<["type" := VStr "time"]> ∅))))
  \/ (exists q,
         (1 <= q)%Q /\ (q <= 1440)%Q
         /\ v = VObj (<["everyMinutes" := VNum (Fin q)]>
                        (<["type" := VStr "interval"]> ∅))).

(** A routine with one trigger and between 1 and 20 actions. *)
Definition stored_routine (r : obj) : Prop :=
  stored_trigger (oget r "trigger")
  /\ exists l, oget r "actions" = VArr (VObj <$> l)
               /\ l <> [] /\ (length l <= 20)%nat /\ Forall stored_action l.

(** *** Upsert of a credential entry *)

Definition set_entries (es : list value) (w : world) : world :=
  {| w_env_token := w_env_token w; w_key := w_key w; w_entries := es;
     w_routines := w_routines w; w_log := w_log w; w_tracker := w_tracker w;
     w_launched := w_launched w; w_clock := w_clock w; w_ticks := w_ticks w;
     w_requests := w_requests w |}.

Definition index_key (i : nat) : string := NilZero.string_of_uint (Nat.to_uint i).

(** [{...v}]: the own properties of an object, the elements of an array
    or the characters of a string under their indices, nothing for the
    other values. *)
Definition spread (v : value) : obj :=
  match v with
  | VObj o => o
  | VArr l => list_to_map (imap (fun i x => (index_key i, x)) l)
  | VStr s =>
      list_to_map (imap (fun i c => (index_key i, VStr (String c "")))
                     (list_ascii_of_string s))
  | _ => ∅
  end.

(** [entries.findIndex((e) => e.id === id)], counting from [i]. *)
Fixpoint findIndex_id (entries : list value) (id : value) (i : nat) : exc (option nat) :=
  match entries with
  | [] => Ok None
  | e :: rest =>
      let? eid := get_strict e "id" in
      if strict_eq eid id then Ok (Some i) else findIndex_id rest id (S i)
  end.

Section Upsert.
Context {rt : Runtime} {cr : Crypto}.

(** The [newEntry] of [saveSmartThingsEntry]. *)
Definition new_entry (id label : value) (sealed : string) (enabled : value)
    (now : number) : obj :=
  <["updatedAt" := VNum now]>
    (<["enabled" := Boolean enabled]>
       (<["token" := VStr sealed]>
          (<["label" := js_or label (VStr "SmartThings")]>
             (<["id" := id]> ∅)))).

(** [saveSmartThingsEntry({ id, label, token, enabled = true })], with the
    number [draw] of random draws made before the call. *)
Definition saveSmartThingsEntry (id label : value) (token : string)
    (enabled : value) (draw : nat) : M value :=
  let enabled := if defined enabled then enabled else VBool true in
  let* k := gets w_key in
  let* key := lift k in
  let* entries := gets w_entries in
  let* idx := lift (findIndex_id entries id 0) in
  let '(newId, draw') :=
    if truthy id then (id, draw) else (VStr (randomHex 8 draw), S draw) in
  let* sealed := lift (encryptSecret token key draw') in
  let* now := Date_now in
  let newEntry := new_entry newId label sealed enabled now in
  modify (set_entries
            match idx with
            | Some i =>
                <[i := VObj (newEntry ∪ spread (default VUndef (entries !! i)))]> entries
            | None => (entries ++ [VObj newEntry])%list
            end) ;;
  ret newId.
End Upsert.

(** The store after [saveSmartThingsEntry]. *)
Definition upserted (entries : list value) (id : value) (newEntry : obj) : list value :=
  match findIndex_id entries id 0 with
  | Ok (Some i) =>
      <[i := VObj (newEntry ∪ spread (default VUndef (entries !! i)))]> entries
  | _ => (entries ++ [VObj newEntry])%list
  end.


(** *** Requests of the dispatcher *)

Section Requests.
Context {rt : Runtime}.

Definition status_request (deviceId token : string) : request :=
  {| rq_method := "GET";
     rq_url := endpoint deviceId "status";
     rq_authorization := "Bearer " ++ token; rq_body := VUndef |}.

Definition health_request (deviceId token : string) : request :=
  {| rq_method := "GET";
     rq_url := endpoint deviceId "health";
     rq_authorization := "Bearer " ++ token; rq_body := VUndef |}.

Definition command_request (deviceId token : string) (capability command args : value)
  : request :=
  {| rq_method := "POST";
     rq_url := endpoint deviceId "commands";
     rq_authorization := "Bearer " ++ token;
     rq_body := command_body capability command args |}.
End Requests.

(** *** Effects of a routine run *)

(** The world [w] with another log, tick count and list of requests. *)
Definition touch (log : list obj) (ticks : nat) (requests : list request)
    (w : world) : world :=
  set_log log (set_ticks ticks (set_requests requests w)).

(** From [w] to [w'] the log grew by [added], and nothing else changed
    but the number of clock readings and the requests sent: the
    environment, the key, the stored entries and routines, the run tracker
    and the started runs are those of [w]. *)
Definition logged (w w' : world) (added : list obj) : Prop :=
  exists ticks requests, w' = touch (w_log w ++ added) ticks requests w.

(** The number of [ok: true] entries of a result list. *)
Definition successes (results : list result) : nat :=
  length (List.filter ok results).

(** *** Settings: the polling interval *)

Definition DEFAULT_ROUTINE_CHECK_INTERVAL_MS : number := num_of_Z 30000.

(** [a < b] of the language on numbers. *)
Definition num_lt (a b : number) : bool :=
  match a, b with
  | NaN, _ | _, NaN => false
  | Fin x, Fin y => negb (Qle_bool y x)
  | NInf, (PInf | Fin _) => true
  | Fin _, PInf => true
  | _, _ => false
  end.

(** [Number.isFinite(v)]: no coercion, so only for numbers. *)
Definition Number_isFinite (v : value) : bool :=
  match v with
  | VNum (Fin _) => true
  | _ => false
  end.

Section Settings.
Context {rt : Runtime}.

(** The [sanitized] of [POST /api/settings]:
    [Math.max(5000, Math.min(5 * 60 * 1000, Number(v) || DEFAULT))]. *)
Definition sanitizeInterval (v : value) : exc number :=
  let? n := ToNumber v in
  Ok (Math_max (num_of_Z 5000)
        (Math_min (num_of_Z 300000)
           (if num_truthy n then n else DEFAULT_ROUTINE_CHECK_INTERVAL_MS))).

(** The value [applyRoutineInterval(ms)] leaves in [routineIntervalMs];
    the timer it arms with it and the evaluation it starts are not part of
    the model. *)
Definition applyRoutineInterval (ms : value) : value :=
  if negb (Number_isFinite ms)
     || match ms with VNum n => num_lt n (num_of_Z 5000) | _ => false end
  then VNum DEFAULT_ROUTINE_CHECK_INTERVAL_MS
  else ms.
End Settings.

(** *** The operations behind the routine endpoints *)

(** What a handler answers: the status and the JSON body. *)
Record reply := {
  status : Z;
  body : obj
}.

Definition result_value (r : result) : value :=
  VObj (<["ok" := VBool (ok r)]>
          (<["actionId" := actionId r]>
             (match state r with
              | Some s => <["state" := VObj s]>
              | None => fun o => o
              end
                (match error r with
                 | Some msg => <["error" := VStr msg]> ∅
                 | None => ∅
                 end)))).

(** [routines.findIndex((r) => r.id === id)], counting from [i]. *)
Fixpoint routine_index (routines : list obj) (id : string) (i : nat) : option nat :=
  match routines with
  | [] => None
  | r :: rest =>
      if strict_eq (oget r "id") (VStr id) then Some i
      else routine_index rest id (S i)
  end.

Section Endpoints.
Context {rt : Runtime} {cr : Crypto} {net : Remote}.

(** [POST /api/routines], once the session is checked. *)
Definition routines_post (payload : value) (draw : nat) : M reply :=
  let* now := Date_now in
  let* built := lift (buildRoutineFromPayload (js_or payload (VObj ∅)) None now draw) in
  match built with
  | BuildError error =>
      ret {| status := 400; body := {["error" := VStr error]} |}
  | BuildRoutine routine =>
      let* routines := gets w_routines in
      modify (set_routines (routines ++ [routine])) ;;
      ret {| status := 200;
             body := <["routine" := VObj routine]> {["success" := VBool true]} |}
  end.

(** [PATCH /api/routines/:id] *)
Definition routines_patch (id : string) (payload : value) (draw : nat) : M reply :=
  let* routines := gets w_routines in
  match routine_index routines id 0 with
  | None => ret {| status := 404; body := {["error" := VStr "Routine nicht gefunden"]} |}
  | Some idx =>
      let* now := Date_now in
      let* built :=
        lift (buildRoutineFromPayload (js_or payload (VObj ∅)) (routines !! idx) now draw) in
      match built with
      | BuildError error =>
          ret {| status := 400; body := {["error" := VStr error]} |}
      | BuildRoutine routine =>
          modify (set_routines (<[idx := routine]> routines)) ;;
          ret {| status := 200;
                 body := <["routine" := VObj routine]> {["success" := VBool true]} |}
      end
  end.

(** [DELETE /api/routines/:id] *)
Definition routines_delete (id : string) : M reply :=
  let* routines := gets w_routines in
  let kept := List.filter (fun r => negb (strict_eq (oget r "id") (VStr id))) routines in
  if (length routines =? length kept)%nat
  then ret {| status := 404; body := {["error" := VStr "Routine nicht gefunden"]} |}
  else
    modify (set_routines kept) ;;
    ret {| status := 200; body := {["success" := VBool true]} |}.

(** [POST /api/routines/:id/run] *)
Definition routines_run (id : string) : M reply :=
  let* routines := gets w_routines in
  match routine_index routines id 0 with
  | None => ret {| status := 404; body := {["error" := VStr "Routine nicht gefunden"]} |}
  | Some idx =>
      let routine := default ∅ (routines !! idx) in
      try_catch
        (let* results := runRoutineActions routine in
         let* now := Date_now in
         let stamped := <["lastRunAt" := VNum now]> routine in
         modify (set_routines (<[idx := stamped]> routines)) ;;
         ret {| status := 200;
                body := <["routine" := VObj stamped]>
                          (<["results" := VArr (result_value <$> results)]>
                             {["success" := VBool true]}) |})
        (fun _ =>
           ret {| status := 500;
                  body := {["error" := VStr "Routine konnte nicht ausgeführt werden"]} |})
  end.
End Endpoints.

(** *** Activity log endpoints *)

(** [l.slice(-n)]: the last [n] elements, and the whole of [l] for
    [n = 0], since [-0] is [0]. *)
Definition slice_last {A} (n : nat) (l : list A) : list A :=
  match n with
  | O => l
  | _ => drop (length l - n) l
  end.

(** [readLogs(limit)]: the lines of the log, which the server alone
    writes, one JSON object each, newest first. *)
Definition readLogs (limit : nat) : M (list obj) :=
  let* log := gets w_log in
  ret (reverse (slice_last limit log)).

Section LogEndpoint.
Context {rt : Runtime}.

(** [POST /api/logs] *)
Definition logs_post (payload : value) : M reply :=
  let payload := js_or payload (VObj ∅) in
  let device := get payload "device" in
  let action := get payload "action" in
  let timestamp := get payload "timestamp" in
  if negb (truthy device) || negb (truthy action)
  then ret {| status := 400;
              body := {["error" := VStr "device und action sind erforderlich"]} |}
  else
    let* deviceText := lift (ToString device) in
    let* actionText := lift (ToString action) in
    let* stamp :=
      if Number_isFinite timestamp then ret timestamp
      else let* n := Date_now in ret (VNum n) in
    let logEntry : obj :=
      <["timestamp" := stamp]>
        (<["action" := VStr (str_take 50 actionText)]>
           (<["device" := VStr (str_take 200 deviceText)]> ∅)) in
    appendLog logEntry ;;
    ret {| status := 200;
           body := <["log" := VObj logEntry]> {["success" := VBool true]} |}.
End LogEndpoint.

(** *** Device mapping *)

(** The receiver of [.map] or [.flatMap]: an array, or a [TypeError]. *)
Definition array_of (v : value) : exc (list value) :=
  match v with
  | VArr l => Ok l
  | _ => Raise (Throw "is not a function")
  end.

(** [typeof cap === "string" ? cap : cap.id] *)
Definition capability_id (cap : value) : exc value :=
  match cap with
  | VStr _ => Ok cap
  | _ => get_strict cap "id"
  end.

(** [(c.capabilities || []).map(...)] *)
Definition component_capabilities (c : value) : exc (list value) :=
  let? caps := get_strict c "capabilities" in
  let? l := array_of (js_or caps (VArr [])) in
  mapE capability_id l.

(** The [caps] of [mapSmartThingsDevice]. *)
Definition device_capabilities (device : value) : exc (list value) :=
  let? components := get_strict device "components" in
  let? l := array_of (js_or components (VArr [])) in
  let? per := mapE component_capabilities l in
  Ok (concat per).

(** [caps.includes(name)] *)
Definition includes (caps : list value) (name : string) : bool :=
  existsb (fun c => same_value_zero c (VStr name)) caps.

Definition inferredType (caps : list value) : string :=
  let hasDim := includes caps "switchLevel" || includes caps "colorControl" in
  let hasColor := includes caps "colorControl" || includes caps "colorTemperature" in
  let hasPower := includes caps "powerMeter" || includes caps "energyMeter" in
  let hasSwitch := includes caps "switch" in
  if hasDim || hasColor then "Licht"
  else if hasPower || hasSwitch then "Steckdose"
  else "Gerät".

Definition mapSmartThingsDevice (device liveStatus : value) : exc obj :=
  let? caps := device_capabilities device in
  let? online := get_strict liveStatus "online" in
  Ok (<["brand" := js_or (get device "manufacturerName") (VStr "SmartThings")]>
        (<["room" := js_or (get device "roomId") (VStr "Unbekannt")]>
           (<["type" := VStr (inferredType caps)]>
              (<["on" := get liveStatus "on"]>
                 (<["online" := online]>
                    (<["name" := js_or (js_or (get device "label") (get device "name"))
                                   (VStr "Unbenannt")]>
                       (<["id" := get device "deviceId"]> ∅))))))).

(** *** Sessions *)

(** [crypto.createHash("sha256").update(s).digest("hex")] *)
Class Digest := {
  sha256_hex : string -> string
}.

(** [s.split(c)] for a separator of one character: the first piece and
    the pieces after it. *)
Fixpoint split_on (c : ascii) (s : string) : string * list string :=
  match s with
  | EmptyString => (EmptyString, [])
  | String a rest =>
      let '(p, ps) := split_on c rest in
      if Ascii.eqb a c then (EmptyString, p :: ps) else (String a p, ps)
  end.

(** The pieces of [header.split(";")]. *)
Definition cookie_parts (header : string) : list string :=
  let '(p, ps) := split_on ";" header in p :: ps.

(** The callback of [parseCookies]: [[key, rest.join("=")]]. *)
Definition cookie_entry (part : string) : string * value :=
  let '(key, rest) := split_on "=" (trim part) in
  (key, VStr (String.concat "=" rest)).

(** [Object.fromEntries]: a later entry replaces an earlier one with the
    same key. *)
Definition Object_fromEntries (l : list (string * value)) : obj :=
  foldl (fun o kv => <[kv.1 := kv.2]> o) ∅ l.

Definition parseCookies (header : value) : exc obj :=
  if negb (truthy header) then Ok ∅
  else match header with
       | VStr s => Ok (Object_fromEntries (cookie_entry <$> cookie_parts s))
       | _ => Raise (Throw "header.split is not a function")
       end.

Section Sessions.
Context {rt : Runtime} {dg : Digest}.

(** [`${user.username}:${user.hash}:${user.salt}`], hashed. *)
Definition makeSessionToken (user : value) : exc string :=
  let? username := ToString (get user "username") in
  let? hash := ToString (get user "hash") in
  let? salt := ToString (get user "salt") in
  Ok (sha256_hex (username ++ ":" ++ hash ++ ":" ++ salt)).

(** [validateSession(req, user)], with [cookie] for [req.headers.cookie]. *)
Definition validateSession (cookie user : value) : exc value :=
  if negb (truthy user) then Ok VNull
  else
    let? cookies := parseCookies (js_or cookie (VStr "")) in
    let token := oget cookies "sid" in
    if negb (truthy token) then Ok VNull
    else
      let? expected := makeSessionToken user in
      if negb (strict_eq token (VStr expected)) then Ok VNull
      else Ok (get user "username").
End Sessions.

(** The character [c] occurs in [s]. *)
Fixpoint occurs (c : ascii) (s : string) : bool :=
  match s with
  | EmptyString => false
  | String a rest => Ascii.eqb a c || occurs c rest
  end.

(** The value of the last entry of [l] under the key [k]. *)
Fixpoint last_entry (k : string) (l : list (string * value)) : option value :=
  match l with
  | [] => None
  | (k', v) :: rest =>
      match last_entry k rest with
      | Some x => Some x
      | None => if String.eqb k' k then Some v else None
      end
  end.

(** The header [s] presents the session token [token]: one of its parts
    is, white space around it aside, [sid=token], and no part after it
    has the key [sid]. *)
Definition presents (s token : string) : Prop :=
  exists before part after,
    cookie_parts s = (before ++ part :: after)%list
    /\ trim part = "sid=" ++ token
    /\ Forall (fun p => (cookie_entry p).1 <> "sid") after.
(** ** A concrete runtime and world for the examples *)

(** Decimal integers only; anything else reads as [NaN]. *)
Definition sample_StringToNumber (s : string) : number :=
  if String.eqb s "" then num_of_Z 0
  else match NilZero.int_of_string s with
       | Some i => num_of_Z (Z.of_int i)
       | None => NaN
       end.

Definition sample_NumberToString (n : number) : string :=
  match n with
  | NaN => "NaN"
  | PInf => "Infinity"
  | NInf => "-Infinity"
  | Fin q => NilZero.string_of_int (Z.to_int (Qnum q / Zpos (Qden q)))
  end.

Fixpoint zeros (n : nat) : string :=
  match n with
  | O => ""
  | S m => String "0" (zeros m)
  end.

Definition sample_randomHex (n draw : nat) : string :=
  let s := NilZero.string_of_uint (Nat.to_uint draw) in
  zeros (2 * n - String.length s) ++ s.

Definition sample_runtime : Runtime :=
  {| StringToNumber := sample_StringToNumber;
     NumberToString := sample_NumberToString;
     randomHex := sample_randomHex |}.

Definition bytes_eqb (a b : list Byte.byte) : bool :=
  String.eqb (string_of_list_byte a) (string_of_list_byte b).

(** A stand-in for the cipher, with the interface of the real one and no
    secrecy: the data is left as it is and the tag is cut from the key and
    the nonce. *)
Definition sample_tag (key iv : list Byte.byte) : list Byte.byte :=
  take 16 (key ++ iv ++ repeat x00 16)%list.

Definition sample_crypto : Crypto :=
  {| randomBytes := fun n draw => repeat (default x00 (Byte.of_nat draw)) n;
     utf8_encode := list_byte_of_string;
     utf8_decode := string_of_list_byte;
     base64_encode := string_of_list_byte;
     Buffer_from_base64 := fun v =>
       match v with
       | VStr s => Ok (list_byte_of_string s)
       | _ => Raise (Throw "The first argument must be of type string")
       end;
     gcm_encrypt := fun key iv plain => Ok (plain, sample_tag key iv);
     gcm_decrypt := fun key iv tag data =>
       if bytes_eqb tag (sample_tag key iv) then Ok data
       else Raise (Throw "Unsupported state or unable to authenticate data") |}.

Definition sample_key : list Byte.byte := repeat x01 32.

Definition sealed (plain : string) (draw : nat) : value :=
  match @encryptSecret sample_crypto plain sample_key draw with
  | Ok s => VStr s
  | Raise _ => VNull
  end.

Definition sample_entry (id : string) (enabled : bool) (draw : nat) : value :=
  VObj (<["updatedAt" := VNum (num_of_Z 1700000000000)]>
          (<["token" := sealed ("token-" ++ id) draw]>
             (<["enabled" := VBool enabled]>
                (<["label" := VStr id]> (<["id" := VStr id]> ∅))))).

(** The service answers every request with a device that is on and
    online, except commands to the device ["bad"], which it refuses. *)
Definition sample_remote : Remote :=
  {| respond := fun _ rq =>
       if String.eqb (rq_url rq) "https://api.smartthings.com/v1/devices/bad/commands"
       then Ok {| r_ok := false; r_status := num_of_Z 500;
                  r_text := Ok "refused"; r_json := Raise (Throw "Unexpected token") |}
       else Ok {| r_ok := true; r_status := num_of_Z 200; r_text := Ok "";
                  r_json :=
                    Ok (VObj (<["state" := VStr "ONLINE"]>
                                (<["components" :=
                                     VObj {["main" :=
                                       VObj {["switch" :=
                                         VObj {["switch" :=
                                           VObj {["value" := VStr "on"]}]}]}]}]> ∅))) |} |}.

Definition instant_at (ms : Z) (time : string) : instant :=
  {| i_now := num_of_Z ms;
     i_timeString := time;
     i_day := num_of_Z 3;
     i_dateString := "Wed Nov 15 2023" |}.

(** Readings of a clock within the minute 08:30 of a Wednesday, one
    millisecond apart; the clock stops at the last one. *)
Definition sample_instant (n : nat) : instant :=
  nth n
    ((fun k => instant_at (1700037000000 + k) "08:30:00 GMT+0000 (Coordinated Universal Time)")
       <$> [0; 1; 2; 3; 4; 5; 6; 7; 8; 9; 10; 11])
    (instant_at 1700037000012 "08:30:00 GMT+0000 (Coordinated Universal Time)").

(** Two stored sources, ["a"] disabled and ["b"] enabled, and no token in
    the environment. *)
Definition sample_world : world :=
  {| w_env_token := VUndef;
     w_key := Ok sample_key;
     w_entries := [sample_entry "a" false 0; sample_entry "b" true 1];
     w_routines := [];
     w_log := [];
     w_tracker := [];
     w_launched := [];
     w_clock := sample_instant;
     w_ticks := 0;
     w_requests := [] |}.

Definition with_env_token (token : value) (w : world) : world :=
  {| w_env_token := token; w_key := w_key w; w_entries := w_entries w;
     w_routines := w_routines w; w_log := w_log w; w_tracker := w_tracker w;
     w_launched := w_launched w; w_clock := w_clock w; w_ticks := w_ticks w;
     w_requests := w_requests w |}.

Definition toggle_action (id device : string) (on : bool) : value :=
  VObj (<["desiredState" := VBool on]>
          (<["type" := VStr "device_toggle"]>
             (<["deviceId" := VStr device]> (<["id" := VStr id]> ∅)))).

Definition interval_trigger (everyMinutes : value) : value :=
  VObj (<["everyMinutes" := everyMinutes]> (<["type" := VStr "interval"]> ∅)).

Definition time_trigger (time : string) : value :=
  VObj (<["days" := VArr []]> (<["time" := VStr time]> (<["type" := VStr "time"]> ∅))).

Definition sample_routine (id : string) (trigger : value) (actions : list value) : obj :=
  <["lastRunAt" := VNull]>
    (<["createdAt" := VNum (num_of_Z 1700000000000)]>
       (<["actions" := VArr actions]>
          (<["trigger" := trigger]>
             (<["enabled" := VBool true]>
                (<["name" := VStr "Morning"]> (<["id" := VStr id]> ∅)))))).


Definition interval_payload (trigger : value) : value :=
  VObj (<["actions" := VArr [toggle_action "a1" "plug" true]]>
          (<["trigger" := trigger]> (<["name" := VStr "Heater"]> ∅))).

Definition stored_sample (id : string) (enabled : bool) : obj :=
  <["updatedAt" := VNum (num_of_Z 1700000000000)]>
    (<["token" := VStr ("token-" ++ id)]>
       (<["enabled" := VBool enabled]>
          (<["label" := VStr id]> (<["id" := VStr id]> ∅)))).

Definition env_world : world := with_env_token (VStr "pat-env") sample_world.

Definition morning : obj :=
  sample_routine "r1" (time_trigger "08:30") [toggle_action "a1" "plug" true].

Definition time_world : world := set_routines [morning] sample_world.

(** The world after one evaluation of [time_world], and the routine as
    that evaluation stored it. *)
Definition fired_once : world :=
  snd (@evaluateRoutines sample_runtime time_world).

Definition morning_after : obj :=
  <["lastRunAt" := VNum (num_of_Z 1700037000001)]> morning.

Definition three_steps : obj :=
  sample_routine "r2" (interval_trigger (VNum (num_of_Z 5)))
    [toggle_action "a1" "plug" true;
     toggle_action "a2" "bad" true;
     toggle_action "a3" "lamp" false].

Definition alias_payload : value :=
  VObj {["action" := toggle_action "a2" "lamp" false]}.

Definition rename_payload : value := VObj {["name" := VStr "  Evening "]}.

Definition mixed_actions : value :=
  VArr [toggle_action "a1" "plug" true;
        VObj (<["command" := VStr "on"]>
                (<["capability" := VStr "   "]>
                   (<["type" := VStr "device_command"]>
                      (<["deviceId" := VStr "lamp"]> ∅))));
        VObj (<["on" := VBool true]> (<["type" := VStr "device_toggle"]> ∅));
        VNull].

(** A command whose [capability] is the number 5, and a creation payload
    that submits it after a valid toggle. *)
Definition numeric_capability : value :=
  VObj (<["command" := VStr "on"]>
          (<["capability" := VNum (num_of_Z 5)]>
             (<["type" := VStr "device_command"]>
                (<["deviceId" := VStr "lamp"]> (<["id" := VStr "a2"]> ∅))))).

Definition untyped_payload : value :=
  VObj (<["actions" := VArr [toggle_action "a1" "plug" true; numeric_capability]]>
          (<["trigger" := interval_trigger (VNum (num_of_Z 5))]>
             (<["name" := VStr "Heater"]> ∅))).

(** 1.1 as a number of the language: the double nearest to it. *)
Definition one_point_one_exact : Q := 2476979795053773 # 2251799813685248.

Definition one_point_one : number := Fin one_point_one_exact.


(** ** Further sample data *)

(** What [normalizeActions] keeps of [mixed_actions]. *)
Definition kept_actions : list obj :=
  match @normalizeActions sample_runtime mixed_actions 0 with
  | Ok out => out
  | Raise _ => []
  end.

(** The routine created from a payload with an interval trigger. *)
Definition created_sample : obj :=
  match @buildRoutineFromPayload sample_runtime
          (interval_payload (interval_trigger (VNum (num_of_Z 5)))) None
          (num_of_Z 1700037000000) 0 with
  | Ok (BuildRoutine r) => r
  | _ => ∅
  end.

Definition renamed_morning : obj :=
  <["updatedAt" := VNum (num_of_Z 1700037000000)]> (<["name" := VStr "Evening"]> morning).

(** A dimmable plug that measures power, and its live status. *)
Definition sample_device : value :=
  VObj (<["components" :=
            VArr [VObj {["capabilities" :=
                    VArr [VObj {["id" := VStr "switch"]};
                          VObj {["id" := VStr "switchLevel"]};
                          VStr "powerMeter"]]}]]>
          (<["label" := VStr "Desk lamp"]> (<["deviceId" := VStr "plug"]> ∅))).

Definition sample_status : value :=
  VObj (<["online" := VBool true]> (<["on" := VBool true]> ∅)).

Definition mapped_sample : obj :=
  match mapSmartThingsDevice sample_device sample_status with
  | Ok o => o
  | Raise _ => ∅
  end.

(** A stand-in for the digest, and a user with a session cookie among
    others. *)
Definition sample_digest : Digest :=
  {| sha256_hex := fun s => "digest-of-" ++ s |}.

Definition sample_user : value :=
  VObj (<["salt" := VStr "cd"]> (<["hash" := VStr "ab"]> (<["username" := VStr "admin"]> ∅))).

Definition sample_cookie : string := "theme=dark; sid=digest-of-admin:ab:cd".
(** * Properties *)

(** ** Numbers *)

Lemma Qle_bool_false (x y : Q) : Qle_bool x y = false -> (y < x)%Q.
Proof.
  intros E. apply Qnot_le_lt. intros Hle.
  apply Qle_bool_iff in Hle. congruence.
Qed.

Lemma clamp_finite (q : Q) :
  exists r, Math_max (num_of_Z 1) (Math_min (num_of_Z 1440) (Fin q)) = Fin r
            /\ (1 <= r)%Q /\ (r <= 1440)%Q.
Proof.
  unfold Math_max, Math_min, num_of_Z, num_le.
  destruct (Qle_bool (inject_Z 1440) q) eqn:E1.
  - exists (inject_Z 1440). split; [reflexivity |].
    unfold inject_Z. split; lra.
  - apply Qle_bool_false in E1.
    destruct (Qle_bool (inject_Z 1) q) eqn:E2.
    + apply Qle_bool_iff in E2. exists q. unfold inject_Z in *. repeat split; lra.
    + exists (inject_Z 1). split; [reflexivity |]. unfold inject_Z. split; lra.
Qed.

(** *** Rounding *)











(** ** Conversions *)

Lemma exc_bind_Ok {A B} (m : exc A) (k : A -> exc B) (b : B) :
  exc_bind m k = Ok b <-> exists a, m = Ok a /\ k a = Ok b.
Proof.
  destruct m as [e | a]; cbn.
  - split; [discriminate | by intros (? & ? & _)].
  - split; [by exists a | by intros (? & [= <-] & ?)].
Qed.

Lemma exc_bind_Raise {A B} (m : exc A) (k : A -> exc B) (e : exn) :
  exc_bind m k = Raise e <-> m = Raise e \/ exists a, m = Ok a /\ k a = Raise e.
Proof.
  destruct m as [e' | a]; cbn.
  - split; [intros [= ->]; by left |].
    intros [[= ->] | (a & H & _)]; [reflexivity | discriminate].
  - split; [intros H; right; by exists a |].
    intros [H | (a' & [= <-] & H)]; [discriminate | exact H].
Qed.

Section Facts.
Context {rt : Runtime} {cr : Crypto} {net : Remote}.

(** The clamp of [buildRoutineFromPayload] and [evaluateRoutines] yields,
    when the conversion of its argument returns, a finite number of
    minutes between 1 and 1440. *)
Lemma clampEveryMinutes_range (v : value) (n : number) :
  clampEveryMinutes v = Ok n ->
  exists r, n = Fin r /\ (1 <= r)%Q /\ (r <= 1440)%Q.
Proof.
  unfold clampEveryMinutes.
  destruct (ToNumber v) as [e | [ | | | q]]; cbn [exc_bind num_truthy];
    [discriminate | | | |]; intros [= <-].
  - exact (clamp_finite (inject_Z 0)).
  - exists (inject_Z 1440). split; [reflexivity |]. unfold inject_Z. split; lra.
  - exists (inject_Z 1). split; [reflexivity |]. unfold inject_Z. split; lra.
  - destruct (Qeq_bool q 0); cbn [negb].
    + exact (clamp_finite (inject_Z 0)).
    + exact (clamp_finite q).
Qed.

(** Hence the test [if (!everyMinutes)] after the clamp never succeeds. *)
Lemma clampEveryMinutes_truthy (v : value) (n : number) :
  clampEveryMinutes v = Ok n -> num_truthy n = true.
Proof.
  intros (r & -> & Hlo & _)%clampEveryMinutes_range. simpl.
  apply negb_true_iff. destruct (Qeq_bool r 0) eqn:E; [| reflexivity].
  apply Qeq_bool_iff in E. lra.
Qed.

End Facts.

(** ** Routine store *)

Section RoutineStoreFacts.
Context {rt : Runtime}.

(** C1 (the code at the failing inputs).  A creation payload whose interval
    trigger carries [everyMinutes: 0], or no [everyMinutes] at all (which
    reads as [NaN]), is not rejected: the routine is built and stores
    [everyMinutes = 1]. *)
Theorem C1_zero_or_missing_minutes_stored_as_one (now : number) (draw : nat) :
  (exists r,
      buildRoutineFromPayload
        (interval_payload (interval_trigger (VNum (num_of_Z 0)))) None now draw
      = Ok (BuildRoutine r)
      /\ oget r "trigger" = interval_trigger (VNum (num_of_Z 1)))
  /\ (exists r,
         buildRoutineFromPayload
           (interval_payload (VObj {["type" := VStr "interval"]})) None now draw
         = Ok (BuildRoutine r)
         /\ oget r "trigger" = interval_trigger (VNum (num_of_Z 1))).
Proof.
  split; eexists; (split; [vm_compute; reflexivity | vm_compute; reflexivity]).
Qed.
End RoutineStoreFacts.

Section PartialMerge.
Context {rt : Runtime}.

(** The steps of a successful build. *)
Lemma build_steps (payload : value) (existing : option obj) (now : number)
    (draw : nat) (r : obj) :
  buildRoutineFromPayload payload existing now draw = Ok (BuildRoutine r) ->
  let base := match existing with
              | Some e => e
              | None => <["lastRunAt" := VNull]>
                          (<["createdAt" := VNum now]>
                             (<["id" := VStr (randomHex 8 draw)]> ∅))
              end in
  let draw' := match existing with Some _ => draw | None => S draw end in
  exists named triggered acted,
    build_name payload base = Ok (inr named)
    /\ build_trigger payload existing (build_enabled payload existing named)
       = Ok (inr triggered)
    /\ build_actions payload existing triggered draw' = Ok (inr acted)
    /\ r = <["updatedAt" := VNum now]> acted.
Proof.
  unfold buildRoutineFromPayload. cbv zeta.
  destruct existing as [prior |];
    (destruct (build_name payload _) as [e | [msg | named]] eqn:E1;
     cbn [exc_bind]; try discriminate;
     destruct (build_trigger payload _ _) as [e | [msg | triggered]] eqn:E2;
     cbn [exc_bind]; try discriminate;
     destruct (build_actions payload _ triggered _) as [e | [msg | acted]] eqn:E3;
     cbn [exc_bind]; try discriminate;
     intros [= <-]; by exists named, triggered, acted).
Qed.

Lemma build_name_frame (payload : value) (base base' : obj) :
  build_name payload base = Ok (inr base') ->
  (forall k, k <> "name" -> base' !! k = base !! k)
  /\ (get payload "name" = VUndef -> base' = base).
Proof.
  unfold build_name. destruct (defined (get payload "name")) eqn:D.
  - destruct (ToString _) as [e | text]; cbn [exc_bind]; [discriminate |].
    destruct (String.eqb _ ""); [discriminate |].
    intros [= <-]. split.
    + intros k Hk. by rewrite lookup_insert_ne.
    + intros E. rewrite E in D. discriminate.
  - intros [= <-]. done.
Qed.

Lemma build_enabled_frame (payload : value) (prior base : obj) :
  (forall k, k <> "enabled" ->
             build_enabled payload (Some prior) base !! k = base !! k)
  /\ (get payload "enabled" = VUndef ->
      build_enabled payload (Some prior) base = base).
Proof.
  unfold build_enabled. destruct (defined (get payload "enabled")) eqn:D.
  - split.
    + intros k Hk. by rewrite lookup_insert_ne.
    + intros E. rewrite E in D. discriminate.
  - done.
Qed.

Lemma build_trigger_frame (payload : value) (prior base base' : obj) :
  build_trigger payload (Some prior) base = Ok (inr base') ->
  (forall k, k <> "trigger" -> base' !! k = base !! k)
  /\ (get payload "trigger" = VUndef -> base' = base).
Proof.
  unfold build_trigger. destruct (defined (get payload "trigger")) eqn:D.
  - intros E. split.
    + intros k Hk.
      repeat match type of E with
             | (if ?c then _ else _) = _ => destruct c
             | exc_bind ?m _ = _ => destruct m; cbn [exc_bind] in E
             end; try discriminate;
        injection E as <-; by rewrite lookup_insert_ne.
    + intros U. rewrite U in D. discriminate.
  - intros [= <-]. done.
Qed.

Lemma build_actions_frame (payload : value) (prior base base' : obj) (draw : nat) :
  build_actions payload (Some prior) base draw = Ok (inr base') ->
  (forall k, k <> "actions" -> base' !! k = base !! k)
  /\ (get payload "actions" = VUndef -> get payload "action" = VUndef ->
      base' = base).
Proof.
  unfold build_actions.
  destruct (defined (get payload "actions") || defined (get payload "action")) eqn:D.
  - destruct (normalizeActions _ draw) as [e | [ | a l]]; simpl; try discriminate.
    intros [= <-]. split.
    + intros k Hk. by rewrite lookup_insert_ne.
    + intros U1 U2. rewrite U1, U2 in D. discriminate.
  - intros [= <-]. done.
Qed.

(** Whatever the payload, a routine that is built carries the time of the
    call in [updatedAt]. *)
Lemma build_updatedAt (payload : value) (existing : option obj) (now : number)
    (draw : nat) (r : obj) :
  buildRoutineFromPayload payload existing now draw = Ok (BuildRoutine r) ->
  r !! "updatedAt" = Some (VNum now).
Proof.
  intros (named & triggered & acted & _ & _ & _ & ->)%build_steps.
  apply lookup_insert_eq.
Qed.

(** C7 (amended).  A successful create or update stamps [updatedAt] with
    the time of the call.  On an update, every key of the stored routine
    other than [name], [enabled], [trigger], [actions] and [updatedAt]
    keeps its prior value (so [id], [createdAt] and [lastRunAt] do);
    [name], [enabled] and [trigger] keep theirs when the payload omits
    them, and [actions] keeps its prior value when the payload carries
    neither [actions] nor its alias [action]. *)
Theorem C7_update_is_partial_merge (payload : value) (existing : option obj)
    (now : number) (draw : nat) (r : obj) :
  buildRoutineFromPayload payload existing now draw = Ok (BuildRoutine r) ->
  r !! "updatedAt" = Some (VNum now)
  /\ forall prior, existing = Some prior ->
       (forall k, k <> "name" -> k <> "enabled" -> k <> "trigger" ->
                  k <> "actions" -> k <> "updatedAt" -> r !! k = prior !! k)
       /\ r !! "id" = prior !! "id"
       /\ r !! "createdAt" = prior !! "createdAt"
       /\ r !! "lastRunAt" = prior !! "lastRunAt"
       /\ (get payload "name" = VUndef -> r !! "name" = prior !! "name")
       /\ (get payload "enabled" = VUndef -> r !! "enabled" = prior !! "enabled")
       /\ (get payload "trigger" = VUndef -> r !! "trigger" = prior !! "trigger")
       /\ (get payload "actions" = VUndef -> get payload "action" = VUndef ->
           r !! "actions" = prior !! "actions").
Proof.
  intros Hb. split; [by eapply build_updatedAt |].
  intros prior ->.
  apply build_steps in Hb as (b1 & b3 & b4 & E1 & E3 & E4 & ->).
  apply build_name_frame in E1 as [N1 N2].
  destruct (build_enabled_frame payload prior b1) as [B1 B2].
  apply build_trigger_frame in E3 as [T1 T2].
  apply build_actions_frame in E4 as [A1 A2].
  assert (forall k, k <> "name" -> k <> "enabled" -> k <> "trigger" ->
                    k <> "actions" -> k <> "updatedAt" ->
                    <["updatedAt" := VNum now]> b4 !! k = prior !! k) as Hframe.
  { intros k ? ? ? ? ?.
    rewrite lookup_insert_ne by done.
    rewrite A1, T1, B1, N1; done. }
  split; [exact Hframe |].
  repeat split; try (apply Hframe; done).
  - intros U. rewrite lookup_insert_ne by done.
    rewrite A1, T1, B1 by done. by rewrite (N2 U).
  - intros U. rewrite lookup_insert_ne by done.
    rewrite A1, T1 by done. rewrite (B2 U). by apply N1.
  - intros U. rewrite lookup_insert_ne by done.
    rewrite A1 by done. rewrite (T2 U). rewrite B1, N1; done.
  - intros U1 U2. rewrite lookup_insert_ne by done.
    rewrite (A2 U1 U2). rewrite T1, B1, N1; done.
Qed.
End PartialMerge.

Section ActionValidation.
Context {rt : Runtime}.

Ltac lookups :=
  repeat (rewrite lookup_insert_eq || (rewrite lookup_insert_ne by done)).

Lemma call_trim_textual (v : value) :
  textual v = true ->
  call_trim (js_or v (VStr ""))
  = Ok (match v with VStr s => trim s | _ => "" end).
Proof.
  unfold textual, js_or. destruct v as [ | | b | n | s | l | o]; simpl; try done.
  - by destruct b.
  - intros ->%negb_true_iff. done.
  - by destruct (String.eqb s "") eqn:E; [apply String.eqb_eq in E as -> |].
Qed.

Lemma nonempty_text_trim (v : value) :
  textual v = true ->
  nonempty_text v
  = negb (String.eqb (match v with VStr s => trim s | _ => "" end) "").
Proof. by destruct v. Qed.

(** [mapE] returns exactly when the callback returns on every element. *)
Lemma mapE_Ok {A B} (f : A -> exc B) (l : list A) (out : list B) :
  mapE f l = Ok out <-> Forall2 (fun a b => f a = Ok b) l out.
Proof.
  revert out. induction l as [| a l IH]; intros out; cbn [mapE].
  - split; [intros [= <-]; constructor | by inversion 1].
  - rewrite exc_bind_Ok. split.
    + intros (b & Hb & (bs & Hbs & [= <-])%exc_bind_Ok).
      constructor; [exact Hb | by apply IH].
    + inversion 1 as [| ? b ? bs Hb Hbs]; subst.
      exists b. split; [exact Hb |]. apply exc_bind_Ok.
      exists bs. split; [by apply IH | reflexivity].
Qed.

Lemma mapE_returns {A B} (f : A -> exc B) (l : list A) :
  (exists out, mapE f l = Ok out) <-> Forall (fun a => exists b, f a = Ok b) l.
Proof.
  induction l as [| a l IH]; cbn [mapE].
  - split; [constructor | by eexists].
  - split.
    + intros (out & (b & Hb & (bs & Hbs & _)%exc_bind_Ok)%exc_bind_Ok).
      constructor; [by exists b |]. apply IH. by exists bs.
    + inversion 1 as [| ? ? [b Hb] Hl]; subst.
      apply IH in Hl as [bs Hbs]. exists (b :: bs).
      by rewrite Hb, Hbs.
Qed.

(** [String(v)] returns exactly on the convertible values. *)
Lemma ToString_convertible (v : value) :
  (exists s, ToString v = Ok s) <-> convertible v = true.
Proof.
  revert v. fix IH 1.
  intros [ | | b | n | s | l | o]; cbn [ToString convertible];
    try (split; [done | by eexists]).
  - destruct b; (split; [done | by eexists]).
  - induction l as [| x l IHl]; cbn [mapE forallb exc_bind].
    + split; [done | by eexists].
    + rewrite andb_true_iff, <- (IH x), <- IHl. clear IHl. split.
      * intros (s & (parts & Hparts & _)%exc_bind_Ok).
        apply exc_bind_Ok in Hparts as (t & Ht & (ts & Hts & _)%exc_bind_Ok).
        split; [| exists (join_comma ts); by rewrite Hts].
        destruct x; try (by eexists); exact (ex_intro _ t Ht).
      * intros [[t Ht] [ts Hts]].
        apply exc_bind_Ok in Hts as (parts & -> & _).
        assert (exists t', match x with
                           | VUndef | VNull => Ok ""
                           | _ => ToString x
                           end = Ok t') as [t' ->]
            by (destruct x; try (by eexists); by exists t).
        by eexists.
  - destruct (own_toString o); (split; [done | by eexists]) || (split; [by intros [] | done]).
Qed.

Lemma ToString_Raise (v : value) :
  (exists e, ToString v = Raise e) <-> convertible v = false.
Proof.
  rewrite <- not_true_iff_false, <- ToString_convertible.
  destruct (ToString v) as [err | s]; split; try done.
  - intros _ [s H]. discriminate.
  - intros _. by exists err.
  - by intros [e H].
  - intros H. destruct H. by exists s.
Qed.

(** [Number(v)] returns exactly on the convertible values too. *)
Lemma ToNumber_convertible (v : value) :
  (exists n, ToNumber v = Ok n) <-> convertible v = true.
Proof.
  destruct v as [ | | b | n | s | l | o]; cbn [ToNumber];
    try (cbn [convertible]; split; [done | by eexists]).
  - destruct b; (split; [done | by eexists]).
  - rewrite <- ToString_convertible. split.
    + intros (n & (s & Hs & _)%exc_bind_Ok). by exists s.
    + intros [s ->]. by eexists.
  - cbn [convertible]. destruct (own_toString o); cbn [negb];
      split; try done; [by intros [] | by eexists].
Qed.

Lemma ToNumber_Raise (v : value) :
  (exists e, ToNumber v = Raise e) <-> convertible v = false.
Proof.
  rewrite <- not_true_iff_false, <- ToNumber_convertible.
  destruct (ToNumber v) as [err | s]; split; try done.
  - intros _ [s H]. discriminate.
  - intros _. by exists err.
  - by intros [e H].
  - intros H. destruct H. by exists s.
Qed.

(** A falsy value is a primitive, and converts. *)
Lemma falsy_convertible (v : value) : truthy v = false -> convertible v = true.
Proof. by destruct v. Qed.

(** What a [base] that is built holds. *)
Lemma action_base_fields (a : value) (draw : nat) (base : obj) (draw' : nat) :
  action_base a draw = Ok (base, draw') ->
  (exists d, ToString (get a "deviceId") = Ok d
             /\ base !! "deviceId" = Some (VStr d))
  /\ (truthy (get a "id") = true -> base !! "id" = Some (get a "id"))
  /\ base !! "type" = None /\ base !! "desiredState" = None
  /\ base !! "capability" = None /\ base !! "command" = None
  /\ base !! "arguments" = None.
Proof.
  unfold action_base.
  destruct (truthy (get a "id")) eqn:Eid;
    (destruct (ToString (get a "deviceId")) as [e | d]; cbn [exc_bind];
     [discriminate |];
     destruct (if truthy (get a "sourceId") then _ else _) as [e | sourceId];
     cbn [exc_bind]; [discriminate |];
     destruct (if truthy (get a "deviceName") then _ else _) as [e | deviceName];
     cbn [exc_bind]; [discriminate |];
     intros [= <- <-]; split; [exists d; split; [reflexivity |]; by lookups |];
     repeat split; try done; intros; by lookups).
Qed.

(** The [base] is built exactly when the three texts convert. *)
Lemma action_base_returns (a : value) (draw : nat) :
  (exists based, action_base a draw = Ok based)
  <-> convertible (get a "deviceId") && convertible (get a "sourceId")
      && convertible (get a "deviceName") = true.
Proof.
  rewrite !andb_true_iff, <- !ToString_convertible. unfold action_base.
  destruct (truthy (get a "id")); split.
  all: try (intros (based & H); revert H;
            destruct (ToString (get a "deviceId")) as [e | d]; cbn [exc_bind];
            [discriminate |];
            destruct (truthy (get a "sourceId")) eqn:Es;
            [destruct (ToString (get a "sourceId")) as [e | sid]; cbn [exc_bind];
             [discriminate |]
            | apply falsy_convertible, ToString_convertible in Es as [sid Hsid];
              rewrite Hsid; cbn [exc_bind]];
            (destruct (truthy (get a "deviceName")) eqn:En;
             [destruct (ToString (get a "deviceName")) as [e | nm]; cbn [exc_bind];
              [discriminate |]
             | apply falsy_convertible, ToString_convertible in En as [nm Hnm];
               rewrite Hnm; cbn [exc_bind]]);
            intros _; repeat split; by eexists).
  all: intros [[[d ->] [sid ->]] [nm ->]]; cbn [exc_bind];
    destruct (truthy (get a "sourceId")), (truthy (get a "deviceName"));
    cbn [exc_bind]; by eexists.
Qed.

Lemma is_str_toggle_not_command (v : value) :
  is_str v "device_toggle" = true -> is_str v "device_command" = false.
Proof.
  destruct v as [ | | | | s | | ]; try done. cbn.
  by intros ->%String.eqb_eq.
Qed.

Lemma is_str_eq (v : value) (s : string) : is_str v s = true -> v = VStr s.
Proof.
  destruct v as [ | | | | t | | ]; try done. cbn.
  by intros ->%String.eqb_eq.
Qed.

(** The desired state of the code is the boolean of [desiredState], or
    of [on] when [desiredState] is none. *)
Lemma desired_state_spec (a : value) :
  match desired_state a with
  | Some b =>
      get a "desiredState" = VBool b
      \/ (is_boolean (get a "desiredState") = false /\ get a "on" = VBool b)
  | None =>
      is_boolean (get a "desiredState") || is_boolean (get a "on") = false
  end.
Proof.
  unfold desired_state.
  destruct (get a "desiredState"); try (by left);
    destruct (get a "on"); try done; by right.
Qed.

(** The loop of [normalizeActions] keeps exactly the surviving actions, in
    the order of the submitted list, each in its normal form. *)
Lemma normalize_loop_survivors (l : list value) :
  forallb well_typed_action l = true ->
  forall draw, exists out,
    normalize_loop l draw = Ok out
    /\ Forall2 normalized_from (List.filter survives l) out.
Proof.
  induction l as [ | a l IH]; intros Hwt draw.
  - exists []. split; [reflexivity | constructor].
  - cbn [forallb] in Hwt. apply andb_true_iff in Hwt as [Ha Hl].
    specialize (IH Hl). cbn [normalize_loop List.filter].
    unfold survives, well_typed_action in *.
    destruct (truthy a); cbn [negb orb andb] in *; [| apply IH].
    destruct (truthy (get a "deviceId")) eqn:Edev; cbn [negb orb andb] in *;
      [| apply IH].
    apply andb_true_iff in Ha as [Hconv Ha].
    apply (action_base_returns a draw) in Hconv as [[base draw'] Eb]. rewrite Eb.
    cbn [exc_bind].
    pose proof (action_base_fields _ _ _ _ Eb)
      as ((d & Hd & Bd) & Bi & Bt & Bs & Bc & Bm & _).
    destruct (is_str (get a "type") "device_toggle") eqn:Etog; cbn [andb orb] in *.
    + rewrite (is_str_toggle_not_command _ Etog). cbn [andb orb].
      pose proof (desired_state_spec a) as Hdes.
      destruct (desired_state a) as [b | ]; [| rewrite Hdes; apply IH].
      assert (is_boolean (get a "desiredState") || is_boolean (get a "on") = true)
        as -> by (destruct Hdes as [-> | [_ ->]]; [done | apply orb_true_r]).
      destruct (IH draw') as (out & -> & Hout). simpl.
      eexists. split; [reflexivity |]. constructor; [| exact Hout].
      unfold normalized_from, oget. repeat split.
      * exists d. split; [exact Hd |]. lookups. by rewrite Bd.
      * lookups. by rewrite (is_str_eq _ _ Etog).
      * intros Hid. lookups. by rewrite (Bi Hid).
      * intros _. exists b. split; [exact Hdes |]. by lookups.
      * intros E. rewrite (is_str_toggle_not_command _ Etog) in E. discriminate.
    + destruct (is_str (get a "type") "device_command") eqn:Ecmd;
        cbn [andb orb] in *; [| apply IH].
      apply andb_true_iff in Ha as [Hc Hm].
      rewrite (call_trim_textual _ Hc), (call_trim_textual _ Hm).
      rewrite (nonempty_text_trim _ Hc), (nonempty_text_trim _ Hm).
      cbn [exc_bind].
      set (c := match get a "capability" with VStr s => trim s | _ => "" end) in *.
      set (m := match get a "command" with VStr s => trim s | _ => "" end) in *.
      destruct (String.eqb c "") eqn:Ec; cbn [negb andb orb]; [apply IH |].
      destruct (String.eqb m "") eqn:Em; cbn [negb andb orb]; [apply IH |].
      destruct (IH draw') as (out & -> & Hout). simpl.
      eexists. split; [reflexivity |]. constructor; [| exact Hout].
      unfold normalized_from, oget. repeat split.
      * exists d. split; [exact Hd |]. lookups. by rewrite Bd.
      * lookups. by rewrite (is_str_eq _ _ Ecmd).
      * intros Hid. lookups. by rewrite (Bi Hid).
      * intros E. congruence.
      * intros _. subst c m.
        destruct (get a "capability") as [ | | | | cs | | ]; try done.
        destruct (get a "command") as [ | | | | ms | | ]; try done.
        exists cs, ms. repeat split; try done; by lookups.
Qed.

Lemma normalizeActions_survivors (actions : value) :
  forallb well_typed_action (action_list actions) = true ->
  forall draw, exists out,
    normalizeActions actions draw = Ok out
    /\ Forall2 normalized_from
         (take MAX_ACTIONS_PER_ROUTINE (List.filter survives (action_list actions)))
         out.
Proof.
  intros Hwt draw. unfold normalizeActions.
  destruct (normalize_loop_survivors _ Hwt draw) as (out & -> & Hout).
  exists (take MAX_ACTIONS_PER_ROUTINE out). split; [reflexivity |].
  by apply Forall2_take.
Qed.

(** X29.  For a submitted action list whose actions are well typed (the
    fields read as texts convert, and the [capability] and [command] of a
    command are strings or absent), validation returns without failing;
    the list it returns is made of the normal forms of the surviving
    actions (those with a non-empty [deviceId] that are a toggle with a
    boolean desired state or a command with non-empty capability and
    command), in their order, cut to the first 20; every other action is
    dropped.  A request that supplies such a list none of whose actions
    survives is answered with a validation error, unless it is refused
    before or its name or trigger makes it throw. *)
Theorem well_typed_actions_are_filtered_and_capped (actions : value) :
  forallb well_typed_action (action_list actions) = true ->
  (forall draw, exists out,
      normalizeActions actions draw = Ok out
      /\ Forall2 normalized_from
           (take 20 (List.filter survives (action_list actions))) out
      /\ length out = Nat.min 20 (length (List.filter survives (action_list actions))))
  /\ (List.filter survives (action_list actions) = [] ->
      forall payload existing now draw,
        defined (get payload "actions") || defined (get payload "action") = true ->
        js_or (get payload "actions") (get payload "action") = actions ->
        (exists error,
            buildRoutineFromPayload payload existing now draw = Ok (BuildError error))
        \/ (exists e,
               buildRoutineFromPayload payload existing now draw = Raise e
               /\ forall base,
                    build_name payload base = Raise e
                    \/ build_trigger payload existing base = Raise e)).
Proof.
  intros Hwt. split.
  - intros draw.
    destruct (normalizeActions_survivors _ Hwt draw) as (out & E & Hout).
    exists out. repeat split; [exact E | exact Hout |].
    apply Forall2_length in Hout. rewrite <- Hout. apply length_take.
  - intros Hnone payload existing now draw Hdef Hsel.
    unfold buildRoutineFromPayload.
    destruct (match existing with Some e => _ | None => _ end) as [base d].
    assert (forall b1 b2 e, build_name payload b1 = Raise e ->
                            build_name payload b2 = Raise e) as Hname.
    { unfold build_name. intros b1 b2 e.
      destruct (defined (get payload "name")); [| discriminate].
      destruct (ToString _); cbn [exc_bind]; [done |].
      by destruct (String.eqb _ _). }
    assert (forall b1 b2 e, build_trigger payload existing b1 = Raise e ->
                            build_trigger payload existing b2 = Raise e) as Htrig.
    { unfold build_trigger. intros b1 b2 e.
      destruct (defined (get payload "trigger")); [| by destruct existing].
      destruct (is_str _ "time").
      - destruct (isValidTimeString _) as [? | []]; cbn [exc_bind negb]; try done.
        destruct (normalizeDays _); cbn [exc_bind]; [done |].
        by destruct (ToString _).
      - destruct (is_str _ "interval"); [| done].
        destruct (clampEveryMinutes _); cbn [exc_bind]; [done |].
        by destruct (negb _). }
    destruct (build_name payload base) as [e | [msg | named]] eqn:E1;
      cbn [exc_bind].
    { right. exists e. split; [reflexivity |]. intros b. left. by eapply Hname. }
    { left. by eexists. }
    destruct (build_trigger payload existing _) as [e | [msg | triggered]] eqn:E2;
      cbn [exc_bind].
    { right. exists e. split; [reflexivity |]. intros b. right. by eapply Htrig. }
    { left. by eexists. }
    unfold build_actions. rewrite Hdef, Hsel.
    destruct (normalizeActions_survivors _ Hwt d) as (out & -> & Hout).
    rewrite Hnone in Hout. cbn in Hout. inversion Hout. subst.
    left. by eexists.
Qed.

(** C8 (the code at the failing input).  A creation payload whose action
    list holds a valid toggle and a command whose [capability] is the
    number 5: the toggle survives validation and the command does not,
    yet the command is not dropped.  [normalizeActions] throws the
    [TypeError] of calling [trim] on a number, [buildRoutineFromPayload]
    throws it whether it creates or updates, and the handler of
    [POST /api/routines] fails with it and stores nothing. *)
Theorem C8_non_string_capability_fails_the_request (now : number) (draw : nat)
    (w : world) :
  survives (toggle_action "a1" "plug" true) = true
  /\ survives numeric_capability = false
  /\ normalizeActions (get untyped_payload "actions") draw
     = Raise (Throw "trim is not a function")
  /\ (forall existing,
        buildRoutineFromPayload untyped_payload existing now draw
        = Raise (Throw "trim is not a function"))
  /\ exists w',
       routines_post untyped_payload draw w
       = (Raise (Throw "trim is not a function"), w')
       /\ w_routines w' = w_routines w.
Proof.
  split; [reflexivity |]. split; [reflexivity |].
  split; [vm_compute; reflexivity |].
  assert (forall existing d t,
             buildRoutineFromPayload untyped_payload existing t d
             = Raise (Throw "trim is not a function")) as Hbuild.
  { intros [prior |] d t; vm_compute; reflexivity. }
  split; [intros existing; apply Hbuild |].
  unfold routines_post, bind, Date_now, bind, new_Date, ret, lift.
  change (js_or untyped_payload (VObj ∅)) with untyped_payload.
  rewrite Hbuild. eexists. split; [reflexivity |]. by destruct w.
Qed.
End ActionValidation.

(** ** Secret vault *)

(** C10.  Whatever the key and whatever the cipher does, decrypting a
    falsy payload ([undefined], [null], the empty string, ...) returns the
    empty string: no operation of the cipher takes part in the result. *)
Theorem C10_decrypt_of_falsy_payload_is_empty (cr : Crypto) (payload : value)
    (key : list Byte.byte) :
  truthy payload = false ->
  @decryptSecret cr payload key = Ok "".
Proof. intros E. unfold decryptSecret. by rewrite E. Qed.

(** The blob of [encryptSecret] is laid out as the 12 bytes of the nonce,
    the tag and the ciphertext, whenever the cipher hands out 12-byte
    nonces. *)
Lemma encryptBlob_layout (cr : Crypto) (plain : string) (key : list Byte.byte)
    (draw : nat) (blob : list Byte.byte) :
  length (randomBytes 12 draw) = 12%nat ->
  @encryptBlob cr plain key draw = Ok blob ->
  exists enc tag,
    gcm_encrypt key (randomBytes 12 draw) (utf8_encode plain) = Ok (enc, tag)
    /\ take 12 blob = randomBytes 12 draw
    /\ drop 12 blob = (tag ++ enc)%list.
Proof.
  intros Hlen. unfold encryptBlob.
  destruct (gcm_encrypt _ _ _) as [e | [enc tag]]; simpl; [discriminate |].
  intros [= <-]. exists enc, tag. split; [reflexivity |].
  split; [by apply take_app_length' | by apply drop_app_length'].
Qed.

(** ** Credential resolution and dispatch *)

Lemma find_filter {A} (p q : A -> bool) (l : list A) :
  List.find p (List.filter q l) = List.find (fun x => q x && p x) l.
Proof.
  induction l as [ | x l IH]; [reflexivity |]. simpl.
  destruct (q x); simpl; [| exact IH].
  destruct (p x); [reflexivity | exact IH].
Qed.

Lemma find_none_of_filter_nil {A} (p q : A -> bool) (l : list A) :
  List.filter q l = [] -> List.find (fun x => q x && p x) l = None.
Proof. intros E. by rewrite <- find_filter, E. Qed.

Section DispatchFacts.
Context {rt : Runtime} {cr : Crypto} {net : Remote}.

Lemma resolve_env (w : world) :
  truthy (w_env_token w) = true ->
  resolveSmartThingsToken w = (Ok [env_entry (w_env_token w)], w).
Proof.
  intros E. unfold resolveSmartThingsToken, bind, gets, ret. by rewrite E.
Qed.

Lemma resolve_stored (w : world) (key : list Byte.byte) :
  truthy (w_env_token w) = false ->
  w_key w = Ok key ->
  resolveSmartThingsToken w
  = let enabled := List.filter enabled_entry (omap (stored_entry key) (w_entries w)) in
    if (0 <? length enabled)%nat then (Ok enabled, w)
    else (Raise (Throw "SMARTTHINGS_TOKEN fehlt"), w).
Proof.
  intros E K.
  unfold resolveSmartThingsToken, getStoredSmartThingsTokens, bind, gets, lift, ret, throw.
  rewrite E, K. cbn.
  by destruct (length (List.filter enabled_entry _)).
Qed.

(** C9.  When the environment carries a token, resolution returns the
    single entry with id ["env"] and leaves the world as it is, whatever the
    stored entries and the key file are; a dispatch (toggle or command)
    with an explicit [sourceId] other than ["env"] then fails with the
    source-not-found error before any request is sent. *)
Theorem C9_env_token_shadows_stored_sources (w : world) :
  truthy (w_env_token w) = true ->
  resolveSmartThingsToken w = (Ok [env_entry (w_env_token w)], w)
  /\ oget (env_entry (w_env_token w)) "id" = VStr "env"
  /\ forall sourceId,
       truthy sourceId = true ->
       strict_eq (VStr "env") sourceId = false ->
       (forall deviceId on,
           toggleSmartThingsDevice deviceId on sourceId w
           = (Raise (Throw "Token für Quelle nicht gefunden"), w))
       /\ (forall routine action,
              is_str (get action "type") "device_command" = true ->
              get action "sourceId" = sourceId ->
              attempt_action routine action w
              = (Raise (Throw "Token für Quelle nicht gefunden"), w)).
Proof.
  intros E. split; [by apply resolve_env |]. split; [reflexivity |].
  intros sourceId Hs Hne.
  assert (pick_source [env_entry (w_env_token w)] sourceId = None) as Hpick.
  { unfold pick_source. rewrite Hs. cbn [List.find].
    change (oget (env_entry (w_env_token w)) "id") with (VStr "env").
    by rewrite Hne. }
  split.
  - intros deviceId on. unfold toggleSmartThingsDevice, bind.
    by rewrite (resolve_env w E), Hpick.
  - intros routine action Ht Hsrc. unfold attempt_action, bind, lift.
    destruct action as [ | | | | | | o]; try discriminate.
    cbn [get_strict]. rewrite Ht.
    assert (is_str (get (VObj o) "type") "device_toggle" = false) as ->.
    { destruct (get (VObj o) "type") as [ | | | | s | | ]; try done.
      simpl in *. by apply String.eqb_eq in Ht as ->. }
    by rewrite (resolve_env w E), Hsrc, Hpick.
Qed.

Lemma resolve_unreadable (w : world) (err : exn) :
  truthy (w_env_token w) = false ->
  w_key w = Raise err ->
  resolveSmartThingsToken w = (Raise err, w).
Proof.
  intros E K.
  unfold resolveSmartThingsToken, getStoredSmartThingsTokens, bind, gets, lift, ret.
  by rewrite E, K.
Qed.

Lemma command_action_is_object (action : value) :
  is_str (get action "type") "device_command" = true ->
  get_strict action "type" = Ok (get action "type")
  /\ is_str (get action "type") "device_toggle" = false.
Proof.
  intros Ht. destruct action as [ | | | | | | o]; try discriminate.
  split; [reflexivity |].
  destruct (get (VObj o) "type") as [ | | | | s | | ]; try done.
  simpl in *. by apply String.eqb_eq in Ht as ->.
Qed.

(** C2 (amended).  While the environment carries no token, the
    candidates of a dispatch are the stored entries that are not [null]
    and whose token decrypts.  A dispatch with an explicit [sourceId] uses
    the first candidate that is enabled and has that id: a disabled entry
    is never used.  When there is none, the dispatch fails before it sends
    anything, with the source-not-found error if some candidate is
    enabled and with ["SMARTTHINGS_TOKEN fehlt"] if none is.  Without a
    [sourceId] the dispatch uses the first enabled candidate.  When the
    key file cannot be read, the dispatch fails with the error of the
    read. *)
Theorem C2_dispatch_picks_among_enabled_sources (w : world) (sourceId : value) :
  truthy (w_env_token w) = false ->
  match w_key w with
  | Raise err =>
      (forall deviceId on,
          toggleSmartThingsDevice deviceId on sourceId w = (Raise err, w))
      /\ (forall routine action,
             is_str (get action "type") "device_command" = true ->
             get action "sourceId" = sourceId ->
             attempt_action routine action w = (Raise err, w))
  | Ok key =>
      let stored := omap (stored_entry key) (w_entries w) in
      let enabled := List.filter enabled_entry stored in
      let chosen :=
        if truthy sourceId
        then List.find (fun t => enabled_entry t && strict_eq (oget t "id") sourceId)
               stored
        else head enabled in
      let failure :=
        if (0 <? length enabled)%nat then "Token für Quelle nicht gefunden"
        else "SMARTTHINGS_TOKEN fehlt" in
      (forall e, chosen = Some e -> enabled_entry e = true)
      /\ (forall deviceId on,
             toggleSmartThingsDevice deviceId on sourceId w
             = match chosen with
               | Some e =>
                   sendSmartThingsCommand deviceId (VObj e) (VStr "switch")
                     (VStr (if truthy on then "on" else "off")) (VArr []) w
               | None => (Raise (Throw failure), w)
               end)
      /\ (forall routine action,
             is_str (get action "type") "device_command" = true ->
             get action "sourceId" = sourceId ->
             attempt_action routine action w
             = match chosen with
               | Some e => dispatch_command routine action e w
               | None => (Raise (Throw failure), w)
               end)
  end.
Proof.
  intros E. destruct (w_key w) as [err | key] eqn:K.
  { pose proof (resolve_unreadable w err E K) as Hres. split.
    - intros deviceId on. unfold toggleSmartThingsDevice, bind. by rewrite Hres.
    - intros routine action Ht Hsrc.
      destruct (command_action_is_object _ Ht) as [Hty Htog].
      unfold attempt_action, bind, lift. rewrite Hty, Htog, Ht. by rewrite Hres. }
  intros stored enabled chosen failure.
  assert (resolveSmartThingsToken w
          = if (0 <? length enabled)%nat then (Ok enabled, w)
            else (Raise (Throw "SMARTTHINGS_TOKEN fehlt"), w)) as Hres
    by exact (resolve_stored w key E K).
  assert ((0 <? length enabled)%nat = true -> pick_source enabled sourceId = chosen)
    as Hpick.
  { intros _. unfold pick_source, chosen, enabled.
    destruct (truthy sourceId); [apply find_filter | reflexivity]. }
  assert ((0 <? length enabled)%nat = false -> chosen = None) as Hnone.
  { intros Hz. assert (enabled = []) as Hnil.
    { destruct enabled; [reflexivity | discriminate]. }
    unfold chosen. destruct (truthy sourceId).
    - by apply find_none_of_filter_nil.
    - by rewrite Hnil. }
  split; [| split].
  - intros e. unfold chosen. destruct (truthy sourceId).
    + intros [_ He]%find_some. by apply andb_true_iff in He as [He _].
    + intros Hh. apply head_Some_elem_of, list_elem_of_In in Hh.
      unfold enabled in Hh. by apply filter_In in Hh as [_ Hh].
  - intros deviceId on. unfold toggleSmartThingsDevice, bind. rewrite Hres.
    subst failure. destruct (0 <? length enabled)%nat eqn:Hz.
    + rewrite (Hpick eq_refl). by destruct chosen.
    + by rewrite (Hnone eq_refl).
  - intros routine action Ht Hsrc. unfold attempt_action, bind, lift.
    destruct (command_action_is_object _ Ht) as [Hty Htog].
    rewrite Hty, Htog, Ht.
    rewrite Hres, Hsrc. subst failure.
    destruct (0 <? length enabled)%nat eqn:Hz.
    + rewrite (Hpick eq_refl). by destruct chosen.
    + by rewrite (Hnone eq_refl).
Qed.
End DispatchFacts.

(** ** Running the actions of a routine *)

Lemma bind_Ok_inv {A B} (m : M A) (k : A -> M B) (w w' : world) (b : B) :
  bind m k w = (Ok b, w') ->
  exists a w1, m w = (Ok a, w1) /\ k a w1 = (Ok b, w').
Proof.
  unfold bind. destruct (m w) as [[e | a] w1]; [discriminate |].
  intros E. by exists a, w1.
Qed.

Lemma mapM_app {A B} (f : A -> M B) (l1 l2 : list A) (w : world) :
  mapM f (l1 ++ l2)%list w
  = match mapM f l1 w with
    | (Ok r1, w1) =>
        match mapM f l2 w1 with
        | (Ok r2, w2) => (Ok (r1 ++ r2)%list, w2)
        | (Raise e, w2) => (Raise e, w2)
        end
    | (Raise e, w1) => (Raise e, w1)
    end.
Proof.
  revert w. induction l1 as [ | a l1 IH]; intros w.
  - cbn. by destruct (mapM f l2 w) as [[e | r2] w2].
  - cbn [mapM app]. unfold bind, ret.
    destruct (f a w) as [[e | b] w0]; [reflexivity |].
    rewrite IH.
    destruct (mapM f l1 w0) as [[e | r1] w1]; [reflexivity |].
    by destruct (mapM f l2 w1) as [[e | r2] w2].
Qed.

Lemma mapM_length {A B} (f : A -> M B) (l : list A) (w w' : world) (rs : list B) :
  mapM f l w = (Ok rs, w') -> length rs = length l.
Proof.
  revert w rs. induction l as [ | a l IH]; intros w rs.
  - by intros [= <- _].
  - cbn [mapM]. intros (b & w0 & _ & E)%bind_Ok_inv.
    apply bind_Ok_inv in E as (bs & w1 & E & [= <- ->]).
    cbn. f_equal. by eapply IH.
Qed.

Section RunFacts.
Context {rt : Runtime} {cr : Crypto} {net : Remote}.

Lemma appendLog_returns (entry : obj) (w : world) :
  exists w', appendLog entry w = (Ok tt, w').
Proof.
  unfold appendLog, bind, gets, modify, ret, Date_now, bind, new_Date.
  destruct (truthy (oget entry "timestamp")); by eexists.
Qed.

Lemma attempt_toggle_result (routine : obj) (a : value) (w w' : world) (r : result) :
  attempt_toggle routine a w = (Ok r, w') ->
  actionId r = get a "id" /\ result_shape r.
Proof.
  unfold attempt_toggle.
  intros (out & w1 & _ & E)%bind_Ok_inv.
  apply bind_Ok_inv in E as (now & w2 & _ & E).
  apply bind_Ok_inv in E as (u & w3 & _ & [= <- _]).
  split; [reflexivity |]. left. cbn. eauto.
Qed.

Lemma dispatch_command_result (routine : obj) (a : value) (e : obj) (w w' : world)
    (r : result) :
  dispatch_command routine a e w = (Ok r, w') ->
  actionId r = get a "id" /\ result_shape r.
Proof.
  unfold dispatch_command.
  intros (out & w1 & _ & E)%bind_Ok_inv.
  apply bind_Ok_inv in E as (capability & w1a & _ & E).
  apply bind_Ok_inv in E as (command & w1b & _ & E).
  apply bind_Ok_inv in E as (now & w2 & _ & E).
  apply bind_Ok_inv in E as (u & w3 & _ & [= <- _]).
  split; [reflexivity |]. left. cbn. eauto.
Qed.

(** Whatever the [try] block returns has the id of its action and the
    shape of a result entry. *)
Lemma attempt_action_result (routine : obj) (a : value) (w w' : world) (r : result) :
  attempt_action routine a w = (Ok r, w') ->
  actionId r = get a "id" /\ result_shape r.
Proof.
  unfold attempt_action.
  intros (type & w1 & _ & E)%bind_Ok_inv.
  destruct (is_str type "device_toggle"); [by eapply attempt_toggle_result |].
  destruct (is_str type "device_command").
  - apply bind_Ok_inv in E as (tokens & w2 & _ & E).
    destruct (pick_source tokens (get a "sourceId")); [| discriminate].
    by eapply dispatch_command_result.
  - injection E as <- _. split; [reflexivity |]. right. cbn. eauto.
Qed.

(** One iteration of the loop never throws: it yields the entry of its
    attempt. *)
Lemma run_action_returns (routine : obj) (a : value) (w : world) :
  nullish a = false ->
  run_action routine a w
  = (Ok (entry_of a (attempt_action routine a w)), snd (attempt_action routine a w)).
Proof.
  intros Hn. unfold run_action, try_catch, entry_of.
  destruct (attempt_action routine a w) as [[e | r] w1]; [| reflexivity].
  unfold bind, lift, ret. by destruct a.
Qed.

Lemma entry_of_shape (routine : obj) (a : value) (w : world) :
  let r := entry_of a (attempt_action routine a w) in
  actionId r = get a "id" /\ result_shape r.
Proof.
  unfold entry_of.
  destruct (attempt_action routine a w) as [[e | r] w1] eqn:E.
  - split; [reflexivity |]. right. cbn. eauto.
  - by eapply attempt_action_result.
Qed.

Lemma run_all_returns (routine : obj) (l : list value) :
  forallb (fun a => negb (nullish a)) l = true ->
  forall w, exists rs w',
    mapM (run_action routine) l w = (Ok rs, w')
    /\ Forall2 (fun a r => actionId r = get a "id" /\ result_shape r) l rs.
Proof.
  induction l as [ | a l IH]; intros Hl w.
  - exists [], w. split; [reflexivity | constructor].
  - cbn [forallb] in Hl. apply andb_true_iff in Hl as [Ha Hl].
    apply negb_true_iff in Ha.
    cbn [mapM]. unfold bind at 1. rewrite (run_action_returns _ _ _ Ha).
    destruct (IH Hl (snd (attempt_action routine a w))) as (rs & w' & E & F).
    unfold bind at 1. rewrite E.
    eexists _, _. split; [reflexivity |].
    constructor; [apply entry_of_shape | exact F].
Qed.

(** C4.  Running a routine whose [actions] is a list of objects returns
    (it does not throw) one result entry per action, in the order of the
    list, each with the id of its action and the shape
    [{ok, actionId, state?, error?}].  Every action is attempted from the
    world its predecessors left, whether they failed or not, and its entry
    is the result of the attempt or, when the attempt throws, the
    [ok: false] entry carrying the message. *)
Theorem C4_one_entry_per_action_despite_failures (routine : obj)
    (actions : list value) (w : world) :
  oget routine "actions" = VArr actions ->
  forallb (fun a => negb (nullish a)) actions = true ->
  exists results w',
    runRoutineActions routine w = (Ok results, w')
    /\ length results = length actions
    /\ Forall2 (fun a r => actionId r = get a "id" /\ result_shape r) actions results
    /\ forall before a after,
         actions = (before ++ a :: after)%list ->
         exists entries w1,
           mapM (run_action routine) before w = (Ok entries, w1)
           /\ results !! length before
              = Some (entry_of a (attempt_action routine a w1)).
Proof.
  intros Hact Hl.
  destruct (run_all_returns routine actions Hl w) as (results & w' & E & F).
  exists results, w'.
  assert (runRoutineActions routine w = (Ok results, w')) as Hrun.
  { unfold runRoutineActions, bind, lift. rewrite Hact. cbn. exact E. }
  split; [exact Hrun |]. split; [symmetry; by eapply Forall2_length |].
  split; [exact F |].
  intros before a after ->.
  rewrite forallb_app in Hl. apply andb_true_iff in Hl as [Hb Ha].
  cbn [forallb] in Ha. apply andb_true_iff in Ha as [Ha _].
  apply negb_true_iff in Ha.
  destruct (run_all_returns routine before Hb w) as (entries & w1 & E1 & F1).
  exists entries, w1. split; [exact E1 |].
  rewrite mapM_app, E1 in E. cbn [mapM] in E. unfold bind at 1 in E.
  rewrite (run_action_returns _ _ _ Ha) in E. unfold bind at 1 in E.
  destruct (mapM (run_action routine) after _) as [[e | rest] w2];
    [discriminate |].
  cbn in E. injection E as <- _.
  apply Forall2_length in F1. rewrite F1.
  by rewrite list_lookup_middle.
Qed.
End RunFacts.

(** ** Scheduler *)

Section SchedulerFacts.
Context {rt : Runtime} {cr : Crypto} {net : Remote}.









Lemma tracker_get_cons (t : list (value * string)) (k id : value) (v : string) :
  tracker_get ((k, v) :: t) id
  = if same_value_zero k id then Some v else tracker_get t id.
Proof. unfold tracker_get. cbn. by destruct (same_value_zero k id). Qed.

Lemma same_value_zero_refl (v : value) :
  primitive v = true -> same_value_zero v v = true.
Proof.
  destruct v as [ | | b | n | s | | ]; try done; intros _; simpl.
  - by destruct b.
  - destruct n; try done. simpl. apply Qeq_eq_bool. reflexivity.
  - apply String.eqb_refl.
Qed.

(** One routine of a pass: the evaluation starts the routine or leaves
    the list of started runs alone (as it does when it throws); a slot key
    recorded for any id stays recorded; and a time-triggered routine is
    started only if the tracker did not hold the slot key for its id,
    which it then records. *)
Lemma evaluate_routine_step (now : instant) (r : obj) (w : world) :
  exists out w',
    evaluate_routine now r w = (out, w')
    /\ w_launched w' = (w_launched w ++ (if started out then [r] else []))%list
    /\ (forall id, tracker_get (w_tracker w) id = Some (slot_key now) ->
                   tracker_get (w_tracker w') id = Some (slot_key now))
    /\ (started out = true ->
        is_str (get (oget r "trigger") "type") "time" = true ->
        tracker_get (w_tracker w) (oget r "id") <> Some (slot_key now)
        /\ (primitive (oget r "id") = true ->
            tracker_get (w_tracker w') (oget r "id") = Some (slot_key now))).
Proof.
  assert (forall w0 : world, (w_launched w0 ++ [])%list = w_launched w0) as Hnil
    by (intros; apply app_nil_r).
  assert (forall (out : exc (obj * bool)) (w' : world),
             started out = false ->
             w_launched w' = w_launched w -> w_tracker w' = w_tracker w ->
             w_launched w' = (w_launched w ++ (if started out then [r] else []))%list
             /\ (forall id, tracker_get (w_tracker w) id = Some (slot_key now) ->
                            tracker_get (w_tracker w') id = Some (slot_key now))
             /\ (started out = true ->
                 is_str (get (oget r "trigger") "type") "time" = true ->
                 tracker_get (w_tracker w) (oget r "id") <> Some (slot_key now)
                 /\ (primitive (oget r "id") = true ->
                     tracker_get (w_tracker w') (oget r "id")
                     = Some (slot_key now)))) as Hidle.
  { intros out w' -> -> ->. rewrite Hnil. repeat split; done. }
  unfold evaluate_routine.
  destruct (negb (truthy (oget r "enabled")) || negb (truthy (oget r "trigger"))).
  { eexists _, w. split; [reflexivity |]. by apply Hidle. }
  destruct (is_str (get (oget r "trigger") "type") "time") eqn:Ht.
  - destruct (is_str (get (oget r "trigger") "time") _).
    2:{ eexists _, w. split; [reflexivity |]. by apply Hidle. }
    unfold bind at 1. unfold lift at 1.
    destruct (normalizeDays (get (oget r "trigger") "days")) as [e | days].
    { eexists _, w. split; [reflexivity |]. by apply Hidle. }
    destruct ((0 <? length days)%nat && _).
    { eexists _, w. split; [reflexivity |]. by apply Hidle. }
    unfold bind at 1. unfold gets at 1.
    destruct (tracker_get (w_tracker w) (oget r "id")) as [k | ] eqn:Hg.
    + destruct (String.eqb k (slot_key now)) eqn:Hk.
      { eexists _, w. split; [reflexivity |]. by apply Hidle. }
      eexists _, _. split; [reflexivity |]. cbn.
      split; [reflexivity |]. split.
      * intros id Hid. destruct (same_value_zero _ _); [done | exact Hid].
      * intros _ _. split.
        -- intros [= ->]. by rewrite String.eqb_refl in Hk.
        -- intros Hp. by rewrite same_value_zero_refl.
    + eexists _, _. split; [reflexivity |]. cbn.
      split; [reflexivity |]. split.
      * intros id Hid. destruct (same_value_zero _ _); [done | exact Hid].
      * intros _ _. split; [done |].
        intros Hp. by rewrite same_value_zero_refl.
  - destruct (is_str (get (oget r "trigger") "type") "interval").
    2:{ eexists _, w. split; [reflexivity |]. by apply Hidle. }
    unfold bind at 1. unfold lift at 1.
    destruct (clampEveryMinutes _) as [e | every].
    { eexists _, w. split; [reflexivity |]. by apply Hidle. }
    unfold bind at 1. cbn.
    destruct (ToNumber _) as [e | last]; cbn.
    { eexists _, _. split; [reflexivity |]. by apply Hidle. }
    destruct (num_ge _ _).
    + eexists _, _. split; [reflexivity |]. cbn. repeat split; done.
    + eexists _, _. split; [reflexivity |]. by apply Hidle.
Qed.

(** A whole pass over the routines read from the store, however far it
    gets. *)
Lemma evaluate_pass (now : instant) (routines : list obj) :
  forall w, exists out fired w',
    mapM (evaluate_routine now) routines w = (out, w')
    /\ w_launched w' = (w_launched w ++ fired)%list
    /\ (forall r, r ∈ fired -> r ∈ routines)
    /\ (forall id, tracker_get (w_tracker w) id = Some (slot_key now) ->
                   tracker_get (w_tracker w') id = Some (slot_key now))
    /\ (forall r,
           is_str (get (oget r "trigger") "type") "time" = true ->
           tracker_get (w_tracker w) (oget r "id") = Some (slot_key now) ->
           r ∉ fired).
Proof.
  induction routines as [ | r0 routines IH]; intros w.
  - exists (Ok []), [], w. cbn. rewrite app_nil_r.
    repeat split; try done. intros r _ _ Hin. by apply elem_of_nil in Hin.
  - destruct (evaluate_routine_step now r0 w) as (o & w1 & E & Hl & Hk & Hc).
    destruct o as [e | [u c]]; cbn [started] in Hl, Hc.
    { exists (Raise e), [], w1. cbn [mapM]. unfold bind at 1. rewrite E.
      split; [reflexivity |]. split; [exact Hl |].
      split; [intros r Hin; by apply elem_of_nil in Hin |].
      split; [exact Hk |]. intros r _ _ Hin. by apply elem_of_nil in Hin. }
    destruct (IH w1) as (out & fired & w' & E' & Hl' & Hsub & Hk' & Hno).
    exists (match out with Ok results => Ok ((u, c) :: results) | Raise e => Raise e end),
      ((if c then [r0] else []) ++ fired)%list, w'.
    split; [| split; [| split; [| split]]].
    + cbn [mapM]. unfold bind at 1. rewrite E. unfold bind at 1. rewrite E'.
      by destruct out.
    + by rewrite Hl', Hl, app_assoc.
    + intros r [Hin | Hin]%elem_of_app.
      * destruct c; [| by apply elem_of_nil in Hin].
        apply list_elem_of_singleton in Hin as ->. by left.
      * right. by apply Hsub.
    + intros id Hid. by apply Hk', Hk.
    + intros r Ht Hr [Hin | Hin]%elem_of_app.
      * destruct c; [| by apply elem_of_nil in Hin].
        apply list_elem_of_singleton in Hin as ->.
        by destruct (Hc eq_refl Ht) as [Hne _].
      * revert Hin. apply Hno; [done | by apply Hk].
Qed.

(** C3.  When the run tracker holds, for the id of a time-triggered
    routine, the slot key of the evaluation that starts (calendar day and
    HH:MM of the clock reading), that evaluation does not fire the routine:
    the runs it starts are routines of the store, the routine is not among
    them, and the tracker still holds the slot key afterwards, so the same
    is true of every later evaluation in that slot. *)
Theorem C3_no_second_fire_in_same_slot (w : world) (routine : obj) :
  is_str (get (oget routine "trigger") "type") "time" = true ->
  tracker_get (w_tracker w) (oget routine "id")
  = Some (slot_key (w_clock w (w_ticks w))) ->
  exists fired w',
    evaluateRoutines w = (Ok tt, w')
    /\ w_launched w' = (w_launched w ++ fired)%list
    /\ (forall r, r ∈ fired -> r ∈ w_routines w)
    /\ (routine ∉ fired)
    /\ tracker_get (w_tracker w') (oget routine "id")
       = Some (slot_key (w_clock w (w_ticks w))).
Proof.
  intros Ht Hrec.
  set (now := w_clock w (w_ticks w)) in *.
  destruct (evaluate_pass now (w_routines w) (set_ticks (S (w_ticks w)) w))
    as (out & fired & w1 & E & Hl & Hsub & Hk & Hno).
  exists fired.
  unfold evaluateRoutines, try_catch, bind, gets, new_Date. fold now. rewrite E.
  assert (routine ∉ fired) as Hout by (by apply Hno).
  assert (tracker_get (w_tracker w1) (oget routine "id") = Some (slot_key now))
    as Hkept by (by apply Hk).
  destruct out as [e | results].
  { exists w1.
    split; [reflexivity |]. split; [exact Hl |]. split; [exact Hsub |].
    split; [exact Hout | exact Hkept]. }
  destruct (existsb snd results).
  - exists (set_routines (fst <$> results) w1).
    split; [reflexivity |]. split; [exact Hl |]. split; [exact Hsub |].
    split; [exact Hout | exact Hkept].
  - exists w1.
    split; [reflexivity |]. split; [exact Hl |]. split; [exact Hsub |].
    split; [exact Hout | exact Hkept].
Qed.
End SchedulerFacts.

(** ** Time strings *)

Lemma digit_upto_char (k : nat) (c : ascii) :
  digit_upto k c = true -> exists d, (d <= k)%nat /\ c = digit d.
Proof.
  unfold digit_upto. intros [Hlo Hhi]%andb_true_iff.
  apply Nat.leb_le in Hlo, Hhi.
  exists (nat_of_ascii c - 48)%nat. split; [lia |].
  unfold digit. replace (48 + (nat_of_ascii c - 48))%nat with (nat_of_ascii c) by lia.
  by rewrite ascii_nat_embedding.
Qed.

Lemma nat_of_digit (d : nat) : (d < 10)%nat -> nat_of_ascii (digit d) = (48 + d)%nat.
Proof. intros Hd. unfold digit. apply nat_ascii_embedding. lia. Qed.

Lemma digit_upto_digit (k d : nat) :
  (d < 10)%nat -> digit_upto k (digit d) = (d <=? k)%nat.
Proof.
  intros Hd. unfold digit_upto. rewrite (nat_of_digit d Hd).
  destruct (Nat.leb_spec d k) as [Hle | Hgt].
  - apply andb_true_iff. split; apply Nat.leb_le; lia.
  - apply andb_false_iff. right. apply Nat.leb_gt. lia.
Qed.

Lemma digit_is_two (d : nat) :
  (d < 10)%nat -> Ascii.eqb (digit d) "2" = (d =? 2)%nat.
Proof.
  intros Hd. do 10 (destruct d as [ | d]; [reflexivity |]). lia.
Qed.

Lemma two_digits_split (a b : nat) :
  (b < 10)%nat -> two_digits (10 * a + b) = String (digit a) (String (digit b) "").
Proof.
  intros Hb. unfold two_digits.
  replace ((10 * a + b) / 10)%nat with a
    by (apply (Nat.div_unique _ 10 a b); lia).
  replace ((10 * a + b) mod 10)%nat with b
    by (apply (Nat.mod_unique _ 10 a b); lia).
  reflexivity.
Qed.

(** The pattern of [isValidTimeString] accepts the 1440 texts [00:00] to
    [23:59] and nothing else. *)
Lemma time_pattern_spec (s : string) :
  time_pattern s = true
  <-> exists h m, (h < 24)%nat /\ (m < 60)%nat /\ s = clock_text h m.
Proof.
  split.
  - destruct s as [ | h1 [ | h2 [ | c [ | m1 [ | m2 [ | ]]]]]]; try discriminate.
    cbn [time_pattern]. change is_digit with (digit_upto 9). intros H.
    apply andb_true_iff in H as [H Hm2]. apply andb_true_iff in H as [H Hm1].
    apply andb_true_iff in H as [Hh Hc].
    apply Ascii.eqb_eq in Hc as ->.
    apply digit_upto_char in Hm1 as (d1 & Hd1 & ->).
    apply digit_upto_char in Hm2 as (d2 & Hd2 & ->).
    apply orb_true_iff in Hh as [Hh | Hh]; apply andb_true_iff in Hh as [Ha Hb].
    + apply digit_upto_char in Ha as (a & Ha & ->).
      apply digit_upto_char in Hb as (b & Hb & ->).
      exists (10 * a + b)%nat, (10 * d1 + d2)%nat.
      split; [lia |]. split; [lia |].
      unfold clock_text. by rewrite !two_digits_split by lia.
    + apply Ascii.eqb_eq in Ha as ->.
      apply digit_upto_char in Hb as (b & Hb & ->).
      exists (10 * 2 + b)%nat, (10 * d1 + d2)%nat.
      split; [lia |]. split; [lia |].
      unfold clock_text. by rewrite !two_digits_split by lia.
  - intros (h & m & Hh & Hm & ->).
    unfold clock_text, two_digits.
    cbv beta iota delta [String.append]. cbn [time_pattern].
    assert (h / 10 < 3)%nat by (apply Nat.Div0.div_lt_upper_bound; lia).
    assert (m / 10 < 6)%nat by (apply Nat.Div0.div_lt_upper_bound; lia).
    assert (h mod 10 < 10)%nat by (apply Nat.mod_upper_bound; lia).
    assert (m mod 10 < 10)%nat by (apply Nat.mod_upper_bound; lia).
    assert (h / 10 = 2 -> h mod 10 <= 3)%nat.
    { intros E. pose proof (Nat.div_mod_eq h 10). lia. }
    change is_digit with (digit_upto 9).
    rewrite !digit_upto_digit, digit_is_two by lia.
    apply andb_true_iff; split; [| apply Nat.leb_le; lia].
    apply andb_true_iff; split; [| apply Nat.leb_le; lia].
    apply andb_true_iff; split; [| reflexivity].
    apply orb_true_iff.
    destruct (Nat.eq_dec (h / 10)%nat 2%nat) as [E | E].
    + right. apply andb_true_iff. split; [apply Nat.eqb_eq | apply Nat.leb_le]; lia.
    + left. apply andb_true_iff. split; apply Nat.leb_le; lia.
Qed.

Section TimeStrings.
Context {rt : Runtime}.

Lemma isValidTimeString_text (s : string) :
  isValidTimeString (VStr s) = Ok (time_pattern (trim s)).
Proof.
  unfold isValidTimeString, js_or. cbn [truthy].
  destruct (String.eqb s "") eqn:E; [| reflexivity].
  by apply String.eqb_eq in E as ->.
Qed.

(** X1.  [isValidTimeString] returns on every string, and accepts it
    exactly when, white space at both ends aside, it is [HH:MM] with the
    hour from 00 to 23 and the minute from 00 to 59. *)
Theorem isValidTimeString_accepts_exactly_clock_texts (s : string) :
  (exists b, isValidTimeString (VStr s) = Ok b)
  /\ (isValidTimeString (VStr s) = Ok true
      <-> exists h m, (h < 24)%nat /\ (m < 60)%nat /\ trim s = clock_text h m).
Proof.
  rewrite isValidTimeString_text. split; [by eexists |].
  rewrite <- time_pattern_spec. split; [by intros [= ->] | by intros ->].
Qed.
End TimeStrings.

(** ** Weekdays *)

Lemma same_number_refl (x : number) : same_number x x = true.
Proof.
  destruct x as [ | | | q]; try reflexivity. cbn. apply Qeq_eq_bool. reflexivity.
Qed.

Lemma Set_from_sound (l seen : list number) :
  Forall (fun x => In x l /\ existsb (fun y => same_number y x) seen = false)
    (Set_from seen l).
Proof.
  revert seen. induction l as [ | x l IH]; intros seen; cbn [Set_from].
  - constructor.
  - change (existsb (fun y => same_value_zero (VNum y) (VNum x)) seen)
      with (existsb (fun y => same_number y x) seen).
    destruct (existsb (fun y => same_number y x) seen) eqn:E.
    + eapply List.Forall_impl; [| apply IH].
      intros y [Hin Hs]. split; [by right | done].
    + constructor; [split; [by left | done] |].
      eapply List.Forall_impl; [| apply (IH (seen ++ [x])%list)].
      intros y [Hin Hs]. split; [by right |].
      rewrite existsb_app in Hs. by apply orb_false_iff in Hs as [Hs _].
Qed.

Lemma Set_from_distinct (l seen : list number) :
  ForallOrdPairs (fun x y => same_number x y = false) (Set_from seen l).
Proof.
  revert seen. induction l as [ | x l IH]; intros seen; cbn [Set_from].
  - constructor.
  - destruct (existsb _ seen); [apply IH |].
    constructor; [| apply IH].
    eapply List.Forall_impl; [| apply (Set_from_sound l (seen ++ [x])%list)].
    intros y [_ Hy]. cbn beta in Hy.
    rewrite existsb_app in Hy. apply orb_false_iff in Hy as [_ Hy].
    cbn in Hy. by apply orb_false_iff in Hy as [Hy _].
Qed.

Lemma Set_from_complete (l seen : list number) (x : number) :
  In x l ->
  existsb (fun y => same_number y x) seen = true
  \/ exists y, In y (Set_from seen l) /\ same_number y x = true.
Proof.
  revert seen. induction l as [ | a l IH]; intros seen; [done |].
  cbn [Set_from].
  change (existsb (fun y => same_value_zero (VNum y) (VNum a)) seen)
    with (existsb (fun y => same_number y a) seen).
  intros [-> | Hin].
  - destruct (existsb (fun y => same_number y x) seen) eqn:E; [by left |].
    right. exists x. split; [by left | apply same_number_refl].
  - destruct (existsb (fun y => same_number y a) seen) eqn:E.
    + by apply IH.
    + destruct (IH (seen ++ [a])%list Hin) as [Hs | (y & Hy & Hxy)].
      * rewrite existsb_app in Hs. apply orb_true_iff in Hs as [Hs | Hs];
          [by left |].
        right. exists a. split; [by left |].
        cbn in Hs. by rewrite orb_false_r in Hs.
      * right. exists y. split; [by right | done].
Qed.

Lemma weekday_index_exact (q : Q) :
  is_weekday (Fin q) = true ->
  (q == inject_Z (weekday_index (Fin q)))%Q
  /\ 0 <= weekday_index (Fin q) <= 6.
Proof.
  unfold is_weekday, Number_isInteger, num_ge, num_le, num_of_Z, weekday_index.
  intros [[Hint Hlo]%andb_true_iff Hhi]%andb_true_iff.
  apply Z.eqb_eq in Hint. apply Qle_bool_iff in Hlo, Hhi.
  destruct q as [n d]. cbn [Qnum Qden] in *.
  assert (n = Z.pos d * (n / Z.pos d)) as Hn.
  { rewrite (Z.div_mod n (Z.pos d)) at 1 by lia. lia. }
  assert (n # d == inject_Z (n / Z.pos d))%Q as Heq.
  { unfold Qeq, inject_Z. cbn [Qnum Qden]. lia. }
  split; [exact Heq |].
  rewrite Heq in Hlo, Hhi. rewrite <- Zle_Qle in Hlo, Hhi. lia.
Qed.

Lemma weekday_index_inj (x y : number) :
  is_weekday x = true -> is_weekday y = true ->
  same_number x y = false -> weekday_index x <> weekday_index y.
Proof.
  intros Hx Hy Hxy Heq.
  destruct x as [ | | | p]; try discriminate.
  destruct y as [ | | | q]; try discriminate.
  destruct (weekday_index_exact p Hx) as [Ep _].
  destruct (weekday_index_exact q Hy) as [Eq _].
  cbn in Hxy. assert (Qeq_bool p q = true); [| congruence].
  apply Qeq_eq_bool. rewrite Ep, Eq, Heq. reflexivity.
Qed.

Lemma distinct_weekdays_bound (l : list number) :
  Forall (fun d => is_weekday d = true) l ->
  ForallOrdPairs (fun x y => same_number x y = false) l ->
  (length l <= 7)%nat.
Proof.
  intros Hw Hd.
  assert (NoDup (weekday_index <$> l)) as Hnd.
  { induction Hd as [ | x l Hx Hd IH]; [constructor |].
    inversion Hw as [ | ? ? Hwx Hwl]; subst. cbn. constructor; [| by apply IH].
    intros (y & Hy & Hin)%list_elem_of_fmap.
    rewrite List.Forall_forall in Hx, Hwl.
    apply list_elem_of_In in Hin.
    by apply (weekday_index_inj x y Hwx (Hwl y Hin) (Hx y Hin)). }
  assert (weekday_index <$> l ⊆+ [0; 1; 2; 3; 4; 5; 6]) as Hsub.
  { apply NoDup_submseteq; [exact Hnd |].
    intros z (d & -> & Hin)%list_elem_of_fmap.
    rewrite List.Forall_forall in Hw. apply list_elem_of_In in Hin.
    specialize (Hw d Hin). destruct d as [ | | | q]; try discriminate.
    destruct (weekday_index_exact q Hw) as [_ Hr].
    assert (weekday_index (Fin q) = 0 \/ weekday_index (Fin q) = 1
            \/ weekday_index (Fin q) = 2 \/ weekday_index (Fin q) = 3
            \/ weekday_index (Fin q) = 4 \/ weekday_index (Fin q) = 5
            \/ weekday_index (Fin q) = 6) as Hc by lia.
    clear Hr.
    destruct Hc as [E | [E | [E | [E | [E | [E | E]]]]]]; rewrite E;
      set_solver. }
  apply submseteq_length in Hsub. by rewrite length_fmap in Hsub.
Qed.

Section Weekdays.
Context {rt : Runtime}.

(** [normalizeDays] returns the empty list for anything but an array.
    For an array it returns exactly when every element converts to a
    number, and then whole numbers between 0 and 6, no two of them the
    same, at most seven in all; it loses no day: every element of the
    array that reads as such a number is in the result. *)
Lemma normalizeDays_weekdays (days : value) :
  (forall out, normalizeDays days = Ok out ->
     Forall (fun d => is_weekday d = true) out
     /\ ForallOrdPairs (fun x y => same_number x y = false) out
     /\ (length out <= 7)%nat
     /\ (forall l, days = VArr l ->
           forall v n, In v l -> ToNumber v = Ok n -> is_weekday n = true ->
                       exists d, In d out /\ same_number d n = true))
  /\ ((forall l, days <> VArr l) -> normalizeDays days = Ok [])
  /\ (forall l, days = VArr l ->
        ((exists out, normalizeDays days = Ok out) <-> forallb convertible l = true)).
Proof.
  split; [| split].
  - intros out Hout.
    assert (Forall (fun d => is_weekday d = true) out) as Hw.
    { revert Hout. unfold normalizeDays.
      destruct days as [ | | | | | l | ]; try (intros [= <-]; constructor).
      intros (ns & _ & [= <-])%exc_bind_Ok.
      eapply List.Forall_impl; [| apply Set_from_sound].
      intros d [Hin _]. cbn beta in Hin. by apply filter_In in Hin as [_ Hd]. }
    assert (ForallOrdPairs (fun x y => same_number x y = false) out) as Hd.
    { revert Hout. unfold normalizeDays.
      destruct days as [ | | | | | l | ]; try (intros [= <-]; constructor).
      intros (ns & _ & [= <-])%exc_bind_Ok.
      apply Set_from_distinct. }
    split; [exact Hw |]. split; [exact Hd |].
    split; [by apply distinct_weekdays_bound |].
    intros l -> v n Hv Hn Hday. revert Hout. unfold normalizeDays.
    intros (ns & Hns & [= <-])%exc_bind_Ok.
    destruct (Set_from_complete (List.filter is_weekday ns) [] n)
      as [Hs | Hs]; [| discriminate | exact Hs].
    apply filter_In. split; [| exact Hday].
    apply mapE_Ok in Hns. clear -Hns Hv Hn.
    induction Hns as [| x y l' ns' Hxy Hrest IH]; [done |].
    destruct Hv as [-> | Hv]; [left; congruence | right; by apply IH].
  - intros Hna. unfold normalizeDays.
    destruct days as [ | | | | | l | ]; try reflexivity. by destruct (Hna l).
  - intros l ->. unfold normalizeDays. rewrite forallb_forall, <- List.Forall_forall.
    rewrite <- (Forall_iff (fun v => exists n, ToNumber v = Ok n))
      by (intros v; apply ToNumber_convertible).
    rewrite <- mapE_returns. split.
    + intros (out & (ns & -> & _)%exc_bind_Ok). by eexists.
    + intros [ns ->]. by eexists.
Qed.

(** X2.  [normalizeDays] returns the empty list for anything but an
    array.  For an array it returns exactly when every element converts
    to a number, and then whole numbers between 0 and 6, no two of them
    the same, at most seven in all; it loses no day: every element of the
    array that reads as such a number is in the result. *)
Theorem normalizeDays_distinct_weekdays (days : value) :
  (forall out, normalizeDays days = Ok out ->
     Forall (fun d => is_weekday d = true) out
     /\ ForallOrdPairs (fun x y => same_number x y = false) out
     /\ (length out <= 7)%nat
     /\ (forall l, days = VArr l ->
           forall v n, In v l -> ToNumber v = Ok n -> is_weekday n = true ->
                       exists d, In d out /\ same_number d n = true))
  /\ ((forall l, days <> VArr l) -> normalizeDays days = Ok [])
  /\ (forall l, days = VArr l ->
        ((exists out, normalizeDays days = Ok out) <-> forallb convertible l = true)).
Proof. exact (normalizeDays_weekdays days). Qed.
End Weekdays.

(** ** What validation stores *)

Section StoredShapes.
Context {rt : Runtime}.

Ltac lookups :=
  repeat (rewrite lookup_insert_eq || (rewrite lookup_insert_ne by done)).

Lemma call_trim_Ok (v : value) (s : string) :
  call_trim v = Ok s -> exists t, v = VStr t /\ s = trim t.
Proof. destruct v; try discriminate. intros [= <-]. eauto. Qed.

Lemma normalize_loop_stored (l : list value) :
  forall draw out, normalize_loop l draw = Ok out -> Forall stored_action out.
Proof.
  induction l as [ | a l IH]; intros draw out; cbn [normalize_loop].
  - intros [= <-]. constructor.
  - destruct (negb (truthy a) || negb (truthy (get a "deviceId"))); [apply IH |].
    destruct (action_base a draw) as [e | [base draw']] eqn:Eb; cbn [exc_bind];
      [discriminate |].
    destruct (action_base_fields _ _ _ _ Eb) as ((d & _ & Hdev) & _).
    destruct (is_str (get a "type") "device_toggle").
    + destruct (desired_state a) as [b | ]; [| apply IH].
      destruct (normalize_loop l draw') as [e | tl] eqn:E; [discriminate |].
      cbn [exc_bind]. intros [= <-]. constructor; [| by eapply IH].
      split.
      * eexists. unfold oget. lookups. by rewrite Hdev.
      * left. unfold oget. lookups. split; [reflexivity | by exists b].
    + destruct (is_str (get a "type") "device_command"); [| apply IH].
      destruct (call_trim (js_or (get a "capability") (VStr ""))) as [e | c] eqn:Ec;
        [discriminate |].
      destruct (call_trim (js_or (get a "command") (VStr ""))) as [e | m] eqn:Em;
        [discriminate |].
      cbn [exc_bind].
      destruct (String.eqb c "") eqn:Hc; cbn [orb]; [apply IH |].
      destruct (String.eqb m "") eqn:Hm; cbn [orb]; [apply IH |].
      destruct (normalize_loop l draw') as [e | tl] eqn:E; [discriminate |].
      cbn [exc_bind]. intros [= <-]. constructor; [| by eapply IH].
      apply String.eqb_neq in Hc, Hm.
      split.
      * eexists. unfold oget. lookups. by rewrite Hdev.
      * right. unfold oget. lookups. split; [reflexivity |].
        destruct (get a "arguments") as [ | | | | | args | ];
          by eexists c, m, _.
Qed.

(** Whatever is submitted, the list [normalizeActions] returns has
    at most 20 actions, and each of them has a string [deviceId] and is a
    toggle with a boolean [desiredState] or a command with a non-empty
    [capability] and [command] and an array of [arguments]. *)
Lemma normalizeActions_stored (actions : value) (draw : nat)
    (out : list obj) :
  normalizeActions actions draw = Ok out ->
  (length out <= 20)%nat /\ Forall stored_action out.
Proof.
  unfold normalizeActions.
  destruct (normalize_loop (action_list actions) draw) as [e | all] eqn:E;
    [discriminate |].
  cbn [exc_bind]. intros [= <-]. split.
  - rewrite length_take. unfold MAX_ACTIONS_PER_ROUTINE. lia.
  - apply Forall_take. by eapply normalize_loop_stored.
Qed.

(** X3.  Whatever is submitted, the list [normalizeActions] returns has
    at most 20 actions, and each of them has a string [deviceId] and is a
    toggle with a boolean [desiredState] or a command with a non-empty
    [capability] and [command] and an array of [arguments]. *)
Theorem normalizeActions_stores_well_formed_actions (actions : value) (draw : nat)
    (out : list obj) :
  normalizeActions actions draw = Ok out ->
  (length out <= 20)%nat /\ Forall stored_action out.
Proof. exact (normalizeActions_stored actions draw out). Qed.

Lemma normalize_loop_throws (l : list value) :
  forallb well_typed_action l = false ->
  forall draw, exists e, normalize_loop l draw = Raise e.
Proof.
  induction l as [ | a l IH]; [discriminate |].
  cbn [forallb]. intros Hf draw. cbn [normalize_loop].
  unfold well_typed_action in Hf at 1.
  destruct (truthy a); cbn [andb negb orb] in *; [| by apply IH].
  destruct (truthy (get a "deviceId")); cbn [andb negb orb] in *; [| by apply IH].
  destruct (action_base a draw) as [e | [base draw']] eqn:Eb; cbn [exc_bind];
    [by eexists |].
  assert (convertible (get a "deviceId") && convertible (get a "sourceId")
          && convertible (get a "deviceName") = true) as Hconv
    by (apply (action_base_returns a draw); by eexists).
  rewrite Hconv in Hf. cbn [andb] in Hf.
  destruct (is_str (get a "type") "device_command") eqn:Ec.
  - assert (is_str (get a "type") "device_toggle" = false) as ->.
    { destruct (get a "type") as [ | | | | s | | ]; try done. simpl in *.
      by apply String.eqb_eq in Ec as ->. }
    destruct (textual (get a "capability")) eqn:Tc.
    + rewrite (call_trim_textual _ Tc). cbn [exc_bind].
      destruct (textual (get a "command")) eqn:Tm.
      * rewrite (call_trim_textual _ Tm). cbn [exc_bind andb] in *.
        destruct (IH Hf draw') as [e He]. rewrite He.
        destruct (_ || _); [by eexists |]. by eexists.
      * unfold textual, js_or in *.
        destruct (get a "command") as [ | | [ | ] | n | s | args | o ];
          try discriminate; cbn in *; try (by eexists).
        destruct (num_truthy n); [by eexists | discriminate].
    + unfold textual, js_or in *.
      destruct (get a "capability") as [ | | [ | ] | n | s | args | o ];
        try discriminate; cbn in *; try (by eexists).
      destruct (num_truthy n); [by eexists | discriminate].
  - cbn [andb] in Hf. destruct (IH Hf draw') as [e He].
    destruct (is_str (get a "type") "device_toggle"); [| by eexists].
    destruct (desired_state a); [| by eexists].
    rewrite He. by eexists.
Qed.
End StoredShapes.

Section BuildFacts.
Context {rt : Runtime}.

Ltac lookups :=
  repeat (rewrite lookup_insert_eq || (rewrite lookup_insert_ne by done)).

Lemma build_name_returns (payload : value) (base : obj) :
  convertible (get payload "name") = true ->
  exists r, build_name payload base = Ok r.
Proof.
  intros Hc. unfold build_name. destruct (defined _); [| by eexists].
  assert (convertible (js_or (get payload "name") (VStr "")) = true) as Hc'
    by (unfold js_or; by destruct (truthy _)).
  apply ToString_convertible in Hc' as [text ->]. cbn [exc_bind].
  destruct (String.eqb _ _); by eexists.
Qed.

Lemma build_trigger_returns (payload : value) (existing : option obj) (base : obj) :
  (let trigger := js_or (get payload "trigger") (VObj ∅) in
   convertible (get trigger "time") && convertible (get trigger "days")
   && convertible (get trigger "everyMinutes")) = true ->
  exists r, build_trigger payload existing base = Ok r.
Proof.
  cbv zeta. intros [[Ht Hd]%andb_true_iff Hm]%andb_true_iff.
  unfold build_trigger. destruct (defined _); [| destruct existing; by eexists].
  set (trigger := js_or (get payload "trigger") (VObj ∅)) in *.
  destruct (is_str (get trigger "type") "time").
  - unfold isValidTimeString.
    assert (convertible (js_or (get trigger "time") (VStr "")) = true) as Ht'
      by (unfold js_or; by destruct (truthy _)).
    apply ToString_convertible in Ht' as [text ->]. cbn [exc_bind].
    destruct (time_pattern _); cbn [negb]; [| by eexists].
    assert (exists days, normalizeDays (get trigger "days") = Ok days) as [days ->].
    { destruct (get trigger "days") as [ | | | | | l | ] eqn:E;
        try (by eexists).
      destruct (normalizeDays_weekdays (VArr l)) as (_ & _ & Hret).
      by apply (Hret l eq_refl). }
    apply ToString_convertible in Ht as [time ->]. by eexists.
  - destruct (is_str (get trigger "type") "interval"); [| by eexists].
    unfold clampEveryMinutes.
    apply ToNumber_convertible in Hm as [n ->]. cbn [exc_bind].
    destruct (negb _); by eexists.
Qed.

(** X4.  [normalizeActions] throws exactly when some submitted action
    with a [deviceId] is not well typed: its [deviceId], [sourceId] or
    [deviceName] does not convert to a string (the [TypeError] of the
    conversion), or it has the type [device_command] and carries a truthy
    value that is not a string in [capability] or [command] (the
    [TypeError] of calling [trim] on it).  [buildRoutineFromPayload]
    returns, with a routine or a validation error, whenever the actions
    it is given are well typed and the name and the time, days and
    minutes of the trigger convert. *)
Theorem normalizeActions_throws_exactly_on_untyped_text (actions : value) :
  (forall draw,
      (exists e, normalizeActions actions draw = Raise e)
      <-> forallb well_typed_action (action_list actions) = false)
  /\ (forall payload existing now draw,
         js_or (get payload "actions") (get payload "action") = actions ->
         forallb well_typed_action (action_list actions) = true ->
         convertible (get payload "name") = true ->
         (let trigger := js_or (get payload "trigger") (VObj ∅) in
          convertible (get trigger "time") && convertible (get trigger "days")
          && convertible (get trigger "everyMinutes")) = true ->
         exists r, buildRoutineFromPayload payload existing now draw = Ok r).
Proof.
  split.
  - intros draw. split.
    + intros [e He]. destruct (forallb _ _) eqn:Hwt; [| reflexivity].
      destruct (normalizeActions_survivors actions Hwt draw) as (out & E & _).
      congruence.
    + intros Hwt. unfold normalizeActions.
      destruct (normalize_loop_throws _ Hwt draw) as [e ->]. by exists e.
  - intros payload existing now draw Hsel Hwt Hname Htrig.
    unfold buildRoutineFromPayload.
    destruct (match existing with Some e => _ | None => _ end) as [base d].
    destruct (build_name_returns payload base Hname) as [[msg | named] ->];
      cbn [exc_bind]; [by eexists |].
    destruct (build_trigger_returns payload existing
                (build_enabled payload existing named) Htrig)
      as [[msg | triggered] ->]; cbn [exc_bind]; [by eexists |].
    unfold build_actions.
    destruct (defined (get payload "actions") || defined (get payload "action")).
    + rewrite Hsel.
      destruct (normalizeActions_survivors actions Hwt d) as (out & -> & _).
      cbn [exc_bind]. destruct out; by eexists.
    + destruct existing; by eexists.
Qed.

Lemma str_take_length (n : nat) (s : string) :
  (String.length (str_take n s) <= n)%nat.
Proof.
  revert s. induction n as [ | n IH]; intros [ | c s]; cbn; try lia.
  specialize (IH s). lia.
Qed.

Lemma build_enabled_keeps (payload : value) (existing : option obj) (base : obj)
    (k : string) :
  k <> "enabled" -> build_enabled payload existing base !! k = base !! k.
Proof.
  intros Hk. unfold build_enabled.
  destruct (defined _); [by lookups |]. destruct existing; [done | by lookups].
Qed.

Lemma build_trigger_keeps (payload : value) (existing : option obj)
    (base base' : obj) (k : string) :
  build_trigger payload existing base = Ok (inr base') ->
  k <> "trigger" -> base' !! k = base !! k.
Proof.
  unfold build_trigger. intros E Hk.
  repeat match type of E with
         | (if ?c then _ else _) = _ => destruct c
         | match ?o with Some _ => _ | None => _ end = _ => destruct o
         | exc_bind ?m _ = _ => destruct m; cbn [exc_bind] in E
         end; try discriminate; injection E as <-; by lookups.
Qed.

Lemma build_trigger_errors (payload : value) (existing : option obj) (base : obj)
    (msg : string) :
  build_trigger payload existing base = Ok (inl msg) ->
  msg = "Ungültiger Trigger" \/ (msg = "Trigger fehlt" /\ existing = None
                                  /\ defined (get payload "trigger") = false).
Proof.
  unfold build_trigger. intros E.
  destruct (defined (get payload "trigger")).
  - left.
    repeat match type of E with
           | (if ?c then _ else _) = _ => destruct c
           | exc_bind ?m _ = _ => destruct m; cbn [exc_bind] in E
           end; try discriminate; by injection E as <-.
  - destruct existing; [discriminate |]. injection E as <-. by right.
Qed.

Lemma build_actions_keeps (payload : value) (existing : option obj)
    (base base' : obj) (draw : nat) (k : string) :
  build_actions payload existing base draw = Ok (inr base') ->
  k <> "actions" -> base' !! k = base !! k.
Proof.
  unfold build_actions. intros E Hk.
  destruct (_ || _).
  - destruct (normalizeActions _ draw) as [e | [ | a l]]; try discriminate.
    cbn in E. injection E as <-. by lookups.
  - destruct existing; [| discriminate]. by injection E as <-.
Qed.

Lemma build_actions_errors (payload : value) (existing : option obj) (base : obj)
    (draw : nat) (msg : string) :
  build_actions payload existing base draw = Ok (inl msg) ->
  msg = "Ungültige Aktionen" \/ (msg = "Aktionen fehlen" /\ existing = None).
Proof.
  unfold build_actions. intros E.
  destruct (_ || _).
  - destruct (normalizeActions _ draw) as [e | [ | a l]]; try discriminate.
    cbn in E. injection E as <-. by left.
  - destruct existing; [discriminate |]. injection E as <-. by right.
Qed.

(** X5.  The name block.  When the name of the payload converts to a
    string: a payload with a [name] is refused with ["Name fehlt"] exactly
    when the name is blank once trimmed; otherwise the routine that is
    built carries the trimmed name cut to 120 characters.  A payload
    without [name] is never refused for it, not even on creation, and the
    routine built from it on creation has no [name].  When the name does
    not convert, the build throws the error of the conversion. *)
Theorem name_is_trimmed_capped_and_optional (payload : value)
    (existing : option obj) (now : number) (draw : nat) :
  match ToString (js_or (get payload "name") (VStr "")) with
  | Ok text =>
      let name := trim text in
      (buildRoutineFromPayload payload existing now draw
       = Ok (BuildError "Name fehlt")
       <-> defined (get payload "name") = true /\ name = "")
      /\ (forall r,
             buildRoutineFromPayload payload existing now draw
             = Ok (BuildRoutine r) ->
             if defined (get payload "name")
             then r !! "name" = Some (VStr (str_take 120 name))
                  /\ name <> "" /\ (String.length (str_take 120 name) <= 120)%nat
             else r !! "name" = (existing ≫= fun prior => prior !! "name"))
  | Raise e =>
      defined (get payload "name") = true
      /\ buildRoutineFromPayload payload existing now draw = Raise e
  end.
Proof.
  unfold buildRoutineFromPayload.
  destruct (match existing with Some e => _ | None => _ end) as [base d] eqn:Eb.
  assert (base !! "name" = (existing ≫= fun prior => prior !! "name")) as Hbase.
  { destruct existing as [prior | ]; injection Eb as <- <-; [done |]. by lookups. }
  assert (forall b1 res,
             (let? triggered :=
                build_trigger payload existing (build_enabled payload existing b1) in
              match triggered with
              | inl error => Ok (BuildError error)
              | inr b =>
                  let? r := build_actions payload existing b d in
                  match r with
                  | inl error => Ok (BuildError error)
                  | inr b0 => Ok (BuildRoutine (<["updatedAt" := VNum now]> b0))
                  end
              end) = Ok res ->
             res <> BuildError "Name fehlt"
             /\ forall r, res = BuildRoutine r -> r !! "name" = b1 !! "name") as Hrest.
  { intros b1 res.
    destruct (build_trigger _ _ _) as [e | [msg | b3]] eqn:E3; cbn [exc_bind];
      [discriminate | |].
    - intros [= <-]. split; [| discriminate].
      apply build_trigger_errors in E3 as [-> | (-> & _)]; discriminate.
    - destruct (build_actions _ _ b3 d) as [e | [msg | b4]] eqn:E4;
        cbn [exc_bind]; [discriminate | |].
      + intros [= <-]. split; [| discriminate].
        apply build_actions_errors in E4 as [-> | (-> & _)]; discriminate.
      + intros [= <-]. split; [discriminate |]. intros r [= <-]. lookups.
        rewrite (build_actions_keeps _ _ _ _ _ "name" E4) by done.
        rewrite (build_trigger_keeps _ _ _ _ "name" E3) by done.
        by apply build_enabled_keeps. }
  unfold build_name.
  destruct (ToString (js_or (get payload "name") (VStr ""))) as [e | text] eqn:Et.
  { assert (defined (get payload "name") = true) as Hdef.
    { destruct (get payload "name"); try reflexivity. discriminate. }
    rewrite Hdef. by split. }
  cbv zeta. destruct (defined (get payload "name")) eqn:Hdef; cbn [exc_bind].
  - destruct (String.eqb _ "") eqn:Hblank.
    + apply String.eqb_eq in Hblank. split; [by split | discriminate].
    + apply String.eqb_neq in Hblank. split.
      * split; [| by intros [_ ?]].
        intros E. by destruct (Hrest _ _ E) as [Hne _].
      * intros r E. destruct (Hrest _ _ E) as [_ Hr].
        rewrite (Hr r eq_refl). lookups.
        split; [done |]. split; [done | apply str_take_length].
  - split.
    + split; [| by intros [? _]].
      intros E. by destruct (Hrest _ _ E) as [Hne _].
    + intros r E. destruct (Hrest _ _ E) as [_ Hr].
      by rewrite (Hr r eq_refl).
Qed.

(** A routine that is created carries the fresh id, the time of the
    call in [createdAt] and [updatedAt], [lastRunAt: null] and a boolean
    [enabled] that is [true] unless the payload says otherwise; it has no
    key besides these and [name], [trigger] and [actions], whatever else
    the payload carries (an [id] or a [createdAt] in the payload is
    ignored). *)
Lemma build_created_fields (payload : value) (now : number)
    (draw : nat) (r : obj) :
  buildRoutineFromPayload payload None now draw = Ok (BuildRoutine r) ->
  r !! "id" = Some (VStr (randomHex 8 draw))
  /\ r !! "createdAt" = Some (VNum now)
  /\ r !! "updatedAt" = Some (VNum now)
  /\ r !! "lastRunAt" = Some VNull
  /\ r !! "enabled"
     = Some (VBool (if defined (get payload "enabled")
                    then truthy (get payload "enabled") else true))
  /\ forall k, k <> "id" -> k <> "createdAt" -> k <> "updatedAt" ->
               k <> "lastRunAt" -> k <> "enabled" -> k <> "name" ->
               k <> "trigger" -> k <> "actions" -> r !! k = None.
Proof.
  intros (b1 & b3 & b4 & E1 & E3 & E4 & ->)%build_steps.
  apply build_name_frame in E1 as [N1 _].
  assert (forall k, k <> "name" -> k <> "trigger" -> k <> "actions" ->
                    k <> "updatedAt" -> k <> "enabled" ->
                    <["updatedAt" := VNum now]> b4 !! k
                    = (<["lastRunAt" := VNull]>
                         (<["createdAt" := VNum now]>
                            (<["id" := VStr (randomHex 8 draw)]> (∅ : obj)))) !! k)
    as Hk.
  { intros k ? ? ? ? ?. lookups.
    rewrite (build_actions_keeps _ _ _ _ _ k E4) by done.
    rewrite (build_trigger_keeps _ _ _ _ k E3) by done.
    rewrite build_enabled_keeps by done. by apply N1. }
  repeat split.
  - rewrite Hk by done. by lookups.
  - rewrite Hk by done. by lookups.
  - by lookups.
  - rewrite Hk by done. by lookups.
  - lookups.
    rewrite (build_actions_keeps _ _ _ _ _ "enabled" E4) by done.
    rewrite (build_trigger_keeps _ _ _ _ "enabled" E3) by done.
    unfold build_enabled, Boolean. destruct (defined _); by lookups.
  - intros k ? ? ? ? ? ? ? ?. rewrite Hk by done. by lookups.
Qed.

(** X6.  A routine that is created carries the fresh id, the time of the
    call in [createdAt] and [updatedAt], [lastRunAt: null] and a boolean
    [enabled] that is [true] unless the payload says otherwise; it has no
    key besides these and [name], [trigger] and [actions], whatever else
    the payload carries (an [id] or a [createdAt] in the payload is
    ignored). *)
Theorem created_routine_has_only_server_fields (payload : value) (now : number)
    (draw : nat) (r : obj) :
  buildRoutineFromPayload payload None now draw = Ok (BuildRoutine r) ->
  r !! "id" = Some (VStr (randomHex 8 draw))
  /\ r !! "createdAt" = Some (VNum now)
  /\ r !! "updatedAt" = Some (VNum now)
  /\ r !! "lastRunAt" = Some VNull
  /\ r !! "enabled"
     = Some (VBool (if defined (get payload "enabled")
                    then truthy (get payload "enabled") else true))
  /\ forall k, k <> "id" -> k <> "createdAt" -> k <> "updatedAt" ->
               k <> "lastRunAt" -> k <> "enabled" -> k <> "name" ->
               k <> "trigger" -> k <> "actions" -> r !! k = None.
Proof. exact (build_created_fields payload now draw r). Qed.

Lemma valid_time_is_clock_text (v : value) :
  isValidTimeString v = Ok true ->
  exists text h m,
    ToString v = Ok text
    /\ (h < 24)%nat /\ (m < 60)%nat /\ trim text = clock_text h m.
Proof.
  unfold isValidTimeString, js_or. destruct (truthy v).
  - intros (text & Ht & [= Hp])%exc_bind_Ok.
    apply time_pattern_spec in Hp as (h & m & Hh & Hm & Hc).
    by exists text, h, m.
  - discriminate.
Qed.

Lemma build_trigger_stored (payload : value) (existing : option obj)
    (base base' : obj) :
  build_trigger payload existing base = Ok (inr base') ->
  (defined (get payload "trigger") = true /\ stored_trigger (oget base' "trigger"))
  \/ (defined (get payload "trigger") = false /\ base' = base
      /\ exists prior, existing = Some prior).
Proof.
  unfold build_trigger. destruct (defined (get payload "trigger")).
  - intros E. left. split; [reflexivity |].
    destruct (is_str _ "time").
    + destruct (isValidTimeString _) as [e | [ | ]] eqn:Hv; cbn [exc_bind negb] in E;
        [discriminate | | discriminate].
      destruct (normalizeDays _) as [e | days] eqn:Hd; cbn [exc_bind] in E;
        [discriminate |].
      apply valid_time_is_clock_text in Hv as (text & h & m & Ht & Hh & Hm & Hc).
      rewrite Ht in E. cbn [exc_bind] in E. injection E as <-.
      left. exists h, m, days.
      split; [done |]. split; [done |]. split.
      * destruct (normalizeDays_weekdays
                    (get (js_or (get payload "trigger") (VObj ∅)) "days"))
          as (Hout & _). by destruct (Hout days Hd) as [Hw _].
      * unfold oget. lookups. cbn. by rewrite Hc.
    + destruct (is_str _ "interval"); [| discriminate].
      destruct (clampEveryMinutes _) as [e | every] eqn:Hc; cbn [exc_bind] in E;
        [discriminate |].
      rewrite (clampEveryMinutes_truthy _ _ Hc) in E. cbn [negb] in E.
      injection E as <-.
      destruct (clampEveryMinutes_range _ _ Hc) as (q & -> & Hlo & Hhi).
      right. exists q. split; [done |]. split; [done |].
      unfold oget. by lookups.
  - destruct existing as [prior | ]; [| discriminate].
    intros [= <-]. right. eauto.
Qed.

Lemma build_actions_stored (payload : value) (existing : option obj)
    (base base' : obj) (draw : nat) :
  build_actions payload existing base draw = Ok (inr base') ->
  (exists l, oget base' "actions" = VArr (VObj <$> l)
             /\ l <> [] /\ (length l <= 20)%nat /\ Forall stored_action l)
  \/ (base' = base /\ exists prior, existing = Some prior).
Proof.
  unfold build_actions. destruct (_ || _).
  - destruct (normalizeActions _ draw) as [e | l] eqn:E; [discriminate |].
    apply normalizeActions_stored in E as [Hlen Hst].
    destruct l as [ | a l]; [discriminate |]. cbn [exc_bind].
    intros [= <-]. left. exists (a :: l).
    split; [unfold oget; by lookups |]. by repeat split.
  - destruct existing as [prior | ]; [| discriminate].
    intros [= <-]. right. eauto.
Qed.

(** Every routine [buildRoutineFromPayload] returns has one stored
    trigger (a time [HH:MM] between 00:00 and 23:59 with weekdays from 0 to
    6, or an interval between 1 and 1440 minutes) and between 1 and 20
    stored actions, provided the routine it updates, if any, has: creation
    establishes the invariant of the store and every update keeps it. *)
Lemma build_stored_routine (payload : value)
    (existing : option obj) (now : number) (draw : nat) (r : obj) :
  (forall prior, existing = Some prior -> stored_routine prior) ->
  buildRoutineFromPayload payload existing now draw = Ok (BuildRoutine r) ->
  stored_routine r.
Proof.
  intros Hprior (b1 & b3 & b4 & E1 & E3 & E4 & ->)%build_steps.
  apply build_name_frame in E1 as [N1 _].
  pose proof (build_actions_keeps _ _ _ _ _ "trigger" E4 ltac:(done)) as Ht4.
  assert (forall prior, existing = Some prior -> forall k,
             k <> "name" -> k <> "enabled" ->
             build_enabled payload existing b1 !! k = prior !! k) as Hold.
  { intros prior -> k ? ?.
    rewrite build_enabled_keeps by done. by apply N1. }
  split.
  - unfold oget. lookups. rewrite Ht4.
    destruct (build_trigger_stored _ _ _ _ E3) as [[_ Hs] | (_ & -> & prior & Hp)].
    + exact Hs.
    + rewrite (Hold prior Hp) by done. by destruct (Hprior prior Hp).
  - destruct (build_actions_stored _ _ _ _ _ E4) as [Hs | (-> & prior & Hp)].
    + destruct Hs as (l & Hl & Hs). exists l. split; [| exact Hs].
      unfold oget in *. by lookups.
    + destruct (Hprior prior Hp) as [_ (l & Hl & Hs)].
      exists l. split; [| exact Hs].
      unfold oget in *. lookups.
      rewrite (build_trigger_keeps _ _ _ _ "actions" E3) by done.
      by rewrite (Hold prior Hp) by done.
Qed.

(** X7.  Every routine [buildRoutineFromPayload] returns has one stored
    trigger (a time [HH:MM] between 00:00 and 23:59 with weekdays from 0 to
    6, or an interval between 1 and 1440 minutes) and between 1 and 20
    stored actions, provided the routine it updates, if any, has: creation
    establishes the invariant of the store and every update keeps it. *)
Theorem built_routines_keep_the_store_invariant (payload : value)
    (existing : option obj) (now : number) (draw : nat) (r : obj) :
  (forall prior, existing = Some prior -> stored_routine prior) ->
  buildRoutineFromPayload payload existing now draw = Ok (BuildRoutine r) ->
  stored_routine r.
Proof. exact (build_stored_routine payload existing now draw r). Qed.
End BuildFacts.

(** ** Vault and credential store *)

Section VaultFacts.
Context {cr : Crypto}.

(** The vault, for a cipher that decrypts what it encrypted: when the nonce has 12 bytes and the tag 16, and the base64
    and UTF-8 codecs invert each other on the data at hand, decrypting the
    payload [encryptSecret] produced returns the plaintext: the offsets 12
    and 28 at which [decryptSecret] cuts the blob are those at which
    [encryptSecret] joined nonce, tag and ciphertext. *)
Lemma vault_round_trip (plain : string) (key : list Byte.byte) (draw : nat)
    (enc tag : list Byte.byte) :
  let iv := randomBytes 12 draw in
  let blob := (iv ++ tag ++ enc)%list in
  length iv = 12%nat ->
  gcm_encrypt key iv (utf8_encode plain) = Ok (enc, tag) ->
  length tag = 16%nat ->
  gcm_decrypt key iv tag enc = Ok (utf8_encode plain) ->
  Buffer_from_base64 (VStr (base64_encode blob)) = Ok blob ->
  base64_encode blob <> "" ->
  utf8_decode (utf8_encode plain) = plain ->
  encryptSecret plain key draw = Ok (base64_encode blob)
  /\ decryptSecret (VStr (base64_encode blob)) key = Ok plain.
Proof.
  intros iv blob Hiv Henc Htag Hdec Hb64 Hne Hutf.
  split.
  - unfold encryptSecret, encryptBlob. fold iv. by rewrite Henc.
  - unfold decryptSecret. cbn [truthy].
    apply String.eqb_neq in Hne. rewrite Hne. cbn [negb]. rewrite Hb64.
    cbn [exc_bind]. subst blob.
    symmetry in Hiv, Htag.
    rewrite (take_app_length' iv _ 12 Hiv).
    rewrite (drop_app_length' iv _ 12 Hiv).
    rewrite (take_app_length' tag _ 16 Htag).
    replace 28%nat with (12 + 16)%nat by reflexivity.
    rewrite <- drop_drop, (drop_app_length' iv _ 12 Hiv).
    rewrite (drop_app_length' tag _ 16 Htag).
    rewrite Hdec. cbn [exc_bind]. by rewrite Hutf.
Qed.

(** X8.  Round trip of the vault, for a cipher that decrypts what it
    encrypted: when the nonce has 12 bytes and the tag 16, and the base64
    and UTF-8 codecs invert each other on the data at hand, decrypting the
    payload [encryptSecret] produced returns the plaintext: the offsets 12
    and 28 at which [decryptSecret] cuts the blob are those at which
    [encryptSecret] joined nonce, tag and ciphertext. *)
Theorem decrypt_inverts_encrypt (plain : string) (key : list Byte.byte) (draw : nat)
    (enc tag : list Byte.byte) :
  let iv := randomBytes 12 draw in
  let blob := (iv ++ tag ++ enc)%list in
  length iv = 12%nat ->
  gcm_encrypt key iv (utf8_encode plain) = Ok (enc, tag) ->
  length tag = 16%nat ->
  gcm_decrypt key iv tag enc = Ok (utf8_encode plain) ->
  Buffer_from_base64 (VStr (base64_encode blob)) = Ok blob ->
  base64_encode blob <> "" ->
  utf8_decode (utf8_encode plain) = plain ->
  encryptSecret plain key draw = Ok (base64_encode blob)
  /\ decryptSecret (VStr (base64_encode blob)) key = Ok plain.
Proof. exact (vault_round_trip plain key draw enc tag). Qed.

(** The entries [getStoredSmartThingsTokens] returns, one by one. *)
Lemma stored_entry_Some (key : list Byte.byte) (e : value) (o : obj) :
  stored_entry key e = Some o ->
  nullish e = false
  /\ exists token,
       decryptSecret (get e "token") key = Ok token
       /\ o = <["updatedAt" := get e "updatedAt"]>
               (<["token" := VStr token]>
                  (<["enabled" := Boolean (get e "enabled")]>
                     (<["label" := get e "label"]>
                        (<["id" := get e "id"]> ∅)))).
Proof.
  unfold stored_entry.
  destruct e; try discriminate; cbn [get_strict exc_bind nullish];
    (destruct (decryptSecret _ key) as [err | token]; [discriminate |]);
    cbn [exc_bind]; intros [= <-]; split; try reflexivity; by exists token.
Qed.

Lemma stored_entry_None (key : list Byte.byte) (e : value) :
  stored_entry key e = None ->
  nullish e = true \/ exists err, decryptSecret (get e "token") key = Raise err.
Proof.
  unfold stored_entry.
  destruct e; cbn [get_strict exc_bind nullish]; try (by left);
    (destruct (decryptSecret _ key) as [err | token]; [right; by exists err |]);
    discriminate.
Qed.

(** X9.  With a readable key file, [getStoredSmartThingsTokens] returns
    without throwing and without changing anything.  It returns, in the
    order of the store, one entry for each stored entry that is not [null]
    and whose token decrypts, with the id and label of the stored entry,
    the decrypted token and a boolean [enabled]; an entry is left out
    exactly when it is [null] or its token does not decrypt, and an entry
    without a token is returned with the empty token.  With an unreadable
    key file the function throws. *)
Theorem stored_tokens_skip_undecryptable_entries (w : world) :
  (forall key, w_key w = Ok key ->
     getStoredSmartThingsTokens w = (Ok (omap (stored_entry key) (w_entries w)), w)
     /\ (length (omap (stored_entry key) (w_entries w)) <= length (w_entries w))%nat
     /\ (forall e,
           stored_entry key e = None
           <-> nullish e = true
               \/ exists err, decryptSecret (get e "token") key = Raise err)
     /\ (forall e o,
           stored_entry key e = Some o ->
           exists token,
             decryptSecret (get e "token") key = Ok token
             /\ oget o "id" = get e "id"
             /\ oget o "label" = get e "label"
             /\ oget o "token" = VStr token
             /\ oget o "enabled" = VBool (truthy (get e "enabled")))
     /\ (forall e, nullish e = false -> truthy (get e "token") = false ->
           exists o, stored_entry key e = Some o /\ oget o "token" = VStr ""))
  /\ (forall err, w_key w = Raise err ->
        getStoredSmartThingsTokens w = (Raise err, w)).
Proof.
  split.
  - intros key Hkey. split; [| split; [| split; [| split]]].
    + unfold getStoredSmartThingsTokens, bind, gets, lift, ret. by rewrite Hkey.
    + induction (w_entries w) as [ | e l IH]; [done |]. cbn.
      destruct (stored_entry key e); cbn; lia.
    + intros e. split; [apply stored_entry_None |].
      unfold stored_entry. intros [Hn | [err Herr]].
      * by destruct e.
      * destruct e; try done; cbn [get_strict exc_bind]; by rewrite Herr.
    + intros e o (_ & token & Hd & ->)%stored_entry_Some.
      exists token. by repeat split.
    + intros e Hn Htok. unfold stored_entry.
      assert (decryptSecret (get e "token") key = Ok "") as Hd.
      { unfold decryptSecret. by rewrite Htok. }
      destruct e; try discriminate; cbn [get_strict exc_bind];
        rewrite Hd; cbn [exc_bind]; by eexists.
  - intros err Hkey.
    unfold getStoredSmartThingsTokens, bind, gets, lift. by rewrite Hkey.
Qed.
End VaultFacts.

Section UpsertFacts.
Context {rt : Runtime} {cr : Crypto}.

Lemma findIndex_none (entries : list value) (id : value) (i : nat) :
  forallb (fun e => negb (nullish e)) entries = true ->
  (forall e, e ∈ entries -> strict_eq (get e "id") id = false) ->
  findIndex_id entries id i = Ok None.
Proof.
  revert i. induction entries as [ | e l IH]; intros i Hnn Hno; [reflexivity |].
  cbn [forallb] in Hnn. apply andb_true_iff in Hnn as [He Hl].
  cbn [findIndex_id].
  assert (get_strict e "id" = Ok (get e "id")) as -> by (by destruct e).
  cbn [exc_bind]. rewrite (Hno e) by left.
  apply IH; [done |]. intros e' He'. apply Hno. by right.
Qed.

Lemma findIndex_first (entries : list value) (id : value) (i j : nat) (e : value) :
  forallb (fun e => negb (nullish e)) entries = true ->
  entries !! j = Some e ->
  strict_eq (get e "id") id = true ->
  (forall k e', (k < j)%nat -> entries !! k = Some e' ->
                strict_eq (get e' "id") id = false) ->
  findIndex_id entries id i = Ok (Some (i + j)%nat).
Proof.
  revert i j. induction entries as [ | a l IH]; intros i j Hnn Hj He Hfirst;
    [done |].
  cbn [forallb] in Hnn. apply andb_true_iff in Hnn as [Ha Hl].
  cbn [findIndex_id].
  assert (get_strict a "id" = Ok (get a "id")) as -> by (by destruct a).
  cbn [exc_bind]. destruct j as [ | j].
  - injection Hj as ->. rewrite He. f_equal. f_equal. lia.
  - rewrite (Hfirst 0%nat a) by (done || lia).
    rewrite (IH (S i) j Hl Hj He).
    + f_equal. f_equal. lia.
    + intros k e' Hk Hk'. apply (Hfirst (S k) e'); [lia | done].
Qed.

Lemma findIndex_returns (entries : list value) (id : value) (i : nat) :
  forallb (fun e => negb (nullish e)) entries = true ->
  exists idx, findIndex_id entries id i = Ok idx
              /\ forall j, idx = Some j -> (i <= j < i + length entries)%nat.
Proof.
  revert i. induction entries as [ | a l IH]; intros i Hnn.
  - exists None. by split.
  - cbn [forallb] in Hnn. apply andb_true_iff in Hnn as [Ha Hl].
    cbn [findIndex_id].
    assert (get_strict a "id" = Ok (get a "id")) as -> by (by destruct a).
    cbn [exc_bind]. destruct (strict_eq _ id).
    + exists (Some i). split; [done |]. intros j [= <-]. cbn. lia.
    + destruct (IH (S i) Hl) as (idx & -> & Hb). exists idx. split; [done |].
      intros j Hj. specialize (Hb j Hj). cbn. lia.
Qed.

Lemma save_equation (w : world) (key : list Byte.byte)
    (id label enabled : value) (token sealed : string) (draw : nat) :
  w_key w = Ok key ->
  forallb (fun e => negb (nullish e)) (w_entries w) = true ->
  encryptSecret token key (if truthy id then draw else S draw) = Ok sealed ->
  saveSmartThingsEntry id label token enabled draw w
  = (Ok (if truthy id then id else VStr (randomHex 8 draw)),
     set_entries
       (upserted (w_entries w) id
          (new_entry (if truthy id then id else VStr (randomHex 8 draw)) label sealed
             (if defined enabled then enabled else VBool true)
             (i_now (w_clock w (w_ticks w)))))
       (set_ticks (S (w_ticks w)) w)).
Proof.
  intros Hkey Hnn Hseal.
  unfold saveSmartThingsEntry, upserted, bind, gets, lift, modify, ret.
  rewrite Hkey.
  destruct (findIndex_returns (w_entries w) id 0 Hnn) as (idx & -> & _).
  destruct (truthy id); cbn beta iota; rewrite Hseal; destruct idx; reflexivity.
Qed.

(** X10.  [saveSmartThingsEntry] on a store without [null] entries, with
    a readable key and a cipher that does not throw: it returns the id it
    was given, or a fresh one when it was given none, and changes nothing
    but the stored entries (and the clock it read once).  When no stored
    entry has the id, the new entry is appended; otherwise the first entry
    with the id is replaced, at its position, by the new entry merged over
    it, so the store keeps its length, the other entries stay as they
    were, and the keys of the old entry that the new one does not carry
    survive. *)
Theorem upsert_replaces_in_place_or_appends (w : world) (key : list Byte.byte)
    (id label enabled : value) (token sealed : string) (draw : nat) :
  let newId := if truthy id then id else VStr (randomHex 8 draw) in
  let draw' := if truthy id then draw else S draw in
  let now := i_now (w_clock w (w_ticks w)) in
  let newEntry :=
    new_entry newId label sealed (if defined enabled then enabled else VBool true) now in
  w_key w = Ok key ->
  forallb (fun e => negb (nullish e)) (w_entries w) = true ->
  encryptSecret token key draw' = Ok sealed ->
  exists entries',
    saveSmartThingsEntry id label token enabled draw w
    = (Ok newId, set_entries entries' (set_ticks (S (w_ticks w)) w))
    /\ ((forall e, e ∈ w_entries w -> strict_eq (get e "id") id = false) ->
        entries' = (w_entries w ++ [VObj newEntry])%list)
    /\ (forall j e,
          w_entries w !! j = Some e ->
          strict_eq (get e "id") id = true ->
          (forall k e', (k < j)%nat -> w_entries w !! k = Some e' ->
                        strict_eq (get e' "id") id = false) ->
          entries' = <[j := VObj (newEntry ∪ spread e)]> (w_entries w)
          /\ length entries' = length (w_entries w)
          /\ (forall k, k <> j -> entries' !! k = w_entries w !! k)
          /\ (forall p, (newEntry ∪ spread e) !! p
                        = match newEntry !! p with
                          | Some v => Some v
                          | None => spread e !! p
                          end)).
Proof.
  intros newId draw' now newEntry Hkey Hnn Hseal.
  exists (upserted (w_entries w) id newEntry).
  split; [| split].
  - by apply (save_equation w key).
  - intros Hno. unfold upserted. by rewrite (findIndex_none _ id 0 Hnn Hno).
  - intros j e Hj He Hfirst. unfold upserted.
    rewrite (findIndex_first _ id 0 j e Hnn Hj He Hfirst).
    cbn [Nat.add]. rewrite Hj. cbn [default].
    split; [reflexivity |]. split; [apply length_insert |]. split.
    + intros k Hk. by apply list_lookup_insert_ne.
    + intros p. rewrite lookup_union.
      destruct (newEntry !! p), (spread e !! p); reflexivity.
Qed.

(** X11.  What is saved reads back: after [saveSmartThingsEntry], under
    the conditions of the round trip of the vault for the token at hand,
    [getStoredSmartThingsTokens] returns an entry with the id the save
    returned, the token in plain text, the label (["SmartThings"] when
    none was given) and the boolean of the enabled flag ([true] when none
    was given). *)
Theorem saved_entry_reads_back (w : world) (key : list Byte.byte)
    (id label enabled : value) (token : string) (draw : nat)
    (enc tag : list Byte.byte) :
  let draw' := if truthy id then draw else S draw in
  let iv := randomBytes 12 draw' in
  let blob := (iv ++ tag ++ enc)%list in
  w_key w = Ok key ->
  forallb (fun e => negb (nullish e)) (w_entries w) = true ->
  length iv = 12%nat ->
  gcm_encrypt key iv (utf8_encode token) = Ok (enc, tag) ->
  length tag = 16%nat ->
  gcm_decrypt key iv tag enc = Ok (utf8_encode token) ->
  Buffer_from_base64 (VStr (base64_encode blob)) = Ok blob ->
  base64_encode blob <> "" ->
  utf8_decode (utf8_encode token) = token ->
  exists newId w' out o,
    saveSmartThingsEntry id label token enabled draw w = (Ok newId, w')
    /\ getStoredSmartThingsTokens w' = (Ok out, w')
    /\ o ∈ out
    /\ oget o "id" = newId
    /\ oget o "token" = VStr token
    /\ oget o "label" = js_or label (VStr "SmartThings")
    /\ oget o "enabled"
       = VBool (truthy (if defined enabled then enabled else VBool true)).
Proof.
  intros draw' iv blob Hkey Hnn Hiv Henc Htag Hdec Hb64 Hne Hutf.
  destruct (vault_round_trip token key draw' enc tag Hiv Henc Htag Hdec Hb64 Hne Hutf)
    as [Hseal Hopen].
  fold iv blob in Hseal, Hopen.
  pose proof (save_equation w key id label enabled token _ draw Hkey Hnn Hseal) as Hs.
  set (newId := if truthy id then id else VStr (randomHex 8 draw)) in *.
  set (newEntry := new_entry newId label (base64_encode blob) _ _) in *.
  set (w' := set_entries _ _) in *.
  assert (exists old, VObj (newEntry ∪ old) ∈ w_entries w') as [old Hin].
  { subst w'. cbn [w_entries set_entries]. unfold upserted.
    destruct (findIndex_returns (w_entries w) id 0 Hnn) as (idx & -> & Hb).
    destruct idx as [i | ].
    - eexists. apply list_elem_of_lookup. exists i.
      apply list_lookup_insert_eq. specialize (Hb i eq_refl). lia.
    - exists ∅. rewrite (right_id_L ∅ (∪)). apply elem_of_app. right. by left. }
  assert (forall p v, newEntry !! p = Some v -> (newEntry ∪ old) !! p = Some v) as Hnew.
  { intros p v Hp. by apply lookup_union_Some_l. }
  assert (stored_entry key (VObj (newEntry ∪ old))
          = Some (<["updatedAt" := get (VObj (newEntry ∪ old)) "updatedAt"]>
                    (<["token" := VStr token]>
                       (<["enabled" := Boolean (get (VObj (newEntry ∪ old)) "enabled")]>
                          (<["label" := get (VObj (newEntry ∪ old)) "label"]>
                             (<["id" := get (VObj (newEntry ∪ old)) "id"]> ∅))))))
    as Hst.
  { unfold stored_entry. cbn [get_strict exc_bind].
    assert (get (VObj (newEntry ∪ old)) "token" = VStr (base64_encode blob)) as ->.
    { cbn [get]. by rewrite (Hnew "token" (VStr (base64_encode blob))). }
    by rewrite Hopen. }
  eexists newId, w', _, _. split; [exact Hs |]. split.
  - unfold getStoredSmartThingsTokens, bind, gets, lift, ret.
    subst w'. cbn [w_key set_entries set_ticks]. by rewrite Hkey.
  - split; [apply list_elem_of_omap; eexists; split; [exact Hin | exact Hst] |].
    unfold oget. cbn [get].
    rewrite !lookup_insert_ne, lookup_insert_eq by done.
    rewrite (Hnew "id" newId) by done.
    split; [done |]. split; [by rewrite lookup_insert_ne, lookup_insert_eq |].
    split.
    + rewrite !lookup_insert_ne, lookup_insert_eq by done.
      by rewrite (Hnew "label" (js_or label (VStr "SmartThings"))).
    + rewrite !lookup_insert_ne, lookup_insert_eq by done.
      erewrite (Hnew "enabled") by done. done.
Qed.
End UpsertFacts.

(** ** Requests sent by the dispatcher *)

Section RequestFacts.
Context {rt : Runtime} {net : Remote}.

Lemma getDeviceStatus_requests (deviceId token : value) (d t : string) (w : world) :
  ToString deviceId = Ok d ->
  ToString token = Ok t ->
  exists sent,
    snd (getDeviceStatus deviceId token w)
    = set_requests (w_requests w ++ sent) w
    /\ (sent = [status_request d t]
        \/ sent = [status_request d t; health_request d t])
    /\ (forall st, fst (getDeviceStatus deviceId token w) = Ok st ->
          sent = [status_request d t; health_request d t]
          /\ exists on online,
               st = <["online" := VBool online]> (<["on" := VBool on]> ∅)).
Proof.
  intros Hd Ht.
  unfold getDeviceStatus, device_url, bearer, bind, fetch, lift, ret.
  rewrite Hd, Ht. cbn [exc_bind].
  fold (status_request d t). fold (health_request d t).
  cbn [w_requests set_requests].
  destruct (respond (w_requests w) (status_request d t)) as [e | res].
  { exists [status_request d t]. cbn. split; [done |]. split; [by left | done]. }
  destruct (r_json res) as [e | statusData].
  { exists [status_request d t]. cbn. split; [done |]. split; [by left | done]. }
  destruct (get_strict statusData "components") as [e | components].
  { exists [status_request d t]. cbn. split; [done |]. split; [by left | done]. }
  exists [status_request d t; health_request d t].
  rewrite <- app_assoc. cbn [app].
  destruct (respond _ (health_request d t)) as [e | hres].
  { cbn. split; [done |]. split; [by right | done]. }
  destruct (r_json hres) as [e | healthData].
  { cbn. split; [done |]. split; [by right | done]. }
  destruct (get_strict healthData "state") as [e | st].
  { cbn. split; [done |]. split; [by right | done]. }
  cbn. split; [done |]. split; [by right |].
  intros st' [= <-]. split; [done |]. by eexists _, _.
Qed.

(** [sendSmartThingsCommand] changes nothing but the list of requests
    sent.  When the device id or the token of the source does not convert
    to a string, it throws the error of the conversion and sends nothing.
    Otherwise it sends the command, with the token of the source as
    bearer; when the service refuses it, it sends nothing more and throws
    an error that carries the status and the text of the answer; when it
    returns, it has sent exactly the command, the status read and the
    health read, in this order and with the same token, and it returns
    the source it was given and a state made of two booleans. *)
Lemma send_requests
    (deviceId source capability command args : value) (w : world) :
  let run := sendSmartThingsCommand deviceId source capability command args w in
  match ToString deviceId, ToString (get source "token") with
  | Ok d, Ok t =>
      let post := command_request d t capability command args in
      let status := status_request d t in
      let health := health_request d t in
      exists sent,
        snd run = set_requests (w_requests w ++ post :: sent) w
        /\ (sent = [] \/ sent = [status] \/ sent = [status; health])
        /\ (forall r, respond (w_requests w) post = Ok r -> r_ok r = false ->
              run = (Raise (Throw ("SmartThings Command fehlgeschlagen ("
                                   ++ NumberToString (r_status r) ++ ") "
                                   ++ match r_text r with
                                      | Ok text => text
                                      | Raise _ => ""
                                      end)),
                     set_requests (w_requests w ++ [post]) w))
        /\ (forall out, fst run = Ok out ->
              sent = [status; health]
              /\ co_source out = source
              /\ exists on online,
                   co_state out
                   = <["online" := VBool online]> (<["on" := VBool on]> ∅))
  | Raise e, _ | Ok _, Raise e => run = (Raise e, w)
  end.
Proof.
  cbv zeta.
  unfold sendSmartThingsCommand, device_url, bearer, bind, fetch, lift, ret, throw.
  destruct (ToString deviceId) as [e | d] eqn:Hd; cbn [exc_bind]; [reflexivity |].
  destruct (ToString (get source "token")) as [e | t] eqn:Ht; cbn [exc_bind];
    [reflexivity |].
  fold (command_request d t capability command args).
  set (post := command_request d t capability command args).
  destruct (respond (w_requests w) post) as [e | r] eqn:Hr.
  { exists []. cbn. split; [done |]. split; [by left |]. split; done. }
  destruct (r_ok r) eqn:Hok; cbn [negb].
  2:{ exists []. cbn. split; [done |]. split; [by left |]. split; [| done].
      by intros r' [= <-] _. }
  destruct (r_json r) as [e | res].
  { exists []. cbn. split; [done |]. split; [by left |]. split; [| done].
    intros r' [= <-]. congruence. }
  destruct (getDeviceStatus_requests deviceId (get source "token") d t
              (set_requests (w_requests w ++ [post]) w) Hd Ht)
    as (sent & Hw & Hsent & Hst).
  exists sent.
  destruct (getDeviceStatus deviceId (get source "token") _) as [[e | st] w'].
  - cbn [fst snd] in *. subst w'. cbn [w_requests set_requests].
    rewrite <- app_assoc. cbn [app]. split; [done |].
    split; [destruct Hsent; auto |]. split; [| done].
    intros r' [= <-]. congruence.
  - cbn [fst snd] in *. subst w'. cbn [w_requests set_requests].
    rewrite <- app_assoc. cbn [app]. split; [done |].
    split; [destruct Hsent; auto |]. split.
    + intros r' [= <-]. congruence.
    + intros out [= <-]. destruct (Hst st eq_refl) as [-> Hshape]. by repeat split.
Qed.

(** X12.  [sendSmartThingsCommand] changes nothing but the list of
    requests sent.  When the device id or the token of the source does not
    convert to a string, it throws the error of the conversion and sends
    nothing.  Otherwise it sends the command, with the token of the source
    as bearer; when the service refuses it, it sends nothing more and
    throws an error that carries the status and the text of the answer;
    when it returns, it has sent exactly the command, the status read and
    the health read, in this order and with the same token, and it returns
    the source it was given and a state made of two booleans. *)
Theorem command_is_followed_by_status_reads_only_on_success
    (deviceId source capability command args : value) (w : world) :
  let run := sendSmartThingsCommand deviceId source capability command args w in
  match ToString deviceId, ToString (get source "token") with
  | Ok d, Ok t =>
      let post := command_request d t capability command args in
      let status := status_request d t in
      let health := health_request d t in
      exists sent,
        snd run = set_requests (w_requests w ++ post :: sent) w
        /\ (sent = [] \/ sent = [status] \/ sent = [status; health])
        /\ (forall r, respond (w_requests w) post = Ok r -> r_ok r = false ->
              run = (Raise (Throw ("SmartThings Command fehlgeschlagen ("
                                   ++ NumberToString (r_status r) ++ ") "
                                   ++ match r_text r with
                                      | Ok text => text
                                      | Raise _ => ""
                                      end)),
                     set_requests (w_requests w ++ [post]) w))
        /\ (forall out, fst run = Ok out ->
              sent = [status; health]
              /\ co_source out = source
              /\ exists on online,
                   co_state out
                   = <["online" := VBool online]> (<["on" := VBool on]> ∅))
  | Raise e, _ | Ok _, Raise e => run = (Raise e, w)
  end.
Proof. exact (send_requests deviceId source capability command args w). Qed.
End RequestFacts.

(** ** The activity log of a run *)

Lemma logged_refl (w : world) : logged w w [].
Proof.
  exists (w_ticks w), (w_requests w). rewrite app_nil_r. by destruct w.
Qed.

Lemma logged_trans (w w1 w2 : world) (a1 a2 : list obj) :
  logged w w1 a1 -> logged w1 w2 a2 -> logged w w2 (a1 ++ a2).
Proof.
  intros (t1 & r1 & ->) (t2 & r2 & ->). exists t2, r2.
  unfold touch. cbn. by rewrite app_assoc.
Qed.

Lemma logged_requests (w : world) (requests : list request) :
  logged w (set_requests requests w) [].
Proof.
  exists (w_ticks w), requests. rewrite app_nil_r. by destruct w.
Qed.

Lemma logged_store (w w' : world) (added : list obj) :
  logged w w' added ->
  w_env_token w' = w_env_token w /\ w_key w' = w_key w
  /\ w_entries w' = w_entries w /\ w_routines w' = w_routines w
  /\ w_tracker w' = w_tracker w /\ w_launched w' = w_launched w
  /\ w_clock w' = w_clock w /\ w_log w' = (w_log w ++ added)%list.
Proof. intros (t & r & ->). by repeat split. Qed.

Section LogFacts.
Context {rt : Runtime} {cr : Crypto} {net : Remote}.

Lemma resolve_reads_only (w : world) : snd (resolveSmartThingsToken w) = w.
Proof.
  unfold resolveSmartThingsToken, getStoredSmartThingsTokens, bind, gets, lift,
    ret, throw.
  destruct (truthy (w_env_token w)); [reflexivity |].
  destruct (w_key w); [reflexivity |]. cbn.
  by destruct (length _).
Qed.

Lemma Date_now_logged (w : world) : logged w (snd (Date_now w)) [].
Proof.
  exists (S (w_ticks w)), (w_requests w). rewrite app_nil_r. by destruct w.
Qed.

Lemma appendLog_logged (entry : obj) (w : world) :
  exists line, fst (appendLog entry w) = Ok tt
               /\ logged w (snd (appendLog entry w)) [line].
Proof.
  unfold appendLog, bind, gets, modify, ret, Date_now, bind, new_Date, ret.
  destruct (truthy (oget entry "timestamp")); cbn.
  - eexists. split; [done |]. exists (w_ticks w), (w_requests w). by destruct w.
  - eexists. split; [done |]. exists (S (w_ticks w)), (w_requests w). by destruct w.
Qed.

Lemma send_logged (deviceId source capability command args : value) (w : world) :
  logged w (snd (sendSmartThingsCommand deviceId source capability command args w)) [].
Proof.
  pose proof (send_requests deviceId source capability command args w) as H.
  cbv zeta in H.
  destruct (ToString deviceId) as [e | d]; [rewrite H; apply logged_refl |].
  destruct (ToString (get source "token")) as [e | t];
    [rewrite H; apply logged_refl |].
  destruct H as (sent & -> & _). apply logged_requests.
Qed.

Lemma toggle_logged (deviceId on sourceId : value) (w : world) :
  logged w (snd (toggleSmartThingsDevice deviceId on sourceId w)) [].
Proof.
  unfold toggleSmartThingsDevice, bind, throw.
  pose proof (resolve_reads_only w) as Hr.
  destruct (resolveSmartThingsToken w) as [[e | tokens] w1]; cbn [snd] in Hr;
    subst w1; [apply logged_refl |].
  destruct (pick_source tokens sourceId); [apply send_logged | apply logged_refl].
Qed.

(** After the remote call: a reading of the clock, a line in the log, the
    result entry. *)
Lemma logged_after_call (out : command_outcome) (entry : number -> obj)
    (id : value) (w1 : world) :
  exists line r w',
    (let* now := Date_now in
     appendLog (entry now) ;;
     ret {| ok := true; actionId := id;
            state := Some (co_state out); error := None |}) w1 = (Ok r, w')
    /\ ok r = true /\ logged w1 w' [line].
Proof.
  unfold bind at 1. cbn [Date_now].
  pose proof (Date_now_logged w1) as Hd.
  destruct (Date_now w1) as [[e | now] w2] eqn:E; [discriminate |].
  cbn [snd] in Hd. unfold bind at 1.
  destruct (appendLog_logged (entry now) w2) as (line & Hok & Hl).
  destruct (appendLog (entry now) w2) as [[e | []] w3]; [discriminate |].
  cbn [snd] in Hl. eexists line, _, w3. split; [reflexivity |].
  split; [reflexivity |]. exact (logged_trans _ _ _ [] [line] Hd Hl).
Qed.

Lemma attempt_toggle_logged (routine : obj) (a : value) (w : world) :
  match attempt_toggle routine a w with
  | (Ok r, w') => ok r = true /\ exists line, logged w w' [line]
  | (Raise _, w') => logged w w' []
  end.
Proof.
  unfold attempt_toggle. unfold bind at 1.
  pose proof (toggle_logged (get a "deviceId") (get a "desiredState")
                (get a "sourceId") w) as Ht.
  destruct (toggleSmartThingsDevice _ _ _ w) as [[e | out] w1]; cbn [snd] in Ht;
    [exact Ht |].
  destruct (logged_after_call out
              (fun now => <["timestamp" := VNum now]>
                            (<["action" := VStr (if truthy (get a "desiredState")
                                                 then "on" else "off")]>
                               (<["device" := log_device routine a]> ∅)))
              (get a "id") w1) as (line & r & w' & -> & Hok & Hl).
  split; [exact Hok |]. exists line. exact (logged_trans _ _ _ [] [line] Ht Hl).
Qed.

Lemma dispatch_command_logged (routine : obj) (a : value) (e : obj) (w : world) :
  match dispatch_command routine a e w with
  | (Ok r, w') => ok r = true /\ exists line, logged w w' [line]
  | (Raise _, w') => logged w w' []
  end.
Proof.
  unfold dispatch_command. unfold bind at 1.
  pose proof (send_logged (get a "deviceId") (VObj e) (get a "capability")
                (get a "command") (js_or (get a "arguments") (VArr [])) w) as Ht.
  destruct (sendSmartThingsCommand _ _ _ _ _ w) as [[err | out] w1]; cbn [snd] in Ht;
    [exact Ht |].
  unfold bind at 1. unfold lift at 1.
  destruct (ToString (get a "capability")) as [err | capability]; [exact Ht |].
  unfold bind at 1. unfold lift at 1.
  destruct (ToString (get a "command")) as [err | command]; [exact Ht |].
  destruct (logged_after_call out
              (fun now => <["timestamp" := VNum now]>
                            (<["action" := VStr (capability ++ ":" ++ command)]>
                               (<["device" := log_device routine a]> ∅)))
              (get a "id") w1) as (line & r & w' & -> & Hok & Hl).
  split; [exact Hok |]. exists line. exact (logged_trans _ _ _ [] [line] Ht Hl).
Qed.

Lemma attempt_action_logged (routine : obj) (a : value) (w : world) :
  match attempt_action routine a w with
  | (Ok r, w') => exists added, logged w w' added
                                /\ length added = (if ok r then 1 else 0)%nat
  | (Raise _, w') => logged w w' []
  end.
Proof.
  unfold attempt_action, bind at 1, lift.
  destruct (get_strict a "type") as [e | type]; [apply logged_refl |].
  destruct (is_str type "device_toggle").
  { pose proof (attempt_toggle_logged routine a w) as Ht.
    destruct (attempt_toggle routine a w) as [[e | r] w']; [exact Ht |].
    destruct Ht as [-> [line Hl]]. by exists [line]. }
  destruct (is_str type "device_command").
  - unfold bind. pose proof (resolve_reads_only w) as Hr.
    destruct (resolveSmartThingsToken w) as [[e | tokens] w1]; cbn [snd] in Hr;
      subst w1; [apply logged_refl |].
    destruct (pick_source tokens (get a "sourceId")) as [tokenEntry | ];
      [| apply logged_refl].
    pose proof (dispatch_command_logged routine a tokenEntry w) as Ht.
    destruct (dispatch_command routine a tokenEntry w) as [[e | r] w']; [exact Ht |].
    destruct Ht as [-> [line Hl]]. by exists [line].
  - cbn. exists []. split; [apply logged_refl | done].
Qed.

Lemma run_all_logged (routine : obj) (l : list value) :
  forallb (fun a => negb (nullish a)) l = true ->
  forall w results w',
    mapM (run_action routine) l w = (Ok results, w') ->
    exists added, logged w w' added /\ length added = successes results.
Proof.
  induction l as [ | a l IH]; intros Hl w results w'.
  - intros [= <- <-]. exists []. split; [apply logged_refl | done].
  - cbn [forallb] in Hl. apply andb_true_iff in Hl as [Ha Hl].
    apply negb_true_iff in Ha.
    cbn [mapM]. unfold bind at 1. rewrite (run_action_returns _ _ _ Ha).
    unfold bind at 1.
    destruct (mapM (run_action routine) l _) as [[e | rest] w2] eqn:E;
      [discriminate |].
    intros [= <- <-].
    destruct (IH Hl _ _ _ E) as (added2 & Hl2 & Hn2).
    pose proof (attempt_action_logged routine a w) as H1.
    unfold entry_of, successes in *.
    destruct (attempt_action routine a w) as [[e | r] w1]; cbn [snd] in *.
    + exists added2. split; [exact (logged_trans _ _ _ [] added2 H1 Hl2) | done].
    + destruct H1 as (added1 & Hl1 & Hn1).
      exists (added1 ++ added2)%list.
      split; [exact (logged_trans _ _ _ _ _ Hl1 Hl2) |].
      rewrite length_app, Hn1, Hn2. cbn [List.filter].
      destruct (ok r); cbn; lia.
Qed.

(** X13.  A run of a routine whose [actions] is a list of objects adds
    one line to the activity log for each action that succeeded and none
    for the others; apart from the log, the clock it reads and the
    requests it sends, it leaves everything as it was, the stored routines
    and credentials included. *)
Theorem run_logs_one_line_per_success (routine : obj) (actions : list value)
    (w w' : world) (results : list result) :
  oget routine "actions" = VArr actions ->
  forallb (fun a => negb (nullish a)) actions = true ->
  runRoutineActions routine w = (Ok results, w') ->
  exists added,
    w_log w' = (w_log w ++ added)%list
    /\ length added = successes results
    /\ w_routines w' = w_routines w /\ w_entries w' = w_entries w
    /\ w_tracker w' = w_tracker w /\ w_launched w' = w_launched w
    /\ w_key w' = w_key w /\ w_env_token w' = w_env_token w.
Proof.
  intros Hact Hl. unfold runRoutineActions, bind, lift. rewrite Hact. cbn.
  intros E. destruct (run_all_logged routine actions Hl _ _ _ E) as (added & Hlog & Hn).
  apply logged_store in Hlog
    as (Henv & Hkey & Hent & Hrs & Htr & Hla & _ & Hlg).
  exists added. by repeat split.
Qed.
End LogFacts.

(** ** More on the scheduler *)

Section PassFacts.
Context {rt : Runtime}.

(** What the evaluation of one routine can change. *)
Lemma evaluate_routine_changes (now : instant) (r : obj) (w : world) :
  exists out w',
    evaluate_routine now r w = (out, w')
    /\ w_launched w' = (w_launched w ++ (if started out then [r] else []))%list
    /\ match out with
       | Ok (u, true) =>
           (exists t, u = <["lastRunAt" := VNum t]> r)
           /\ truthy (oget r "enabled") = true
           /\ truthy (oget r "trigger") = true
       | Ok (u, false) => u = r
       | Raise _ => True
       end
    /\ w_entries w' = w_entries w /\ w_routines w' = w_routines w
    /\ w_log w' = w_log w /\ w_requests w' = w_requests w
    /\ w_clock w' = w_clock w /\ w_env_token w' = w_env_token w
    /\ w_key w' = w_key w.
Proof.
  assert (forall w0 : world, (w_launched w0 ++ [])%list = w_launched w0) as Hnil
    by (intros; apply app_nil_r).
  unfold evaluate_routine.
  destruct (truthy (oget r "enabled")); cbn [negb orb];
    [| eexists _, w; split; [reflexivity |]; cbn; rewrite Hnil; by repeat split].
  destruct (truthy (oget r "trigger")); cbn [negb orb];
    [| eexists _, w; split; [reflexivity |]; cbn; rewrite Hnil; by repeat split].
  destruct (is_str (get (oget r "trigger") "type") "time").
  - destruct (is_str (get (oget r "trigger") "time") _);
      [| eexists _, w; split; [reflexivity |]; cbn; rewrite Hnil; by repeat split].
    unfold bind at 1. unfold lift at 1.
    destruct (normalizeDays _) as [e | days];
      [eexists _, w; split; [reflexivity |]; cbn; rewrite Hnil; by repeat split |].
    destruct (_ && _);
      [eexists _, w; split; [reflexivity |]; cbn; rewrite Hnil; by repeat split |].
    unfold bind at 1. unfold gets at 1.
    destruct (match tracker_get (w_tracker w) (oget r "id") with
              | Some k => String.eqb k (slot_key now)
              | None => false
              end);
      [eexists _, w; split; [reflexivity |]; cbn; rewrite Hnil; by repeat split |].
    eexists _, _. split; [reflexivity |]. cbn.
    repeat split; try done. by eexists.
  - destruct (is_str (get (oget r "trigger") "type") "interval");
      [| eexists _, w; split; [reflexivity |]; cbn; rewrite Hnil; by repeat split].
    unfold bind at 1. unfold lift at 1.
    destruct (clampEveryMinutes _) as [e | every];
      [eexists _, w; split; [reflexivity |]; cbn; rewrite Hnil; by repeat split |].
    unfold bind at 1. cbn.
    destruct (ToNumber _) as [e | last]; cbn.
    { eexists _, _. split; [reflexivity |]. cbn. rewrite Hnil. by repeat split. }
    destruct (num_ge _ _).
    + eexists _, _. split; [reflexivity |]. cbn.
      repeat split; try done. by eexists.
    + eexists _, _. split; [reflexivity |]. cbn. rewrite Hnil.
      by repeat split.
Qed.

Lemma evaluate_pass_changes (now : instant) (routines : list obj) :
  forall w, exists out fired w',
    mapM (evaluate_routine now) routines w = (out, w')
    /\ w_launched w' = (w_launched w ++ fired)%list
    /\ match out with
       | Ok results =>
           Forall2 (fun r r' =>
                      r' = r
                      \/ (r ∈ fired /\ exists t, r' = <["lastRunAt" := VNum t]> r))
             routines (fst <$> results)
           /\ (existsb snd results = false -> fired = [] /\ fst <$> results = routines)
           /\ (fired = [] -> existsb snd results = false)
       | Raise _ => True
       end
    /\ (forall r, r ∈ fired ->
          truthy (oget r "enabled") = true /\ truthy (oget r "trigger") = true)
    /\ w_entries w' = w_entries w /\ w_log w' = w_log w
    /\ w_requests w' = w_requests w /\ w_env_token w' = w_env_token w
    /\ w_key w' = w_key w /\ w_routines w' = w_routines w.
Proof.
  induction routines as [ | r0 routines IH]; intros w.
  - exists (Ok []), [], w. cbn. rewrite app_nil_r.
    repeat split; try done; try constructor;
      match goal with H : _ ∈ [] |- _ => by apply elem_of_nil in H end.
  - destruct (evaluate_routine_changes now r0 w)
      as (o & w1 & E & Hl & Hu & He & Hrs & Hlog & Hrq & _ & Henv & Hkey).
    destruct o as [e | [u c]]; cbn [started] in Hl.
    { exists (Raise e), [], w1. cbn [mapM]. unfold bind at 1. rewrite E.
      split; [reflexivity |]. split; [exact Hl |]. split; [exact I |].
      split; [intros r Hin; by apply elem_of_nil in Hin |].
      by repeat split. }
    destruct (IH w1)
      as (out & fired & w' & E' & Hl' & Hout & Hen
          & He' & Hlog' & Hrq' & Henv' & Hkey' & Hrs').
    exists (match out with
            | Ok results => Ok ((u, c) :: results)
            | Raise e => Raise e
            end), ((if c then [r0] else []) ++ fired)%list, w'.
    split; [| split; [| split; [| split]]].
    + cbn [mapM]. unfold bind at 1. rewrite E. unfold bind at 1. rewrite E'.
      by destruct out.
    + by rewrite Hl', Hl, app_assoc.
    + destruct out as [e | results]; [exact I |].
      destruct Hout as (HF & Hnone & Hnil).
      split; [| split].
      * cbn. constructor.
        -- destruct c; [| by left]. right. destruct Hu as [Ht _].
           split; [by left | exact Ht].
        -- revert HF. apply Forall2_impl. intros r r' [-> | [Hin Ht]]; [by left |].
           right. split; [| exact Ht]. apply elem_of_app. by right.
      * cbn [existsb snd]. intros [-> Hs]%orb_false_iff.
        destruct (Hnone Hs) as [-> Hr]. cbn in Hu. subst u. cbn. by rewrite Hr.
      * intros Hf. apply app_eq_nil in Hf as [Hc ->].
        destruct c; [discriminate |]. cbn. by apply Hnil.
    + intros r [Hin | Hin]%elem_of_app; [| by apply Hen].
      destruct c; [| by apply elem_of_nil in Hin].
      apply list_elem_of_singleton in Hin as ->. by destruct Hu as (_ & ? & ?).
    + repeat split; congruence.
Qed.

(** An evaluation returns without throwing.  It keeps the number
    and the order of the stored routines and changes no key of any of them
    but [lastRunAt], and that only for the routines it starts; these are
    enabled and have a trigger; when it starts none, the store is left as
    it was.  It does not touch the credentials, the log or the requests:
    the runs it starts proceed on their own. *)
Lemma evaluation_changes (w : world) :
  exists fired w',
    evaluateRoutines w = (Ok tt, w')
    /\ w_launched w' = (w_launched w ++ fired)%list
    /\ Forall2 (fun r r' => r' = r
                            \/ (r ∈ fired /\ exists t, r' = <["lastRunAt" := VNum t]> r))
         (w_routines w) (w_routines w')
    /\ length (w_routines w') = length (w_routines w)
    /\ (fired = [] -> w_routines w' = w_routines w)
    /\ (forall r, r ∈ fired ->
          truthy (oget r "enabled") = true /\ truthy (oget r "trigger") = true)
    /\ w_entries w' = w_entries w /\ w_log w' = w_log w
    /\ w_requests w' = w_requests w.
Proof.
  destruct (evaluate_pass_changes (w_clock w (w_ticks w)) (w_routines w)
              (set_ticks (S (w_ticks w)) w))
    as (out & fired & w1 & E & Hl & Hout & Hen
        & He & Hlog & Hrq & _ & _ & Hrs).
  exists fired. cbn [w_routines set_ticks] in Hrs.
  unfold evaluateRoutines, try_catch, bind, gets, new_Date. rewrite E.
  assert (Forall2 (fun r r' => r' = r
                               \/ (r ∈ fired
                                   /\ exists t, r' = <["lastRunAt" := VNum t]> r))
            (w_routines w) (w_routines w1)) as Hsame.
  { rewrite Hrs. apply Forall2_same_length_lookup_2; [done |].
    intros i x y Hx Hy. left. congruence. }
  destruct out as [e | results].
  { exists w1. split; [reflexivity |]. split; [exact Hl |].
    split; [exact Hsame |]. split; [by rewrite Hrs |]. split; [done |].
    split; [exact Hen |]. split; [exact He |]. split; [exact Hlog | exact Hrq]. }
  destruct Hout as (HF & Hnone & Hnil).
  destruct (existsb snd results) eqn:Hany.
  - exists (set_routines (fst <$> results) w1).
    split; [reflexivity |]. split; [exact Hl |]. split; [exact HF |].
    split; [symmetry; cbn; by eapply Forall2_length |].
    split; [intros Hf; discriminate (Hnil Hf) |].
    split; [exact Hen |]. split; [exact He |]. split; [exact Hlog | exact Hrq].
  - destruct (Hnone eq_refl) as [-> Hsame']. exists w1.
    split; [reflexivity |]. split; [exact Hl |].
    split; [exact Hsame |].
    split; [by rewrite Hrs |]. split; [done |].
    split; [exact Hen |]. split; [exact He |]. split; [exact Hlog | exact Hrq].
Qed.

(** X14.  An evaluation returns without throwing.  It keeps the number
    and the order of the stored routines and changes no key of any of them
    but [lastRunAt], and that only for the routines it starts; these are
    enabled and have a trigger; when it starts none, the store is left as
    it was.  It does not touch the credentials, the log or the requests:
    the runs it starts proceed on their own. *)
Theorem evaluation_only_stamps_the_routines_it_starts (w : world) :
  exists fired w',
    evaluateRoutines w = (Ok tt, w')
    /\ w_launched w' = (w_launched w ++ fired)%list
    /\ Forall2 (fun r r' => r' = r
                            \/ (r ∈ fired /\ exists t, r' = <["lastRunAt" := VNum t]> r))
         (w_routines w) (w_routines w')
    /\ length (w_routines w') = length (w_routines w)
    /\ (fired = [] -> w_routines w' = w_routines w)
    /\ (forall r, r ∈ fired ->
          truthy (oget r "enabled") = true /\ truthy (oget r "trigger") = true)
    /\ w_entries w' = w_entries w /\ w_log w' = w_log w
    /\ w_requests w' = w_requests w.
Proof. exact (evaluation_changes w). Qed.

(** The time branch of the evaluation, for an enabled routine whose time
    is that of the clock. *)
Lemma evaluate_time (now : instant) (r : obj) (w : world) :
  truthy (oget r "enabled") = true ->
  is_str (get (oget r "trigger") "type") "time" = true ->
  evaluate_routine now r w
  = if is_str (get (oget r "trigger") "time") (str_take 5 (i_timeString now))
    then
      match normalizeDays (get (oget r "trigger") "days") with
      | Raise e => (Raise e, w)
      | Ok days =>
          if negb ((0 <? length days)%nat
                   && negb (existsb (fun d => same_number d (i_day now)) days))
             && negb match tracker_get (w_tracker w) (oget r "id") with
                     | Some k => String.eqb k (slot_key now)
                     | None => false
                     end
          then (Ok (<["lastRunAt" := VNum (i_now (w_clock w (w_ticks w)))]> r, true),
                set_ticks (S (w_ticks w))
                  (set_launched (w_launched w ++ [r])
                     (set_tracker ((oget r "id", slot_key now) :: w_tracker w) w)))
          else (Ok (r, false), w)
      end
    else (Ok (r, false), w).
Proof.
  intros He Ht. unfold evaluate_routine. rewrite He, Ht.
  assert (truthy (oget r "trigger") = true) as ->
    by (by destruct (oget r "trigger")).
  cbn [negb orb].
  destruct (is_str (get (oget r "trigger") "time") _); [| reflexivity].
  unfold bind at 1. unfold lift at 1.
  destruct (normalizeDays _) as [e | days]; [reflexivity |].
  change (existsb (fun d => same_value_zero (VNum d) (VNum (i_day now))))
    with (existsb (fun d => same_number d (i_day now))).
  destruct (_ && negb _); [reflexivity |].
  cbn [negb andb].
  unfold bind, gets, tracker_set, launch, modify, Date_now, new_Date, bind, ret.
  cbn. by destruct (match tracker_get _ _ with Some _ => _ | None => _ end).
Qed.

(** X15.  An enabled routine with a time trigger whose weekdays convert
    fires exactly when the trigger's time is the [HH:MM] of the clock, its
    weekdays are empty or contain the day of the clock, and the run
    tracker does not hold the slot key of the clock for its id.  When it
    fires, the tracker records the slot key for the id and [lastRunAt] is
    stamped with the next reading of the clock.  When the weekdays do not
    convert, the routine does not fire: its evaluation throws as soon as
    the time is that of the clock. *)
Theorem time_trigger_fires_exactly_when_due (now : instant) (r : obj) (w : world) :
  truthy (oget r "enabled") = true ->
  is_str (get (oget r "trigger") "type") "time" = true ->
  match normalizeDays (get (oget r "trigger") "days") with
  | Ok days =>
      (fires now r w
       <-> is_str (get (oget r "trigger") "time") (str_take 5 (i_timeString now))
           = true
           /\ (days = [] \/ existsb (fun d => same_number d (i_day now)) days = true)
           /\ tracker_get (w_tracker w) (oget r "id") <> Some (slot_key now))
      /\ (forall u w',
            evaluate_routine now r w = (Ok (u, true), w') ->
            w_tracker w' = (oget r "id", slot_key now) :: w_tracker w
            /\ u = <["lastRunAt" := VNum (i_now (w_clock w (w_ticks w)))]> r)
  | Raise e =>
      ~ fires now r w
      /\ (is_str (get (oget r "trigger") "time") (str_take 5 (i_timeString now))
          = true ->
          evaluate_routine now r w = (Raise e, w))
  end.
Proof.
  intros He Ht. unfold fires. rewrite (evaluate_time now r w He Ht).
  destruct (normalizeDays (get (oget r "trigger") "days")) as [e | days].
  { destruct (is_str (get (oget r "trigger") "time") _).
    - split; [by intros (u & w' & [=] & _) | done].
    - split; [by intros (u & w' & [=] & _) | discriminate]. }
  set (held := match tracker_get (w_tracker w) (oget r "id") with
               | Some k => String.eqb k (slot_key now)
               | None => false
               end).
  assert (held = false <-> tracker_get (w_tracker w) (oget r "id") <> Some (slot_key now))
    as Hheld.
  { subst held. destruct (tracker_get _ _) as [k | ]; [| by split].
    rewrite String.eqb_neq. split; congruence. }
  assert ((0 <? length days)%nat
          && negb (existsb (fun d => same_number d (i_day now)) days) = false
          <-> days = [] \/ existsb (fun d => same_number d (i_day now)) days = true)
    as Hdays.
  { destruct days as [ | d l]; [by split; [left |] |].
    cbn [length Nat.ltb Nat.leb andb]. rewrite negb_false_iff.
    split; [by right | by intros [? | ?]]. }
  destruct (is_str (get (oget r "trigger") "time") _).
  2:{ split; [| discriminate].
      split; [by intros (u & w' & [=] & _) | by intros [? _]]. }
  destruct (_ && negb _) eqn:Hd; cbn [negb andb].
  { split; [| discriminate].
    split; [by intros (u & w' & [=] & _) |].
    intros (_ & Hok & _). apply Hdays in Hok. congruence. }
  destruct held eqn:Hh; cbn [negb].
  { split; [| discriminate].
    split; [by intros (u & w' & [=] & _) |].
    intros (_ & _ & Hne). apply Hheld in Hne. congruence. }
  split.
  - split.
    + intros _. split; [done |]. split; [by apply Hdays | by apply Hheld].
    + intros _. by eexists _, _.
  - intros u w' [= <- <-]. by split.
Qed.

Lemma evaluate_pass_records (now : instant) (routines : list obj) :
  forall w, exists out fired w',
    mapM (evaluate_routine now) routines w = (out, w')
    /\ w_launched w' = (w_launched w ++ fired)%list
    /\ w_clock w' = w_clock w
    /\ (forall r, r ∈ fired ->
          is_str (get (oget r "trigger") "type") "time" = true ->
          primitive (oget r "id") = true ->
          tracker_get (w_tracker w') (oget r "id") = Some (slot_key now)).
Proof.
  induction routines as [ | r0 routines IH]; intros w.
  - exists (Ok []), [], w. cbn. rewrite app_nil_r. repeat split; try done.
    intros r Hin. by apply elem_of_nil in Hin.
  - destruct (evaluate_routine_step now r0 w) as (o & w1 & E & Hl & _ & Hc).
    destruct (evaluate_routine_changes now r0 w)
      as (o' & w1' & E' & _ & _ & _ & _ & _ & _ & Hck & _).
    rewrite E in E'. injection E' as <- <-.
    destruct o as [e | [u c]]; cbn [started] in Hl, Hc.
    { exists (Raise e), [], w1. cbn [mapM]. unfold bind at 1. rewrite E.
      split; [reflexivity |]. split; [exact Hl |]. split; [exact Hck |].
      intros r Hin. by apply elem_of_nil in Hin. }
    destruct (evaluate_pass now routines w1)
      as (out & fired & w' & E2 & Hl2 & _ & Hk2 & _).
    destruct (IH w1) as (out' & fired' & w'' & E3 & Hl3 & Hck3 & Hrec).
    rewrite E2 in E3. injection E3 as <- <-.
    assert (fired' = fired) as -> by (rewrite Hl3 in Hl2; by apply app_inv_head in Hl2).
    exists (match out with
            | Ok results => Ok ((u, c) :: results)
            | Raise e => Raise e
            end), ((if c then [r0] else []) ++ fired)%list, w'.
    split; [| split; [| split]].
    + cbn [mapM]. unfold bind at 1. rewrite E. unfold bind at 1. rewrite E2.
      by destruct out.
    + by rewrite Hl2, Hl, app_assoc.
    + congruence.
    + intros r [Hin | Hin]%elem_of_app Ht Hp; [| by apply Hrec].
      destruct c; [| by apply elem_of_nil in Hin].
      apply list_elem_of_singleton in Hin as ->.
      destruct (Hc eq_refl Ht) as [_ Hset]. by apply Hk2, Hset.
Qed.

Lemma evaluateRoutines_is_a_pass (w : world) :
  exists out wp,
    mapM (evaluate_routine (w_clock w (w_ticks w))) (w_routines w)
      (set_ticks (S (w_ticks w)) w) = (out, wp)
    /\ evaluateRoutines w
       = (Ok tt, match out with
                 | Ok results =>
                     if existsb snd results
                     then set_routines (fst <$> results) wp else wp
                 | Raise _ => wp
                 end).
Proof.
  destruct (evaluate_pass (w_clock w (w_ticks w)) (w_routines w)
              (set_ticks (S (w_ticks w)) w)) as (out & fired & wp & E & _).
  exists out, wp. split; [exact E |].
  unfold evaluateRoutines, try_catch, bind, gets, new_Date. rewrite E.
  destruct out as [e | results]; [reflexivity |].
  by destruct (existsb snd results).
Qed.

(** X16.  Two evaluations in a row whose clock readings fall in the same
    slot (same day, same [HH:MM]): a time-triggered routine with a string
    or other primitive id that the first evaluation started is not
    started again by the second, under whatever form the store then holds
    it. *)
Theorem consecutive_evaluations_fire_a_time_trigger_once (w : world) :
  let w1 := snd (evaluateRoutines w) in
  slot_key (w_clock w1 (w_ticks w1)) = slot_key (w_clock w (w_ticks w)) ->
  exists fired1 fired2 w2,
    w_launched w1 = (w_launched w ++ fired1)%list
    /\ evaluateRoutines w1 = (Ok tt, w2)
    /\ w_launched w2 = (w_launched w1 ++ fired2)%list
    /\ forall r1 r2,
         r1 ∈ fired1 ->
         is_str (get (oget r1 "trigger") "type") "time" = true ->
         primitive (oget r1 "id") = true ->
         is_str (get (oget r2 "trigger") "type") "time" = true ->
         oget r2 "id" = oget r1 "id" ->
         r2 ∉ fired2.
Proof.
  cbv zeta.
  destruct (evaluateRoutines_is_a_pass w) as (out & wp & E & ->).
  destruct (evaluate_pass_records (w_clock w (w_ticks w)) (w_routines w)
              (set_ticks (S (w_ticks w)) w))
    as (out' & fired1 & wp' & E' & Hl1 & _ & Hrec).
  rewrite E in E'. injection E' as <- <-.
  cbn [snd].
  set (w1 := match out with
             | Ok results => if existsb snd results then _ else wp
             | Raise _ => wp
             end).
  assert (w_tracker w1 = w_tracker wp /\ w_launched w1 = w_launched wp) as [Htr Hla].
  { subst w1. destruct out as [e | results]; [done |].
    by destruct (existsb snd results). }
  intros Hslot.
  destruct (evaluateRoutines_is_a_pass w1) as (out2 & wp2 & E2 & ->).
  destruct (evaluate_pass (w_clock w1 (w_ticks w1)) (w_routines w1)
              (set_ticks (S (w_ticks w1)) w1))
    as (out2' & fired2 & wp2' & E2' & Hl2 & _ & _ & Hno).
  rewrite E2 in E2'. injection E2' as <- <-.
  exists fired1, fired2. eexists. split; [by rewrite Hla |].
  split; [reflexivity |]. split.
  - destruct out2 as [e | results2]; [exact Hl2 |].
    destruct (existsb snd results2); exact Hl2.
  - intros r1 r2 Hin Ht1 Hp Ht2 Hid. apply Hno; [exact Ht2 |].
    cbn [w_tracker set_ticks]. rewrite Hid, Htr, Hslot. by apply Hrec.
Qed.
End PassFacts.

(** ** The polling interval *)

Section SettingsFacts.
Context {rt : Runtime}.

Lemma sanitizeInterval_range (v : value) (n : number) :
  sanitizeInterval v = Ok n ->
  exists q, n = Fin q /\ (5000 <= q)%Q /\ (q <= 300000)%Q.
Proof.
  assert (forall q, exists r,
             Math_max (num_of_Z 5000) (Math_min (num_of_Z 300000) (Fin q)) = Fin r
             /\ (5000 <= r)%Q /\ (r <= 300000)%Q) as Hfin.
  { intros q. unfold Math_max, Math_min, num_of_Z, num_le.
    destruct (Qle_bool (inject_Z 300000) q) eqn:E1.
    - exists (inject_Z 300000). split; [reflexivity |]. unfold inject_Z. split; lra.
    - apply Qle_bool_false in E1.
      destruct (Qle_bool (inject_Z 5000) q) eqn:E2.
      + apply Qle_bool_iff in E2. exists q. unfold inject_Z in *. repeat split; lra.
      + exists (inject_Z 5000). split; [reflexivity |]. unfold inject_Z. split; lra. }
  unfold sanitizeInterval. intros (m & _ & [= <-])%exc_bind_Ok.
  destruct m as [ | | | q]; cbn [num_truthy].
  - exact (Hfin (inject_Z 30000)).
  - exists (inject_Z 300000). split; [reflexivity |]. unfold inject_Z. split; lra.
  - exists (inject_Z 5000). split; [reflexivity |]. unfold inject_Z. split; lra.
  - destruct (Qeq_bool q 0); cbn [negb]; [exact (Hfin (inject_Z 30000)) | exact (Hfin q)].
Qed.

(** X17.  The settings endpoint computes an interval for every submitted
    value that converts to a number, and throws a [TypeError] for the
    others; the interval always lies between 5000 and 300000 ms, and
    [applyRoutineInterval] installs it as it is.  [applyRoutineInterval]
    on its own installs the default of 30000 ms for whatever is not a
    finite number ([NaN], the infinities, and every value that is not a
    number) and for a finite number below 5000, and installs every other
    number unchanged, however large: the upper bound is the endpoint's
    only. *)
Theorem polling_interval_bounds (v : value) :
  ((exists n, sanitizeInterval v = Ok n) <-> convertible v = true)
  /\ ((exists e, sanitizeInterval v = Raise e) <-> convertible v = false)
  /\ (forall n, sanitizeInterval v = Ok n ->
        (exists q, n = Fin q /\ (5000 <= q)%Q /\ (q <= 300000)%Q)
        /\ applyRoutineInterval (VNum n) = VNum n)
  /\ (Number_isFinite v = false ->
        applyRoutineInterval v = VNum (num_of_Z 30000))
  /\ (forall q, (5000 <= q)%Q -> applyRoutineInterval (VNum (Fin q)) = VNum (Fin q))
  /\ (forall q, (q < 5000)%Q ->
        applyRoutineInterval (VNum (Fin q)) = VNum (num_of_Z 30000)).
Proof.
  assert (forall q, (5000 <= q)%Q -> applyRoutineInterval (VNum (Fin q)) = VNum (Fin q))
    as Hkeep.
  { intros q Hq. unfold applyRoutineInterval, num_lt, num_of_Z. cbn [Number_isFinite negb orb].
    assert (Qle_bool (inject_Z 5000) q = true) as ->; [| reflexivity].
    apply Qle_bool_iff. unfold inject_Z. lra. }
  assert (forall q, (q < 5000)%Q ->
             applyRoutineInterval (VNum (Fin q)) = VNum (num_of_Z 30000)) as Hlow.
  { intros q Hq. unfold applyRoutineInterval, num_lt, num_of_Z. cbn [Number_isFinite negb orb].
    destruct (Qle_bool (inject_Z 5000) q) eqn:E; [| reflexivity].
    apply Qle_bool_iff in E. unfold inject_Z in E. lra. }
  split; [| split; [| split; [| split; [| split; [exact Hkeep | exact Hlow]]]]].
  - rewrite <- ToNumber_convertible. unfold sanitizeInterval. split.
    + intros (n & (m & Hm & _)%exc_bind_Ok). by exists m.
    + intros [m ->]. by eexists.
  - rewrite <- ToNumber_Raise. unfold sanitizeInterval. split.
    + intros (e & [H | (m & _ & [=])]%exc_bind_Raise). by exists e.
    + intros [e ->]. by exists e.
  - intros n Hn. destruct (sanitizeInterval_range v n Hn) as (q & -> & Hlo & Hhi).
    split; [by exists q | by apply Hkeep].
  - intros Hf. unfold applyRoutineInterval. by rewrite Hf.
Qed.
End SettingsFacts.

(** ** The operations behind the routine endpoints *)

Lemma routine_index_None (routines : list obj) (id : string) (i : nat) :
  routine_index routines id i = None
  <-> forall r, r ∈ routines -> strict_eq (oget r "id") (VStr id) = false.
Proof.
  revert i. induction routines as [ | r l IH]; intros i; cbn [routine_index].
  - split; [| done]. intros _ r Hin. by apply elem_of_nil in Hin.
  - destruct (strict_eq (oget r "id") (VStr id)) eqn:E.
    + split; [discriminate |]. intros H. rewrite (H r) in E by left. discriminate.
    + rewrite IH. split.
      * intros H r' [-> | Hin]%elem_of_cons; [done | by apply H].
      * intros H r' Hin. apply H. by right.
Qed.

Lemma routine_index_Some (routines : list obj) (id : string) (i j : nat) :
  routine_index routines id i = Some j ->
  exists k r, j = (i + k)%nat /\ routines !! k = Some r
              /\ strict_eq (oget r "id") (VStr id) = true
              /\ forall k' r', (k' < k)%nat -> routines !! k' = Some r' ->
                               strict_eq (oget r' "id") (VStr id) = false.
Proof.
  revert i. induction routines as [ | r l IH]; intros i; cbn [routine_index];
    [discriminate |].
  destruct (strict_eq (oget r "id") (VStr id)) eqn:E.
  - intros [= <-]. exists 0%nat, r. split; [lia |]. split; [done |].
    split; [done |]. intros k' r' Hk. lia.
  - intros (k & r0 & -> & Hk & Hm & Hfirst)%IH.
    exists (S k), r0. split; [lia |]. split; [done |]. split; [done |].
    intros [ | k'] r' Hlt Hr'; [by injection Hr' as <- |].
    apply (Hfirst k' r'); [lia | done].
Qed.

Lemma filter_keeps_all {A} (p : A -> bool) (l : list A) :
  length (List.filter p l) = length l <-> forall x, x ∈ l -> p x = true.
Proof.
  induction l as [ | a l IH]; cbn [List.filter length].
  - split; [| done]. intros _ x Hin. by apply elem_of_nil in Hin.
  - pose proof (List.filter_length_le p l) as Hle.
    destruct (p a) eqn:E; cbn [length].
    + split.
      * intros [= Hlen]. intros x [-> | Hin]%elem_of_cons; [done |].
        by apply IH.
      * intros H. f_equal. apply IH. intros x Hin. apply H. by right.
    + split; [lia |]. intros H. rewrite (H a) in E by left. discriminate.
Qed.

Lemma stored_routine_stamp (r : obj) (v : value) :
  stored_routine r -> stored_routine (<["lastRunAt" := v]> r).
Proof.
  unfold stored_routine, oget. by rewrite !lookup_insert_ne by done.
Qed.

Section EndpointFacts.
Context {rt : Runtime} {cr : Crypto} {net : Remote}.

Lemma build_keeps_id (payload : value) (prior : obj) (now : number) (draw : nat)
    (r : obj) :
  buildRoutineFromPayload payload (Some prior) now draw = Ok (BuildRoutine r) ->
  r !! "id" = prior !! "id".
Proof.
  intros E. apply build_steps in E as (named & triggered & acted & E1 & E3 & E4 & ->).
  rewrite lookup_insert_ne by done.
  rewrite (build_actions_keeps _ _ _ _ _ "id" E4) by done.
  rewrite (build_trigger_keeps _ _ _ _ "id" E3) by done.
  rewrite build_enabled_keeps by done.
  apply build_name_frame in E1 as [N1 _]. by apply N1.
Qed.

(** Creating a routine either answers 400 and leaves the store as
    it was, or answers 200 and appends to the store one routine, the one
    it returns, which carries a fresh id and has a valid trigger and
    between 1 and 20 valid actions; when validation throws, the store is
    left as it was too. *)
Lemma post_outcome (payload : value) (draw : nat)
    (w : world) :
  match routines_post payload draw w with
  | (Ok rep, w') =>
      (status rep = 400 /\ w_routines w' = w_routines w)
      \/ (status rep = 200
          /\ exists routine,
               w_routines w' = (w_routines w ++ [routine])%list
               /\ body rep !! "routine" = Some (VObj routine)
               /\ routine !! "id" = Some (VStr (randomHex 8 draw))
               /\ stored_routine routine)
  | (Raise _, w') => w_routines w' = w_routines w
  end.
Proof.
  unfold routines_post, bind, Date_now, bind, new_Date, lift, ret, gets, modify.
  destruct (buildRoutineFromPayload _ None _ draw) as [e | [msg | routine]] eqn:E;
    cbn.
  - done.
  - by left.
  - right. split; [done |]. exists routine. split; [done |]. split; [done |].
    split.
    + by destruct (build_created_fields _ _ _ _ E) as [Hid _].
    + eapply build_stored_routine; [| exact E]. discriminate.
Qed.

(** X18.  Creating a routine either answers 400 and leaves the store as
    it was, or answers 200 and appends to the store one routine, the one
    it returns, which carries a fresh id and has a valid trigger and
    between 1 and 20 valid actions; when validation throws, the store is
    left as it was too. *)
Theorem create_appends_a_valid_routine_or_nothing (payload : value) (draw : nat)
    (w : world) :
  match routines_post payload draw w with
  | (Ok rep, w') =>
      (status rep = 400 /\ w_routines w' = w_routines w)
      \/ (status rep = 200
          /\ exists routine,
               w_routines w' = (w_routines w ++ [routine])%list
               /\ body rep !! "routine" = Some (VObj routine)
               /\ routine !! "id" = Some (VStr (randomHex 8 draw))
               /\ stored_routine routine)
  | (Raise _, w') => w_routines w' = w_routines w
  end.
Proof. exact (post_outcome payload draw w). Qed.

(** Updating a routine answers 404 exactly when no stored routine
    has the id: it answers 404 when none has it, and when one has it the
    answer is 400 or 200 or validation throws, never 404.  When it answers
    404 or 400 or validation throws, it leaves the store as it was.  When
    it answers 200 it has replaced the first routine with that id, at its
    position, by the routine it returns: the store keeps its length and
    its other routines, the routine keeps its id, and it is valid if the
    one it replaces was. *)
Lemma patch_outcome (id : string) (payload : value)
    (draw : nat) (w : world) :
  match routines_patch id payload draw w with
  | (Ok rep, w') =>
      (status rep = 404
       <-> forall r, r ∈ w_routines w -> strict_eq (oget r "id") (VStr id) = false)
      /\ ((status rep = 404 /\ w_routines w' = w_routines w
           /\ forall r, r ∈ w_routines w -> strict_eq (oget r "id") (VStr id) = false)
          \/ (status rep = 400 /\ w_routines w' = w_routines w)
          \/ (status rep = 200
              /\ exists idx prior routine,
                   w_routines w !! idx = Some prior
                   /\ strict_eq (oget prior "id") (VStr id) = true
                   /\ (forall k r, (k < idx)%nat -> w_routines w !! k = Some r ->
                                   strict_eq (oget r "id") (VStr id) = false)
                   /\ w_routines w' = <[idx := routine]> (w_routines w)
                   /\ length (w_routines w') = length (w_routines w)
                   /\ body rep !! "routine" = Some (VObj routine)
                   /\ routine !! "id" = prior !! "id"
                   /\ (stored_routine prior -> stored_routine routine)))
  | (Raise _, w') =>
      w_routines w' = w_routines w
      /\ exists r, r ∈ w_routines w /\ strict_eq (oget r "id") (VStr id) = true
  end.
Proof.
  unfold routines_patch, bind, gets.
  destruct (routine_index (w_routines w) id 0) as [idx | ] eqn:Hidx.
  2:{ cbn. pose proof (proj1 (routine_index_None _ id 0) Hidx) as Hnone.
      split; [by split |]. left. by repeat split. }
  apply routine_index_Some in Hidx as (k & prior & -> & Hk & Hm & Hfirst).
  assert (prior ∈ w_routines w) as Hin by (apply list_elem_of_lookup; by exists k).
  assert (~ forall r, r ∈ w_routines w -> strict_eq (oget r "id") (VStr id) = false)
    as Hsome.
  { intros Hnone. rewrite (Hnone prior Hin) in Hm. discriminate. }
  cbn [Nat.add]. rewrite Hk.
  unfold Date_now, bind, new_Date, lift, ret, modify.
  destruct (buildRoutineFromPayload _ (Some prior) _ draw) as [e | [msg | routine]] eqn:E;
    cbn.
  - split; [done | by exists prior].
  - split; [by split |]. right. by left.
  - split; [by split |]. right. right. split; [done |]. exists k, prior, routine.
    split; [done |]. split; [done |]. split; [exact Hfirst |]. split; [done |].
    split; [apply length_insert |]. split; [done |].
    split; [exact (build_keeps_id _ _ _ _ _ E) |].
    intros Hp. eapply build_stored_routine; [| exact E]. by intros ? [= <-].
Qed.

(** X19.  Updating a routine answers 404 exactly when no stored routine
    has the id: it answers 404 when none has it, and when one has it the
    answer is 400 or 200 or validation throws, never 404.  When it answers
    404 or 400 or validation throws, it leaves the store as it was.  When
    it answers 200 it has replaced the first routine with that id, at its
    position, by the routine it returns: the store keeps its length and
    its other routines, the routine keeps its id, and it is valid if the
    one it replaces was. *)
Theorem update_replaces_one_routine_in_place (id : string) (payload : value)
    (draw : nat) (w : world) :
  match routines_patch id payload draw w with
  | (Ok rep, w') =>
      (status rep = 404
       <-> forall r, r ∈ w_routines w -> strict_eq (oget r "id") (VStr id) = false)
      /\ ((status rep = 404 /\ w_routines w' = w_routines w
           /\ forall r, r ∈ w_routines w -> strict_eq (oget r "id") (VStr id) = false)
          \/ (status rep = 400 /\ w_routines w' = w_routines w)
          \/ (status rep = 200
              /\ exists idx prior routine,
                   w_routines w !! idx = Some prior
                   /\ strict_eq (oget prior "id") (VStr id) = true
                   /\ (forall k r, (k < idx)%nat -> w_routines w !! k = Some r ->
                                   strict_eq (oget r "id") (VStr id) = false)
                   /\ w_routines w' = <[idx := routine]> (w_routines w)
                   /\ length (w_routines w') = length (w_routines w)
                   /\ body rep !! "routine" = Some (VObj routine)
                   /\ routine !! "id" = prior !! "id"
                   /\ (stored_routine prior -> stored_routine routine)))
  | (Raise _, w') =>
      w_routines w' = w_routines w
      /\ exists r, r ∈ w_routines w /\ strict_eq (oget r "id") (VStr id) = true
  end.
Proof. exact (patch_outcome id payload draw w). Qed.

(** Deleting by id answers 404 exactly when no stored routine has
    the id and then leaves everything as it was; otherwise it answers 200
    and removes every routine with that id, keeping the others in their
    order.  Either way no routine with the id is left, so deleting again
    answers 404. *)
Lemma delete_outcome (id : string) (w : world) :
  let kept :=
    List.filter (fun r => negb (strict_eq (oget r "id") (VStr id))) (w_routines w) in
  exists rep w',
    routines_delete id w = (Ok rep, w')
    /\ (status rep = 404 \/ status rep = 200)
    /\ (status rep = 404
        <-> forall r, r ∈ w_routines w -> strict_eq (oget r "id") (VStr id) = false)
    /\ (status rep = 404 -> w' = w)
    /\ w_routines w' = kept
    /\ (forall r, r ∈ w_routines w' -> strict_eq (oget r "id") (VStr id) = false)
    /\ exists rep2, routines_delete id w' = (Ok rep2, w') /\ status rep2 = 404.
Proof.
  intros kept.
  assert (forall r, r ∈ kept -> strict_eq (oget r "id") (VStr id) = false) as Hkept.
  { intros r Hin%list_elem_of_In. apply filter_In in Hin as [_ Hr].
    by apply negb_true_iff in Hr. }
  assert (forall l : list obj,
             (forall r, r ∈ l -> strict_eq (oget r "id") (VStr id) = false) ->
             List.filter (fun r => negb (strict_eq (oget r "id") (VStr id))) l = l
             /\ (length l =? length (List.filter
                                      (fun r => negb (strict_eq (oget r "id") (VStr id))) l))%nat
                = true) as Hall.
  { intros l Hl.
    assert (List.filter (fun r => negb (strict_eq (oget r "id") (VStr id))) l = l) as E.
    { induction l as [ | a l IH]; [done |]. cbn. rewrite (Hl a) by left. cbn.
      f_equal. apply IH. intros r Hin. apply Hl. by right. }
    split; [exact E |]. rewrite E. apply Nat.eqb_refl. }
  assert (forall w0, w_routines w0 = kept ->
             routines_delete id w0
             = (Ok {| status := 404;
                      body := {["error" := VStr "Routine nicht gefunden"]} |}, w0))
    as Hagain.
  { intros w0 Hw0. unfold routines_delete, bind, gets, ret. rewrite Hw0.
    by destruct (Hall kept Hkept) as [-> ->]. }
  unfold routines_delete, bind, gets, ret, modify. fold kept.
  destruct (length (w_routines w) =? length kept)%nat eqn:Hlen.
  - apply Nat.eqb_eq in Hlen. symmetry in Hlen.
    assert (forall r, r ∈ w_routines w -> strict_eq (oget r "id") (VStr id) = false)
      as Hnone.
    { intros r Hin. apply filter_keeps_all with (x := r) in Hlen; [| done].
      by apply negb_true_iff in Hlen. }
    assert (kept = w_routines w) as Hsame by (by destruct (Hall _ Hnone)).
    eexists _, w. split; [reflexivity |]. cbn [status].
    split; [by left |]. split; [by split |]. split; [done |].
    split; [done |]. split; [done |].
    eexists. split; [by apply Hagain | done].
  - eexists _, (set_routines kept w). split; [reflexivity |]. cbn [status].
    split; [by right |]. split.
    + split; [discriminate |]. intros Hnone.
      destruct (Hall _ Hnone) as [_ Heq]. fold kept in Heq. congruence.
    + split; [discriminate |]. split; [done |]. split; [exact Hkept |].
      eexists. split; [by apply Hagain | done].
Qed.

(** X20.  Deleting by id answers 404 exactly when no stored routine has
    the id and then leaves everything as it was; otherwise it answers 200
    and removes every routine with that id, keeping the others in their
    order.  Either way no routine with the id is left, so deleting again
    answers 404. *)
Theorem delete_removes_every_routine_with_the_id (id : string) (w : world) :
  let kept :=
    List.filter (fun r => negb (strict_eq (oget r "id") (VStr id))) (w_routines w) in
  exists rep w',
    routines_delete id w = (Ok rep, w')
    /\ (status rep = 404 \/ status rep = 200)
    /\ (status rep = 404
        <-> forall r, r ∈ w_routines w -> strict_eq (oget r "id") (VStr id) = false)
    /\ (status rep = 404 -> w' = w)
    /\ w_routines w' = kept
    /\ (forall r, r ∈ w_routines w' -> strict_eq (oget r "id") (VStr id) = false)
    /\ exists rep2, routines_delete id w' = (Ok rep2, w') /\ status rep2 = 404.
Proof. exact (delete_outcome id w). Qed.

Lemma stored_routine_actions (r : obj) :
  stored_routine r ->
  exists actions, oget r "actions" = VArr actions
                  /\ forallb (fun a => negb (nullish a)) actions = true.
Proof.
  intros [_ (l & Hl & _)]. exists (VObj <$> l). split; [exact Hl |].
  clear. induction l as [ | a l IH]; [done |]. cbn. exact IH.
Qed.

Lemma run_returns (routine : obj) (actions : list value) (w : world) :
  oget routine "actions" = VArr actions ->
  forallb (fun a => negb (nullish a)) actions = true ->
  exists results w1 added,
    runRoutineActions routine w = (Ok results, w1)
    /\ length results = length actions
    /\ logged w w1 added.
Proof.
  intros Hact Hl.
  destruct (run_all_returns routine actions Hl w) as (results & w1 & E & HF).
  destruct (run_all_logged routine actions Hl _ _ _ E) as (added & Hlog & _).
  exists results, w1, added. split; [| split; [| exact Hlog]].
  - unfold runRoutineActions, bind, lift. rewrite Hact. exact E.
  - symmetry. by eapply Forall2_length.
Qed.

(** "Run now" answers 404 and does nothing when no stored routine
    has the id.  Otherwise it runs the actions of the first routine with
    that id, whether the routine is enabled or not and whatever its
    trigger and the run tracker say; for a routine whose [actions] is a
    list of objects it answers 200 with one result per action, stamps
    [lastRunAt] of that routine and of no other, and leaves the run
    tracker alone. *)
Lemma run_outcome (id : string) (w : world) :
  (routine_index (w_routines w) id 0 = None ->
   exists rep, routines_run id w = (Ok rep, w) /\ status rep = 404)
  /\ (forall idx routine actions,
        routine_index (w_routines w) id 0 = Some idx ->
        w_routines w !! idx = Some routine ->
        oget routine "actions" = VArr actions ->
        forallb (fun a => negb (nullish a)) actions = true ->
        exists results w1 rep w',
          runRoutineActions routine w = (Ok results, w1)
          /\ routines_run id w = (Ok rep, w')
          /\ status rep = 200
          /\ length results = length actions
          /\ body rep !! "results" = Some (VArr (result_value <$> results))
          /\ w_routines w'
             = <[idx := <["lastRunAt" := VNum (i_now (w_clock w1 (w_ticks w1)))]> routine]>
                 (w_routines w)
          /\ w_tracker w' = w_tracker w
          /\ w_launched w' = w_launched w).
Proof.
  split.
  - intros Hnone. unfold routines_run, bind, gets, ret. rewrite Hnone. by eexists.
  - intros idx routine actions Hidx Hr Hact Hl.
    destruct (run_returns routine actions w Hact Hl)
      as (results & w1 & added & E & Hlen & Hlog).
    apply logged_store in Hlog as (_ & _ & _ & _ & Htr & Hla & _).
    exists results, w1.
    unfold routines_run, bind, gets. rewrite Hidx, Hr.
    change (default ∅ (Some routine)) with routine.
    unfold try_catch, bind. rewrite E.
    unfold Date_now, bind, new_Date, ret, modify. cbn.
    eexists _, _. split; [reflexivity |]. split; [reflexivity |]. cbn.
    by repeat split.
Qed.

(** X21.  "Run now" answers 404 and does nothing when no stored routine
    has the id.  Otherwise it runs the actions of the first routine with
    that id, whether the routine is enabled or not and whatever its
    trigger and the run tracker say; for a routine whose [actions] is a
    list of objects it answers 200 with one result per action, stamps
    [lastRunAt] of that routine and of no other, and leaves the run
    tracker alone. *)
Theorem run_now_ignores_the_trigger (id : string) (w : world) :
  (routine_index (w_routines w) id 0 = None ->
   exists rep, routines_run id w = (Ok rep, w) /\ status rep = 404)
  /\ (forall idx routine actions,
        routine_index (w_routines w) id 0 = Some idx ->
        w_routines w !! idx = Some routine ->
        oget routine "actions" = VArr actions ->
        forallb (fun a => negb (nullish a)) actions = true ->
        exists results w1 rep w',
          runRoutineActions routine w = (Ok results, w1)
          /\ routines_run id w = (Ok rep, w')
          /\ status rep = 200
          /\ length results = length actions
          /\ body rep !! "results" = Some (VArr (result_value <$> results))
          /\ w_routines w'
             = <[idx := <["lastRunAt" := VNum (i_now (w_clock w1 (w_ticks w1)))]> routine]>
                 (w_routines w)
          /\ w_tracker w' = w_tracker w
          /\ w_launched w' = w_launched w).
Proof. exact (run_outcome id w). Qed.

Lemma Forall_insert_stored (l : list obj) (i : nat) (r : obj) :
  Forall stored_routine l -> stored_routine r ->
  Forall stored_routine (<[i := r]> l).
Proof. intros Hl Hr. by apply Forall_insert. Qed.

(** X22.  The invariant of the routine store (every stored routine has a
    valid trigger and between 1 and 20 valid actions) is kept by every
    operation that writes the store: creation, update, deletion, "run
    now" and the periodic evaluation. *)
Theorem store_invariant_is_kept_by_every_operation (w : world) :
  Forall stored_routine (w_routines w) ->
  (forall payload draw,
      Forall stored_routine (w_routines (snd (routines_post payload draw w))))
  /\ (forall id payload draw,
        Forall stored_routine (w_routines (snd (routines_patch id payload draw w))))
  /\ (forall id, Forall stored_routine (w_routines (snd (routines_delete id w))))
  /\ (forall id, Forall stored_routine (w_routines (snd (routines_run id w))))
  /\ Forall stored_routine (w_routines (snd (evaluateRoutines w))).
Proof.
  intros Hinv. split; [| split; [| split; [| split]]].
  - intros payload draw.
    pose proof (post_outcome payload draw w) as H.
    destruct (routines_post payload draw w) as [[e | rep] w']; cbn [snd];
      [by rewrite H |].
    destruct H as [[_ ->] | [_ (routine & -> & _ & _ & Hr)]]; [done |].
    apply Forall_app. split; [done |]. by constructor.
  - intros id payload draw.
    pose proof (patch_outcome id payload draw w) as H.
    destruct (routines_patch id payload draw w) as [[e | rep] w']; cbn [snd];
      [destruct H as [-> _]; done |].
    destruct H as [_ [(_ & -> & _) | [[_ ->] | [_ H]]]]; [done | done |].
    destruct H as (idx & prior & routine & Hp & _ & _ & -> & _ & _ & _ & Hst).
    apply Forall_insert_stored; [done |]. apply Hst.
    rewrite List.Forall_forall in Hinv. apply Hinv.
    apply list_elem_of_In, list_elem_of_lookup. by exists idx.
  - intros id.
    destruct (delete_outcome id w)
      as (rep & w' & -> & _ & _ & _ & Hk & _).
    cbn [snd]. rewrite Hk.
    rewrite List.Forall_forall in *. intros r [Hin _]%filter_In. by apply Hinv.
  - intros id.
    destruct (routine_index (w_routines w) id 0) as [idx | ] eqn:Hidx.
    + destruct (routine_index_Some _ _ _ _ Hidx) as (k & routine & -> & Hk & _).
      cbn [Nat.add] in Hidx.
      assert (stored_routine routine) as Hr.
      { rewrite List.Forall_forall in Hinv. apply Hinv.
        apply list_elem_of_In, list_elem_of_lookup. by exists k. }
      destruct (stored_routine_actions routine Hr) as (actions & Hact & Hl).
      destruct (run_outcome id w) as [_ Hrun].
      destruct (Hrun k routine actions Hidx Hk Hact Hl)
        as (results & w1 & rep & w' & _ & -> & _ & _ & _ & Hw' & _).
      cbn [snd]. rewrite Hw'.
      apply Forall_insert_stored; [done |]. by apply stored_routine_stamp.
    + destruct (run_outcome id w) as [Hnone _].
      by destruct (Hnone Hidx) as (rep & -> & _).
  - destruct (evaluation_changes w) as (fired & w' & -> & _ & HF & _).
    cbn [snd]. revert HF. generalize (w_routines w') as l'.
    induction Hinv as [ | r l Hr Hl IH]; intros l' HF; inversion HF; subst;
      constructor.
    + match goal with H : _ \/ _ |- _ => destruct H as [-> | [_ [t ->]]] end;
        [done | by apply stored_routine_stamp].
    + by apply IH.
Qed.
End EndpointFacts.

(** ** The activity log *)

Lemma slice_last_take_rev {A} (n : nat) (l : list A) :
  (0 < n)%nat -> reverse (slice_last n l) = take n (reverse l).
Proof.
  intros Hn. destruct n as [ | n]; [lia |]. cbn [slice_last].
  by rewrite take_reverse.
Qed.

(** X23.  [readLogs] changes nothing and returns the newest lines first;
    with a positive limit it returns the [limit] newest lines (all of
    them when there are fewer), and with the limit 0 it returns the whole
    log.  Right after [appendLog] the first line returned is the one just
    written, with ["Unbekannt"] and ["unknown"] standing for a missing
    device and action. *)
Theorem readLogs_returns_the_newest_lines_first (limit : nat) (w : world) :
  readLogs limit w
  = (Ok (if (limit =? 0)%nat then reverse (w_log w) else take limit (reverse (w_log w))), w)
  /\ (forall entry lines w1,
        snd (appendLog entry w) = w1 ->
        readLogs limit w1 = (Ok lines, w1) ->
        exists line,
          head lines = Some line
          /\ line !! "device" = Some (js_or (oget entry "device") (VStr "Unbekannt"))
          /\ line !! "action" = Some (js_or (oget entry "action") (VStr "unknown"))
          /\ tail lines
             = (if (limit =? 0)%nat then reverse (w_log w)
                else take (limit - 1) (reverse (w_log w)))).
Proof.
  assert (forall w0, readLogs limit w0
                     = (Ok (if (limit =? 0)%nat then reverse (w_log w0)
                            else take limit (reverse (w_log w0))), w0)) as Hread.
  { intros w0. unfold readLogs, bind, gets, ret.
    destruct limit as [ | n]; [reflexivity |].
    by rewrite slice_last_take_rev by lia. }
  split; [apply Hread |].
  intros entry lines w1 <-. rewrite Hread. intros [= <-].
  unfold appendLog, bind, gets, modify, ret, Date_now, bind, new_Date, ret.
  destruct (truthy (oget entry "timestamp")); cbn [snd w_log set_log set_ticks];
    rewrite reverse_snoc;
    (eexists; split;
     [destruct limit; cbn; reflexivity |];
     split; [by rewrite lookup_insert_ne, lookup_insert_ne, lookup_insert_eq |];
     split; [by rewrite lookup_insert_ne, lookup_insert_eq |];
     destruct limit as [ | n]; cbn; [reflexivity | by rewrite Nat.sub_0_r]).
Qed.

Section LogEndpointFacts.
Context {rt : Runtime}.

Lemma appendLog_line (entry : obj) (w : world) :
  exists line w',
    appendLog entry w = (Ok tt, w')
    /\ w_log w' = (w_log w ++ [line])%list
    /\ line !! "device" = Some (js_or (oget entry "device") (VStr "Unbekannt"))
    /\ line !! "action" = Some (js_or (oget entry "action") (VStr "unknown")).
Proof.
  unfold appendLog, bind, gets, modify, ret, Date_now, bind, new_Date, ret.
  destruct (truthy (oget entry "timestamp")); cbn;
    (eexists _, _; split; [reflexivity |]; split; [reflexivity |]; split;
     [by rewrite !lookup_insert_ne, lookup_insert_eq by done
     | by rewrite lookup_insert_ne, lookup_insert_eq by done]).
Qed.

Lemma capped_or_fallback (s fallback : string) (n : nat) :
  (String.length fallback <= n)%nat ->
  exists t, js_or (VStr (str_take n s)) (VStr fallback) = VStr t
            /\ (String.length t <= n)%nat.
Proof.
  intros Hf. unfold js_or. cbn [truthy].
  destruct (negb _); eexists; (split; [reflexivity |]);
    [apply str_take_length | exact Hf].
Qed.

(** The part of [POST /api/logs] after the two conversions. *)
Lemma logs_post_line (deviceText actionText : string) (timestamp : value)
    (w : world) :
  exists stamp w1 line w' d a,
    (if Number_isFinite timestamp then ret timestamp
     else let* n := Date_now in ret (VNum n)) w = (Ok stamp, w1)
    /\ appendLog
         (<["timestamp" := stamp]>
            (<["action" := VStr (str_take 50 actionText)]>
               (<["device" := VStr (str_take 200 deviceText)]> ∅))) w1
       = (Ok tt, w')
    /\ w_log w' = (w_log w ++ [line])%list
    /\ line !! "device" = Some (VStr d)
    /\ (String.length d <= 200)%nat
    /\ line !! "action" = Some (VStr a)
    /\ (String.length a <= 50)%nat.
Proof.
  destruct (capped_or_fallback deviceText "Unbekannt" 200 ltac:(cbn; lia))
    as (d & Hd' & Hdl).
  destruct (capped_or_fallback actionText "unknown" 50 ltac:(cbn; lia))
    as (a & Ha' & Hal).
  assert (exists stamp w1,
             (if Number_isFinite timestamp then ret timestamp
              else let* n := Date_now in ret (VNum n)) w = (Ok stamp, w1)
             /\ w_log w1 = w_log w) as (stamp & w1 & Es & Hw1).
  { destruct (Number_isFinite timestamp); [by exists timestamp, w |].
    unfold Date_now, bind, new_Date, ret. by eexists _, _. }
  destruct (appendLog_line
              (<["timestamp" := stamp]>
                 (<["action" := VStr (str_take 50 actionText)]>
                    (<["device" := VStr (str_take 200 deviceText)]> ∅))) w1)
    as (line & w' & E & Hlog & Hdev & Hact).
  exists stamp, w1, line, w', d, a.
  split; [exact Es |]. split; [exact E |]. split; [by rewrite Hlog, Hw1 |].
  unfold oget in Hdev, Hact.
  rewrite !lookup_insert_ne, lookup_insert_eq in Hdev by done.
  rewrite lookup_insert_ne, lookup_insert_eq in Hact by done.
  cbv [default from_option id Datatypes.id] in Hdev, Hact.
  rewrite Hd' in Hdev. rewrite Ha' in Hact.
  by repeat split.
Qed.

(** X24.  [POST /api/logs] answers 400 and writes nothing when the device
    or the action is missing; otherwise, when both convert to a string, it
    answers 200 and adds exactly one line to the log, whose device has at
    most 200 characters and whose action has at most 50.  When one of the
    two is present but does not convert to a string (an object with a
    [toString] member), the handler throws and writes nothing.  So it
    answers whenever both convert. *)
Theorem manual_log_line_is_required_and_capped (payload : value) (w : world) :
  let device := get (js_or payload (VObj ∅)) "device" in
  let action := get (js_or payload (VObj ∅)) "action" in
  match logs_post payload w with
  | (Ok rep, w') =>
      (status rep = 400 /\ w' = w
       /\ (truthy device = false \/ truthy action = false))
      \/ (status rep = 200
          /\ truthy device = true /\ truthy action = true
          /\ convertible device = true /\ convertible action = true
          /\ exists line d a,
               w_log w' = (w_log w ++ [line])%list
               /\ line !! "device" = Some (VStr d)
               /\ (String.length d <= 200)%nat
               /\ line !! "action" = Some (VStr a)
               /\ (String.length a <= 50)%nat)
  | (Raise e, w') =>
      w' = w /\ truthy device = true /\ truthy action = true
      /\ (ToString device = Raise e
          \/ (convertible device = true /\ ToString action = Raise e))
  end
  /\ (convertible device = true -> convertible action = true ->
      exists rep w', logs_post payload w = (Ok rep, w')).
Proof.
  cbv zeta. unfold logs_post.
  set (p := js_or payload (VObj ∅)).
  destruct (truthy (get p "device")) eqn:Hd; cbn [negb orb].
  2:{ split; [| intros _ _; eexists _, _; reflexivity]. left. cbn.
      split; [reflexivity |]. split; [reflexivity |]. by left. }
  destruct (truthy (get p "action")) eqn:Ha; cbn [negb orb].
  2:{ split; [| intros _ _; eexists _, _; reflexivity]. left. cbn.
      split; [reflexivity |]. split; [reflexivity |]. by right. }
  unfold bind, lift.
  destruct (ToString (get p "device")) as [e | deviceText] eqn:Ed; cbv beta iota.
  { split; [do 3 (split; [reflexivity |]); by left |].
    intros [s Hs]%ToString_convertible. congruence. }
  assert (convertible (get p "device") = true) as Hcd
    by (apply ToString_convertible; by eexists).
  destruct (ToString (get p "action")) as [e | actionText] eqn:Ea; cbv beta iota.
  { split; [do 3 (split; [reflexivity |]); by right |].
    intros _ [s Hs]%ToString_convertible. congruence. }
  assert (convertible (get p "action") = true) as Hca
    by (apply ToString_convertible; by eexists).
  destruct (logs_post_line deviceText actionText (get p "timestamp") w)
    as (stamp & w1 & line & w' & d & a & Es & E & Hrest).
  unfold bind in Es. rewrite Es, E. unfold ret. cbv beta iota.
  split; [| intros _ _; eexists _, _; reflexivity].
  right. cbn [status]. do 3 (split; [reflexivity |]).
  split; [exact Hcd |]. split; [exact Hca |]. by exists line, d, a.
Qed.
End LogEndpointFacts.

(** ** Device mapping *)

(** X25.  [mapSmartThingsDevice] names every device it maps (falling back
    from the label to the name to ["Unbenannt"]) and gives it a room and a
    brand.  Its type is ["Licht"] exactly when the device has one of the
    capabilities [switchLevel], [colorControl] and [colorTemperature],
    even when it also measures power; otherwise ["Steckdose"] exactly when
    it has one of [powerMeter], [energyMeter] and [switch]; otherwise
    ["Gerät"]. *)
Theorem device_type_prefers_light_over_socket (device liveStatus : value) (o : obj) :
  mapSmartThingsDevice device liveStatus = Ok o ->
  exists caps,
    device_capabilities device = Ok caps
    /\ truthy (oget o "name") = true
    /\ truthy (oget o "room") = true
    /\ truthy (oget o "brand") = true
    /\ let light := includes caps "switchLevel" || includes caps "colorControl"
                    || includes caps "colorTemperature" in
       let socket := includes caps "powerMeter" || includes caps "energyMeter"
                     || includes caps "switch" in
       oget o "type"
       = VStr (if light then "Licht" else if socket then "Steckdose" else "Gerät").
Proof.
  unfold mapSmartThingsDevice.
  destruct (device_capabilities device) as [e | caps]; [discriminate |].
  cbn [exc_bind].
  destruct (get_strict liveStatus "online") as [e | online]; [discriminate |].
  cbn [exc_bind]. intros [= <-]. exists caps. split; [reflexivity |].
  assert (forall v s, s <> "" -> truthy (js_or v (VStr s)) = true) as Hor.
  { intros v s Hs. unfold js_or. destruct (truthy v) eqn:E; [exact E |].
    cbn. apply negb_true_iff. by apply String.eqb_neq. }
  unfold oget.
  repeat split.
  - rewrite !lookup_insert_ne, lookup_insert_eq by done. by apply Hor.
  - rewrite !lookup_insert_ne, lookup_insert_eq by done. by apply Hor.
  - rewrite lookup_insert_eq. by apply Hor.
  - cbv zeta. rewrite !lookup_insert_ne, lookup_insert_eq by done. cbn [default].
    unfold inferredType.
    destruct (includes caps "switchLevel"), (includes caps "colorControl"),
      (includes caps "colorTemperature"), (includes caps "powerMeter"),
      (includes caps "energyMeter"), (includes caps "switch"); reflexivity.
Qed.

(** ** Sessions *)

Lemma append_cons (a : ascii) (s t : string) : (String a s ++ t = String a (s ++ t))%string.
Proof. reflexivity. Qed.

Lemma split_on_concat (c : ascii) (s : string) :
  String.concat (String c "") ((split_on c s).1 :: (split_on c s).2) = s.
Proof.
  induction s as [| a rest IH]; [reflexivity |].
  cbn [split_on]. destruct (split_on c rest) as [p ps]. cbn [fst snd] in IH.
  destruct (Ascii.eqb a c) eqn:E; cbn [fst snd].
  - apply Ascii.eqb_eq in E as ->.
    change (String.concat (String c "") ("" :: p :: ps))
      with (String c (String.concat (String c "") (p :: ps))).
    by rewrite IH.
  - destruct ps as [| q qs].
    + cbn in IH |- *. by rewrite IH.
    + change (String.concat (String c "") (String a p :: q :: qs))
        with (String a (String.concat (String c "") (p :: q :: qs))).
      by rewrite IH.
Qed.

Lemma split_on_free (c : ascii) (s : string) :
  Forall (fun x => occurs c x = false) ((split_on c s).1 :: (split_on c s).2).
Proof.
  induction s as [| a rest IH]; [by repeat constructor |].
  cbn [split_on]. destruct (split_on c rest) as [p ps]. cbn [fst snd] in IH.
  destruct (Ascii.eqb a c) eqn:E; cbn [fst snd].
  - by constructor.
  - inversion IH as [| ? ? Hp Hps]; subst. constructor; [| exact Hps].
    cbn. by rewrite E, Hp.
Qed.

Lemma split_on_absent (c : ascii) (s : string) :
  occurs c s = false -> split_on c s = (s, []).
Proof.
  induction s as [| a rest IH]; [reflexivity |].
  cbn. intros [Ha Hr]%orb_false_elim. by rewrite (IH Hr), Ha.
Qed.

Lemma split_on_present (c : ascii) (s : string) :
  occurs c s = true -> (split_on c s).2 <> [].
Proof.
  induction s as [| a rest IH]; [discriminate |].
  cbn. destruct (split_on c rest) as [p ps]. cbn [snd] in IH.
  destruct (Ascii.eqb a c); cbn [orb snd]; [discriminate | exact IH].
Qed.

Lemma concat_cons_nonempty (sep x : string) (l : list string) :
  l <> [] -> String.concat sep (x :: l) = (x ++ sep ++ String.concat sep l)%string.
Proof. by destruct l. Qed.

Lemma fromEntries_from (acc : obj) (l : list (string * value)) (k : string) :
  foldl (fun o kv => <[kv.1 := kv.2]> o) acc l !! k
  = match last_entry k l with Some x => Some x | None => acc !! k end.
Proof.
  revert acc. induction l as [| [k' v] rest IH]; intros acc; [reflexivity |].
  cbn [foldl last_entry]. rewrite IH. cbn [fst snd].
  destruct (last_entry k rest); [reflexivity |].
  destruct (String.eqb k' k) eqn:E.
  - apply String.eqb_eq in E as ->. by rewrite lookup_insert_eq.
  - apply String.eqb_neq in E. by rewrite lookup_insert_ne.
Qed.

Lemma fromEntries_lookup (l : list (string * value)) (k : string) :
  Object_fromEntries l !! k = last_entry k l.
Proof.
  unfold Object_fromEntries. rewrite fromEntries_from.
  by destruct (last_entry k l).
Qed.

Lemma last_entry_None (k : string) (l : list (string * value)) :
  last_entry k l = None <-> Forall (fun kv => kv.1 <> k) l.
Proof.
  induction l as [| [k' v] rest IH]; cbn [last_entry].
  - split; [constructor | done].
  - destruct (last_entry k rest) eqn:Er.
    + split; [discriminate |]. intros H. inversion H as [| ? ? _ Hr]; subst.
      apply IH in Hr. discriminate.
    + destruct (String.eqb k' k) eqn:E.
      * apply String.eqb_eq in E. split; [discriminate |].
        intros H. inversion H as [| ? ? Hk _]; subst. by destruct Hk.
      * apply String.eqb_neq in E. split; [| done].
        intros _. constructor; [exact E | by apply IH].
Qed.

Lemma last_entry_Some (k : string) (l : list (string * value)) (v : value) :
  last_entry k l = Some v
  <-> exists l1 l2, l = (l1 ++ (k, v) :: l2)%list /\ Forall (fun kv => kv.1 <> k) l2.
Proof.
  split.
  - induction l as [| [k' v'] rest IH]; [discriminate |].
    cbn [last_entry]. destruct (last_entry k rest) as [x |] eqn:Er.
    + intros [= ->]. destruct (IH eq_refl) as (l1 & l2 & -> & Hl2).
      by exists ((k', v') :: l1), l2.
    + destruct (String.eqb k' k) eqn:E; [| discriminate].
      apply String.eqb_eq in E as ->. intros [= ->].
      exists [], rest. split; [reflexivity | by apply last_entry_None].
  - intros (l1 & l2 & -> & Hl2). induction l1 as [| [k' v'] l1 IH].
    + cbn. apply last_entry_None in Hl2. by rewrite Hl2, String.eqb_refl.
    + cbn [app last_entry]. by rewrite IH.
Qed.

Lemma last_cookie (parts : list string) (k : string) (v : value) :
  last_entry k (cookie_entry <$> parts) = Some v
  <-> exists before part after,
        parts = (before ++ part :: after)%list
        /\ cookie_entry part = (k, v)
        /\ Forall (fun p => (cookie_entry p).1 <> k) after.
Proof.
  rewrite last_entry_Some. split.
  - intros (l1 & l2 & Hl & Hl2).
    apply fmap_app_inv in Hl as (before & rest & -> & Hrest & Hparts).
    symmetry in Hrest. apply fmap_cons_inv in Hrest as (part & after & Hp & -> & ->).
    exists before, part, after. split; [exact Hparts |]. split; [by symmetry |].
    apply (Forall_fmap cookie_entry (fun kv => kv.1 <> k)) in Hl2. exact Hl2.
  - intros (before & part & after & -> & Hp & Ha).
    exists (cookie_entry <$> before), (cookie_entry <$> after).
    split; [by rewrite fmap_app, fmap_cons, Hp |]. apply (Forall_fmap cookie_entry (fun kv => kv.1 <> k)). exact Ha.
Qed.

Section SessionFacts.
Context {rt : Runtime} {dg : Digest}.

(** X26.  One part of a cookie header is cut at its first equals sign,
    white space around the part aside: the key has no equals sign, and
    the part is the key alone (the value is then empty) or the key, an
    equals sign and the value, which keeps any further equals signs. *)
Theorem cookie_is_cut_at_the_first_equals_sign (part : string) :
  exists key val,
    cookie_entry part = (key, VStr val)
    /\ occurs "=" key = false
    /\ (if occurs "=" (trim part)
        then trim part = (key ++ "=" ++ val)%string
        else trim part = key /\ val = "").
Proof.
  unfold cookie_entry.
  pose proof (split_on_concat "=" (trim part)) as Hcat.
  pose proof (split_on_free "=" (trim part)) as Hfree.
  destruct (occurs "=" (trim part)) eqn:Hocc.
  - pose proof (split_on_present _ _ Hocc) as Hne.
    destruct (split_on "=" (trim part)) as [key rest]. cbn [fst snd] in *.
    exists key, (String.concat "=" rest). split; [reflexivity |].
    split; [by inversion Hfree |].
    by rewrite <- Hcat, concat_cons_nonempty.
  - rewrite (split_on_absent _ _ Hocc). by exists (trim part), "".
Qed.

Lemma cookie_entry_sid (part token : string) :
  token <> "" ->
  cookie_entry part = ("sid", VStr token) <-> trim part = "sid=" ++ token.
Proof.
  intros Htok. unfold cookie_entry.
  pose proof (split_on_concat "=" (trim part)) as Hcat.
  split.
  - destruct (split_on "=" (trim part)) as [key rest]. cbn [fst snd] in Hcat.
    intros [= -> Hv]. destruct rest as [| r rs]; [by destruct Htok |].
    rewrite <- Hcat. rewrite concat_cons_nonempty by done. by rewrite Hv.
  - intros ->.
    pose proof (split_on_concat "=" token) as Htc.
    change ("sid=" ++ token)%string
      with (String "s" (String "i" (String "d" (String "=" token)))).
    cbn [split_on]. destruct (split_on "=" token) as [p ps].
    cbn [fst snd] in Htc. cbn [Ascii.eqb Bool.eqb]. by rewrite Htc.
Qed.

(** X27.  [parseCookies] returns the empty object for a missing or empty
    header.  For a header text it cuts the text at its semicolons (so the
    parts, joined by semicolons, give the text back, and no part has a
    semicolon) and maps each key to the value of the last part with that
    key. *)
Theorem parseCookies_keeps_the_last_value_of_a_key (s : string) :
  parseCookies VUndef = Ok ∅
  /\ parseCookies (VStr "") = Ok ∅
  /\ String.concat ";" (cookie_parts s) = s
  /\ Forall (fun p => occurs ";" p = false) (cookie_parts s)
  /\ (s <> "" ->
      exists cookies,
        parseCookies (VStr s) = Ok cookies
        /\ forall k v,
             cookies !! k = Some v
             <-> exists before part after,
                   cookie_parts s = (before ++ part :: after)%list
                   /\ cookie_entry part = (k, v)
                   /\ Forall (fun p => (cookie_entry p).1 <> k) after).
Proof.
  split; [reflexivity |]. split; [reflexivity |].
  split.
  { unfold cookie_parts. pose proof (split_on_concat ";" s) as H.
    by destruct (split_on ";" s). }
  split.
  { unfold cookie_parts. pose proof (split_on_free ";" s) as H.
    by destruct (split_on ";" s). }
  intros Hs. unfold parseCookies. cbn [truthy].
  apply String.eqb_neq in Hs. rewrite Hs. cbn [negb].
  eexists. split; [reflexivity |].
  intros k v. rewrite fromEntries_lookup. apply last_cookie.
Qed.

(** X28.  [validateSession] on a cookie header that is a text or is
    missing, for a user whose session token can be computed, never throws
    and returns [null] or the user's name.  It returns the name exactly
    when there is a user, the session token computed from the user is not
    empty, and the header presents that token: its last part with the key
    [sid] is [sid=<token>].  When the token cannot be computed (a field
    of the user record does not convert to a string), it returns [null]
    for a header without a non-empty [sid] and throws for the others. *)
Theorem session_is_valid_exactly_for_the_last_sid_cookie (cookie user : value) :
  cookie = VUndef \/ (exists s, cookie = VStr s) ->
  let text := match cookie with VStr s => s | _ => "" end in
  match makeSessionToken user with
  | Ok token =>
      exists r,
        validateSession cookie user = Ok r
        /\ (r = VNull
            \/ (r = get user "username"
                /\ truthy user = true /\ token <> "" /\ presents text token))
        /\ (truthy user = true -> token <> "" -> presents text token ->
            r = get user "username")
  | Raise e =>
      exists cookies,
        parseCookies (js_or cookie (VStr "")) = Ok cookies
        /\ validateSession cookie user
           = if truthy user && truthy (oget cookies "sid") then Raise e
             else Ok VNull
  end.
Proof.
  intros Hc. cbv zeta.
  set (text := match cookie with VStr s => s | _ => "" end).
  assert (forall v,
             last_entry "sid" (cookie_entry <$> cookie_parts text) = Some v
             <-> exists before part after,
                   cookie_parts text = (before ++ part :: after)%list
                   /\ cookie_entry part = ("sid", v)
                   /\ Forall (fun p => (cookie_entry p).1 <> "sid") after) as Hlast.
  { intros v. apply last_cookie. }
  assert (parseCookies (js_or cookie (VStr ""))
          = Ok (if String.eqb text "" then ∅
                else Object_fromEntries (cookie_entry <$> cookie_parts text))) as Hparse.
  { destruct Hc as [-> | [s ->]]; [reflexivity |].
    subst text. unfold js_or, parseCookies. cbn [truthy].
    destruct (String.eqb s "") eqn:Es; cbn [negb truthy]; [reflexivity |].
    by rewrite Es. }
  assert (forall v, oget (if String.eqb text "" then ∅
                          else Object_fromEntries (cookie_entry <$> cookie_parts text))
                      "sid" = v ->
                    truthy v = true ->
                    last_entry "sid" (cookie_entry <$> cookie_parts text) = Some v)
    as Hget.
  { intros v <-. unfold oget. destruct (String.eqb text "").
    - by rewrite lookup_empty.
    - rewrite fromEntries_lookup.
      by destruct (last_entry "sid" (cookie_entry <$> cookie_parts text)). }
  destruct (makeSessionToken user) as [e | token] eqn:Etok.
  { eexists. split; [exact Hparse |].
    unfold validateSession. rewrite Hparse, Etok. cbn [exc_bind].
    destruct (truthy user); cbn [negb andb]; [| reflexivity].
    by destruct (truthy (oget _ "sid")). }
  unfold validateSession. rewrite Etok.
  destruct (truthy user) eqn:Hu; cbn [negb].
  2:{ exists VNull. split; [reflexivity |]. split; [by left | done]. }
  rewrite Hparse. cbn [exc_bind].
  set (cookies := if String.eqb text "" then ∅
                  else Object_fromEntries (cookie_entry <$> cookie_parts text)) in *.
  destruct (truthy (oget cookies "sid")) eqn:Ht; cbn [negb].
  - destruct (strict_eq (oget cookies "sid") (VStr token)) eqn:Heq; cbn [negb].
    + exists (get user "username"). split; [reflexivity |].
      assert (oget cookies "sid" = VStr token) as Hsid.
      { destruct (oget cookies "sid"); try discriminate.
        cbn in Heq. by apply String.eqb_eq in Heq as ->. }
      split; [| done]. right. split; [reflexivity |]. split; [reflexivity |].
      assert (token <> "") as Hne.
      { intros E. rewrite Hsid, E in Ht. discriminate. }
      split; [exact Hne |].
      rewrite Hsid in Ht. pose proof (Hget _ Hsid Ht) as Hl.
      apply Hlast in Hl as (before & part & after & Hparts & Hp & Ha).
      exists before, part, after. split; [exact Hparts |].
      split; [by apply cookie_entry_sid | exact Ha].
    + exists VNull. split; [reflexivity |]. split; [by left |].
      intros _ Hne (before & part & after & Hparts & Hp & Ha).
      apply (cookie_entry_sid _ _ Hne) in Hp.
      pose proof (Hget _ eq_refl Ht) as Hl.
      assert (last_entry "sid" (cookie_entry <$> cookie_parts text) = Some (VStr token))
        as Hl' by (apply Hlast; by exists before, part, after).
      rewrite Hl in Hl'. injection Hl' as Hv. rewrite Hv in Heq.
      cbn in Heq. by rewrite String.eqb_refl in Heq.
  - exists VNull. split; [reflexivity |]. split; [by left |].
    intros _ Hne (before & part & after & Hparts & Hp & Ha).
    apply (cookie_entry_sid _ _ Hne) in Hp.
    assert (last_entry "sid" (cookie_entry <$> cookie_parts text) = Some (VStr token))
      as Hl' by (apply Hlast; by exists before, part, after).
    assert (text <> "") as Htext.
    { intros E. rewrite E in Hl'. vm_compute in Hl'. discriminate. }
    apply String.eqb_neq in Htext.
    subst cookies. rewrite Htext in Ht. unfold oget in Ht.
    rewrite fromEntries_lookup, Hl' in Ht. cbn in Ht.
    apply negb_false_iff, String.eqb_eq in Ht. by destruct Hne.
Qed.
End SessionFacts.

(** * The theorems at concrete inputs *)

Lemma C10_witness :
  truthy VNull = false
  /\ @decryptSecret sample_crypto VNull sample_key = Ok "".
Proof.
  split; [reflexivity |].
  apply (C10_decrypt_of_falsy_payload_is_empty sample_crypto VNull sample_key).
  reflexivity.
Defined.

Lemma C9_witness :
  truthy (w_env_token env_world) = true
  /\ @toggleSmartThingsDevice sample_runtime sample_crypto sample_remote
       (VStr "plug") (VBool true) (VStr "b") env_world
     = (Raise (Throw "Token für Quelle nicht gefunden"), env_world).
Proof.
  split; [reflexivity |].
  destruct (@C9_env_token_shadows_stored_sources sample_runtime sample_crypto
              sample_remote env_world eq_refl) as (_ & _ & Hd).
  destruct (Hd (VStr "b") eq_refl eq_refl) as [Ht _].
  apply Ht.
Defined.

Lemma C2_witness :
  truthy (w_env_token sample_world) = false
  /\ @toggleSmartThingsDevice sample_runtime sample_crypto sample_remote
       (VStr "plug") (VBool true) VUndef sample_world
     = @sendSmartThingsCommand sample_runtime sample_remote
         (VStr "plug") (VObj (stored_sample "b" true)) (VStr "switch")
         (VStr "on") (VArr []) sample_world.
Proof.
  split; [reflexivity |].
  pose proof (@C2_dispatch_picks_among_enabled_sources sample_runtime sample_crypto
                sample_remote sample_world VUndef eq_refl) as H.
  change (w_key sample_world) with (@Ok (list Byte.byte) sample_key) in H.
  cbv beta iota zeta in H. destruct H as (_ & Ht & _).
  rewrite Ht. vm_compute. reflexivity.
Defined.

(** C2 (as stated) fails: the stored entry ["a"] exists but is disabled;
    a toggle with [sourceId: "a"] does not use it, it throws the
    source-not-found error and sends nothing. *)
Lemma C2_counterexample :
  fst (@getStoredSmartThingsTokens sample_crypto sample_world)
  = Ok [stored_sample "a" false; stored_sample "b" true]
  /\ @toggleSmartThingsDevice sample_runtime sample_crypto sample_remote
       (VStr "plug") (VBool true) (VStr "a") sample_world
     = (Raise (Throw "Token für Quelle nicht gefunden"), sample_world).
Proof. split; vm_compute; reflexivity. Qed.

Lemma C3_witness :
  is_str (get (oget morning_after "trigger") "type") "time" = true
  /\ tracker_get (w_tracker fired_once) (oget morning_after "id")
     = Some (slot_key (w_clock fired_once (w_ticks fired_once)))
  /\ exists fired w',
       @evaluateRoutines sample_runtime fired_once = (Ok tt, w')
       /\ w_launched w' = (w_launched fired_once ++ fired)%list
       /\ (morning_after ∉ fired).
Proof.
  assert (tracker_get (w_tracker fired_once) (oget morning_after "id")
          = Some (slot_key (w_clock fired_once (w_ticks fired_once)))) as Hrec
    by (vm_compute; reflexivity).
  split; [reflexivity |]. split; [exact Hrec |].
  destruct (@C3_no_second_fire_in_same_slot sample_runtime fired_once morning_after
              eq_refl Hrec) as (fired & w' & E & Hl & _ & Hout & _).
  exists fired, w'. split; [exact E |]. split; [exact Hl | exact Hout].
Defined.

Lemma C4_witness :
  oget three_steps "actions"
  = VArr [toggle_action "a1" "plug" true; toggle_action "a2" "bad" true;
          toggle_action "a3" "lamp" false]
  /\ exists results w',
       @runRoutineActions sample_runtime sample_crypto sample_remote
         three_steps sample_world = (Ok results, w')
       /\ length results = 3%nat.
Proof.
  split; [reflexivity |].
  destruct (@C4_one_entry_per_action_despite_failures sample_runtime sample_crypto
              sample_remote three_steps _ sample_world eq_refl eq_refl)
    as (results & w' & E & Hlen & _).
  exists results, w'. split; [exact E | exact Hlen].
Defined.


Lemma C7_witness :
  @buildRoutineFromPayload sample_runtime rename_payload (Some morning)
    (num_of_Z 1700037000000) 0
  = Ok (BuildRoutine (<["updatedAt" := VNum (num_of_Z 1700037000000)]>
                        (<["name" := VStr "Evening"]> morning)))
  /\ (<["updatedAt" := VNum (num_of_Z 1700037000000)]>
        (<["name" := VStr "Evening"]> morning)) !! "actions"
     = morning !! "actions".
Proof.
  assert (@buildRoutineFromPayload sample_runtime rename_payload (Some morning)
            (num_of_Z 1700037000000) 0
          = Ok (BuildRoutine (<["updatedAt" := VNum (num_of_Z 1700037000000)]>
                                (<["name" := VStr "Evening"]> morning)))) as Hb
    by (vm_compute; reflexivity).
  split; [exact Hb |].
  destruct (@C7_update_is_partial_merge sample_runtime _ _ _ _ _ Hb) as [_ Hp].
  destruct (Hp morning eq_refl) as (_ & _ & _ & _ & _ & _ & _ & Ha).
  apply Ha; reflexivity.
Defined.

(** C7 (as stated) fails: the payload [{action: ...}] omits the key
    [actions], the update succeeds, and the stored [actions] is replaced. *)
Lemma C7_counterexample :
  match @buildRoutineFromPayload sample_runtime alias_payload (Some morning)
          (num_of_Z 1700037000000) 0 with
  | Ok (BuildRoutine r) =>
      get alias_payload "actions" = VUndef
      /\ r !! "actions" <> morning !! "actions"
  | _ => False
  end.
Proof. vm_compute. split; [reflexivity | discriminate]. Qed.

Lemma X29_witness :
  forallb well_typed_action (action_list mixed_actions) = true
  /\ exists out,
       @normalizeActions sample_runtime mixed_actions 0 = Ok out
       /\ length out = 1%nat.
Proof.
  split; [reflexivity |].
  destruct (@well_typed_actions_are_filtered_and_capped sample_runtime mixed_actions
              eq_refl) as [Hkeep _].
  destruct (Hkeep 0%nat) as (out & E & _ & Hlen).
  exists out. split; [exact E | exact Hlen].
Defined.

(** * Worked examples *)

(** Two stored sources, decrypted with the key of the vault. *)
Example sample_stored :
  fst (@getStoredSmartThingsTokens sample_crypto sample_world)
  = Ok [stored_sample "a" false; stored_sample "b" true].
Proof. vm_compute. reflexivity. Qed.

(** Without a [sourceId] the dispatch goes out with the token of ["b"]. *)
Example dispatch_defaults_to_first_enabled :
  rq_authorization
  <$> w_requests (snd (@toggleSmartThingsDevice sample_runtime sample_crypto
                         sample_remote (VStr "plug") (VBool true) VUndef sample_world))
  = ["Bearer token-b"; "Bearer token-b"; "Bearer token-b"].
Proof. vm_compute. reflexivity. Qed.

(** Three actions, the second refused by the service: three entries, the
    second with [ok: false], and the third still sent. *)
Example second_of_three_fails :
  match @runRoutineActions sample_runtime sample_crypto sample_remote
          three_steps sample_world with
  | (Ok results, w') =>
      ok <$> results = [true; false; true]
      /\ error <$> results
         = [None; Some "SmartThings Command fehlgeschlagen (500) refused"; None]
      /\ rq_url <$> List.filter (fun rq => String.eqb (rq_method rq) "POST")
                      (w_requests w')
         = ["https://api.smartthings.com/v1/devices/plug/commands";
            "https://api.smartthings.com/v1/devices/bad/commands";
            "https://api.smartthings.com/v1/devices/lamp/commands"]
  | _ => False
  end.
Proof. vm_compute. repeat split; reflexivity. Qed.

(** A time trigger matching the clock: the first evaluation fires, the
    second, within the same minute, does not. *)
Example time_trigger_fires_once_per_slot :
  w_launched fired_once = [morning]
  /\ w_routines fired_once = [morning_after]
  /\ w_launched (snd (@evaluateRoutines sample_runtime fired_once)) = [morning].
Proof. split; [| split]; vm_compute; reflexivity. Qed.

(** A stored [everyMinutes] of 1.1: the interval the code computes is
    [1.1 * 60 * 1000] in doubles, which is 66000 and not the exact product
    of the stored double. *)
Example fractional_minutes_are_multiplied_in_doubles :
  num_mul (num_mul one_point_one (num_of_Z 60)) (num_of_Z 1000) = Fin 66000
  /\ (one_point_one_exact * 60 * 1000 > 66000)%Q.
Proof. split; [vm_compute; reflexivity | unfold one_point_one_exact; reflexivity]. Qed.

(** An interval routine that never ran fires at the first evaluation. *)
Example interval_routine_that_never_ran_fires :
  @fires sample_runtime (sample_instant 0) three_steps sample_world.
Proof. unfold fires. eexists _, _. split; vm_compute; reflexivity. Qed.

(** A creation request whose second action has the number 5 as its
    capability: nothing is stored. *)
Example numeric_capability_stores_nothing :
  fst (@routines_post sample_runtime untyped_payload 0 sample_world)
  = Raise (Throw "trim is not a function")
  /\ w_routines (snd (@routines_post sample_runtime untyped_payload 0 sample_world))
     = [].
Proof. split; vm_compute; reflexivity. Qed.

(** * The further properties at concrete inputs *)

Lemma morning_stored : stored_routine morning.
Proof.
  split.
  - left. exists 8%nat, 30%nat, []. split; [lia |]. split; [lia |].
    split; [constructor | reflexivity].
  - exists [<["desiredState" := VBool true]>
              (<["type" := VStr "device_toggle"]>
                 (<["deviceId" := VStr "plug"]> (<["id" := VStr "a1"]> ∅)))].
    split; [reflexivity |]. split; [discriminate |]. split; [cbn; lia |].
    constructor; [| constructor].
    split; [by exists "plug" |]. left. split; [reflexivity | by exists true].
Qed.

Lemma X3_witness :
  @normalizeActions sample_runtime mixed_actions 0 = Ok kept_actions
  /\ (length kept_actions <= 20)%nat /\ Forall stored_action kept_actions.
Proof.
  assert (@normalizeActions sample_runtime mixed_actions 0 = Ok kept_actions) as E
    by (vm_compute; reflexivity).
  split; [exact E |].
  exact (@normalizeActions_stores_well_formed_actions sample_runtime
           mixed_actions 0 kept_actions E).
Defined.

Lemma X6_witness :
  @buildRoutineFromPayload sample_runtime
    (interval_payload (interval_trigger (VNum (num_of_Z 5)))) None
    (num_of_Z 1700037000000) 0
  = Ok (BuildRoutine created_sample)
  /\ created_sample !! "id" = Some (VStr (sample_randomHex 8 0))
  /\ created_sample !! "lastRunAt" = Some VNull
  /\ created_sample !! "enabled" = Some (VBool true).
Proof.
  assert (@buildRoutineFromPayload sample_runtime
            (interval_payload (interval_trigger (VNum (num_of_Z 5)))) None
            (num_of_Z 1700037000000) 0
          = Ok (BuildRoutine created_sample)) as E by (vm_compute; reflexivity).
  split; [exact E |].
  destruct (@created_routine_has_only_server_fields sample_runtime _ _ _ _ E)
    as (Hid & _ & _ & Hlast & Hen & _).
  split; [exact Hid |]. split; [exact Hlast | exact Hen].
Defined.

Lemma X7_witness :
  @buildRoutineFromPayload sample_runtime rename_payload (Some morning)
    (num_of_Z 1700037000000) 0
  = Ok (BuildRoutine renamed_morning)
  /\ stored_routine renamed_morning.
Proof.
  assert (@buildRoutineFromPayload sample_runtime rename_payload (Some morning)
            (num_of_Z 1700037000000) 0
          = Ok (BuildRoutine renamed_morning)) as E by (vm_compute; reflexivity).
  split; [exact E |].
  apply (@built_routines_keep_the_store_invariant sample_runtime rename_payload
           (Some morning) (num_of_Z 1700037000000) 0%nat renamed_morning);
    [| exact E].
  intros prior [= <-]. exact morning_stored.
Defined.

Lemma X8_witness :
  @decryptSecret sample_crypto (sealed "token-b" 1) sample_key = Ok "token-b".
Proof.
  destruct (@decrypt_inverts_encrypt sample_crypto "token-b" sample_key 1%nat
              (list_byte_of_string "token-b")
              (sample_tag sample_key (repeat x01 12)))
    as [_ Hd].
  - reflexivity.
  - reflexivity.
  - reflexivity.
  - vm_compute. reflexivity.
  - vm_compute. reflexivity.
  - vm_compute. discriminate.
  - reflexivity.
  - exact Hd.
Defined.

Lemma X10_witness :
  exists entries',
    @saveSmartThingsEntry sample_runtime sample_crypto
      (VStr "b") (VStr "Second") "fresh" VUndef 5 sample_world
    = (Ok (VStr "b"), set_entries entries' (set_ticks 1 sample_world))
    /\ length entries' = 2%nat
    /\ entries' !! 0%nat = Some (sample_entry "a" false 0).
Proof.
  destruct (@upsert_replaces_in_place_or_appends sample_runtime sample_crypto
              sample_world sample_key (VStr "b") (VStr "Second") VUndef "fresh" _ 5%nat
              eq_refl eq_refl eq_refl)
    as (entries' & E & _ & Hin).
  exists entries'. split; [exact E |].
  destruct (Hin 1%nat (sample_entry "b" true 1) eq_refl eq_refl)
    as (_ & Hlen & Hrest & _).
  - intros [| k] e' Hk Hlook; [| lia].
    injection Hlook as <-. reflexivity.
  - split; [exact Hlen |]. by rewrite Hrest.
Defined.

Lemma X11_witness :
  exists newId w' out o,
    @saveSmartThingsEntry sample_runtime sample_crypto
      (VStr "b") (VStr "Second") "fresh" VUndef 5 sample_world = (Ok newId, w')
    /\ @getStoredSmartThingsTokens sample_crypto w' = (Ok out, w')
    /\ o ∈ out
    /\ oget o "id" = VStr "b"
    /\ oget o "token" = VStr "fresh"
    /\ oget o "label" = VStr "Second"
    /\ oget o "enabled" = VBool true.
Proof.
  destruct (@saved_entry_reads_back sample_runtime sample_crypto
              sample_world sample_key (VStr "b") (VStr "Second") VUndef "fresh" 5%nat
              (list_byte_of_string "fresh")
              (sample_tag sample_key (repeat x05 12)))
    as (newId & w' & out & o & E & Hget & Hin & Hid & Htok & Hlab & Hen).
  - reflexivity.
  - reflexivity.
  - reflexivity.
  - reflexivity.
  - reflexivity.
  - vm_compute. reflexivity.
  - vm_compute. reflexivity.
  - vm_compute. discriminate.
  - reflexivity.
  - exists newId, w', out, o. split; [exact E |]. split; [exact Hget |].
    split; [exact Hin |].
    assert (newId = VStr "b") as ->.
    { pose proof E as E'. vm_compute in E'. by injection E' as <- _. }
    split; [exact Hid |]. split; [exact Htok |]. split; [exact Hlab | exact Hen].
Defined.

Lemma X13_witness :
  exists results w' added,
    @runRoutineActions sample_runtime sample_crypto sample_remote
      three_steps sample_world = (Ok results, w')
    /\ w_log w' = (w_log sample_world ++ added)%list
    /\ length added = successes results
    /\ w_routines w' = w_routines sample_world.
Proof.
  destruct (@runRoutineActions sample_runtime sample_crypto sample_remote
              three_steps sample_world) as [[e | results] w'] eqn:E.
  - vm_compute in E. discriminate.
  - destruct (@run_logs_one_line_per_success sample_runtime sample_crypto
                sample_remote three_steps _ sample_world w' results
                eq_refl eq_refl E)
      as (added & Hlog & Hlen & Hr & _).
    exists results, w', added. split; [reflexivity |].
    split; [exact Hlog |]. split; [exact Hlen | exact Hr].
Defined.

Lemma X15_witness :
  truthy (oget morning "enabled") = true
  /\ is_str (get (oget morning "trigger") "type") "time" = true
  /\ @fires sample_runtime (sample_instant 0) morning time_world.
Proof.
  split; [reflexivity |]. split; [reflexivity |].
  destruct (@time_trigger_fires_exactly_when_due sample_runtime (sample_instant 0)
              morning time_world eq_refl eq_refl) as [[_ Hfire] _].
  apply Hfire. split; [vm_compute; reflexivity |].
  split; [left; vm_compute; reflexivity | vm_compute; discriminate].
Defined.

Lemma X16_witness :
  slot_key (w_clock fired_once (w_ticks fired_once))
  = slot_key (w_clock time_world (w_ticks time_world))
  /\ exists fired1 fired2 w2,
       w_launched fired_once = (w_launched time_world ++ fired1)%list
       /\ @evaluateRoutines sample_runtime fired_once = (Ok tt, w2)
       /\ w_launched w2 = (w_launched fired_once ++ fired2)%list
       /\ (morning ∈ fired1 -> morning_after ∉ fired2).
Proof.
  assert (slot_key (w_clock fired_once (w_ticks fired_once))
          = slot_key (w_clock time_world (w_ticks time_world))) as Hslot
    by (vm_compute; reflexivity).
  split; [exact Hslot |].
  destruct (@consecutive_evaluations_fire_a_time_trigger_once sample_runtime
              time_world Hslot) as (fired1 & fired2 & w2 & H1 & E & H2 & Hnot).
  exists fired1, fired2, w2. split; [exact H1 |]. split; [exact E |].
  split; [exact H2 |].
  intros Hin. by apply (Hnot morning morning_after Hin).
Defined.

Lemma X22_witness :
  Forall stored_routine (w_routines time_world)
  /\ Forall stored_routine
       (w_routines (snd (@evaluateRoutines sample_runtime time_world)))
  /\ Forall stored_routine
       (w_routines (snd (@routines_run sample_runtime sample_crypto sample_remote
                           "r1" time_world))).
Proof.
  assert (Forall stored_routine (w_routines time_world)) as Hinv
    by (constructor; [exact morning_stored | constructor]).
  split; [exact Hinv |].
  destruct (@store_invariant_is_kept_by_every_operation sample_runtime sample_crypto
              sample_remote time_world Hinv) as (_ & _ & _ & Hrun & Heval).
  split; [exact Heval | exact (Hrun "r1")].
Defined.

Lemma X25_witness :
  mapSmartThingsDevice sample_device sample_status = Ok mapped_sample
  /\ oget mapped_sample "type" = VStr "Licht"
  /\ truthy (oget mapped_sample "name") = true.
Proof.
  assert (mapSmartThingsDevice sample_device sample_status = Ok mapped_sample) as E
    by (vm_compute; reflexivity).
  split; [exact E |].
  destruct (device_type_prefers_light_over_socket sample_device sample_status
              mapped_sample E) as (caps & Hcaps & Hname & _ & _ & Htype).
  assert (caps = [VStr "switch"; VStr "switchLevel"; VStr "powerMeter"]) as ->.
  { vm_compute in Hcaps. by injection Hcaps as <-. }
  split; [exact Htype | exact Hname].
Defined.

Lemma X28_witness :
  @validateSession sample_runtime sample_digest (VStr sample_cookie) sample_user
  = Ok (VStr "admin").
Proof.
  destruct (@session_is_valid_exactly_for_the_last_sid_cookie sample_runtime
              sample_digest (VStr sample_cookie) sample_user
              (or_intror (ex_intro _ sample_cookie eq_refl)))
    as (r & E & _ & Hyes).
  rewrite E. f_equal. apply Hyes.
  - reflexivity.
  - vm_compute. discriminate.
  - exists ["theme=dark"], " sid=digest-of-admin:ab:cd", [].
    split; [vm_compute; reflexivity |]. split; [vm_compute; reflexivity |].
    constructor.
Defined.
